(** * Scaler AI masterclass funnel: the rule-based helpers of [scalar.py]

    A shallow embedding of the helper functions of the application
    ([extract_profile_from_resume], [generate_personalized_nuggets],
    [assign_random_team], [simulate_scoring], [discount_by_score],
    [generate_personalized_email]), of the session state and of the page
    code that writes it, and the properties stated about them.

    Conventions.
    - A Python [str] is a [string]: the sequence of the bytes of its UTF-8
      encoding, which every [str] of Unicode scalar values has (the texts
      of the widgets of the application are such).  The built-ins that work
      on characters ([len], slicing, [lower], [split], [strip]) read the
      characters back from the bytes and follow Unicode 14.0, as
      CPython 3.11 does.
    - A Python [float] is a primitive binary64 [float]; [+], [*], [/] and the
      comparisons are the IEEE 754 operations Python uses.
    - A Python [int] is a [Z].
    - [None] is [None]; a dict with a fixed set of optional keys is a record
      of options; a dict whose order matters is an association list. *)

From Stdlib Require Import NArith ZArith Lia ZifyBool Bool List Ascii String
  Floats.
Import ListNotations.

Set Warnings "-inexact-float".

Local Open Scope string_scope.
Local Open Scope list_scope.

(* ================================================================== *)
(** * Python built-ins on [str] *)
(* ================================================================== *)

Module PyStr.

(** A Python [str] is kept as the bytes of its UTF-8 encoding.  [decode]
    reads the characters back: each one with its code point and its bytes.
    A byte that is not part of a well-formed sequence is a character of its
    own, numbered as Python's [surrogateescape] numbers it, so every byte
    string stands for one [str]. *)
Definition byte (c : ascii) : N := N_of_ascii c.

Definition in_range (lo hi x : N) : bool := (lo <=? x)%N && (x <=? hi)%N.

Definition is_cont (c : ascii) : bool := in_range 0x80 0xBF (byte c).

Definition cont_bits (c : ascii) : N := (byte c - 0x80)%N.

Definition two_ok (b0 b1 : ascii) : bool :=
  in_range 0xC2 0xDF (byte b0) && is_cont b1.

Definition three_ok (b0 b1 b2 : ascii) : bool :=
  ((byte b0 =? 0xE0)%N && in_range 0xA0 0xBF (byte b1)
   || in_range 0xE1 0xEC (byte b0) && is_cont b1
   || (byte b0 =? 0xED)%N && in_range 0x80 0x9F (byte b1)
   || in_range 0xEE 0xEF (byte b0) && is_cont b1)
  && is_cont b2.

Definition four_ok (b0 b1 b2 b3 : ascii) : bool :=
  ((byte b0 =? 0xF0)%N && in_range 0x90 0xBF (byte b1)
   || in_range 0xF1 0xF3 (byte b0) && is_cont b1
   || (byte b0 =? 0xF4)%N && in_range 0x80 0x8F (byte b1))
  && is_cont b2 && is_cont b3.

Definition cp2 (b0 b1 : ascii) : N :=
  ((byte b0 - 0xC0) * 64 + cont_bits b1)%N.

Definition cp3 (b0 b1 b2 : ascii) : N :=
  ((byte b0 - 0xE0) * 4096 + cont_bits b1 * 64 + cont_bits b2)%N.

Definition cp4 (b0 b1 b2 b3 : ascii) : N :=
  ((byte b0 - 0xF0) * 262144 + cont_bits b1 * 4096 + cont_bits b2 * 64
   + cont_bits b3)%N.

Definition escape (b0 : ascii) : N := (0xDC00 + byte b0)%N.

Definition chunk1 (b0 : ascii) : string := String b0 EmptyString.

Fixpoint decode (s : string) : list (N * string) :=
  match s with
  | EmptyString => []
  | String b0 s1 =>
      if (byte b0 <? 0x80)%N then (byte b0, chunk1 b0) :: decode s1
      else
        match s1 with
        | EmptyString => [(escape b0, chunk1 b0)]
        | String b1 s2 =>
            if two_ok b0 b1
            then (cp2 b0 b1, String b0 (chunk1 b1)) :: decode s2
            else
              match s2 with
              | EmptyString => (escape b0, chunk1 b0) :: decode s1
              | String b2 s3 =>
                  if three_ok b0 b1 b2
                  then (cp3 b0 b1 b2, String b0 (String b1 (chunk1 b2)))
                       :: decode s3
                  else
                    match s3 with
                    | EmptyString => (escape b0, chunk1 b0) :: decode s1
                    | String b3 s4 =>
                        if four_ok b0 b1 b2 b3
                        then (cp4 b0 b1 b2 b3,
                              String b0 (String b1 (String b2 (chunk1 b3))))
                             :: decode s4
                        else (escape b0, chunk1 b0) :: decode s1
                    end
              end
        end
  end.

(** The bytes of a list of characters, one after the other. *)
Fixpoint unchars (l : list (N * string)) : string :=
  match l with
  | [] => EmptyString
  | (_, chunk) :: l' => (chunk ++ unchars l')%string
  end.

(** The UTF-8 bytes of a code point. *)
Definition encode (cp : N) : string :=
  if (cp <? 0x80)%N then chunk1 (ascii_of_N cp)
  else if (cp <? 0x800)%N then
    String (ascii_of_N (0xC0 + cp / 64)) (chunk1 (ascii_of_N (0x80 + cp mod 64)))
  else if (cp <? 0x10000)%N then
    String (ascii_of_N (0xE0 + cp / 4096))
      (String (ascii_of_N (0x80 + (cp / 64) mod 64))
         (chunk1 (ascii_of_N (0x80 + cp mod 64))))
  else
    String (ascii_of_N (0xF0 + cp / 262144))
      (String (ascii_of_N (0x80 + (cp / 4096) mod 64))
         (String (ascii_of_N (0x80 + (cp / 64) mod 64))
            (chunk1 (ascii_of_N (0x80 + cp mod 64))))).

Fixpoint encode_all (l : list N) : string :=
  match l with
  | [] => EmptyString
  | cp :: l' => (encode cp ++ encode_all l')%string
  end.

(** [len(s)]: the number of characters. *)
Definition len (s : string) : nat := List.length (decode s).

(** [c.isspace()] for the character of a code point: the characters of
    bidirectional type WS, B or S and of category Zs. *)
Definition whitespace : list N :=
  [ 0x9; 0xA; 0xB; 0xC; 0xD; 0x1C; 0x1D; 0x1E; 0x1F; 0x20; 0x85; 0xA0;
    0x1680; 0x2000; 0x2001; 0x2002; 0x2003; 0x2004; 0x2005; 0x2006;
    0x2007; 0x2008; 0x2009; 0x200A; 0x2028; 0x2029; 0x202F; 0x205F;
    0x3000 ]%N.

Definition isspace (cp : N) : bool := existsb (N.eqb cp) whitespace.

(** The case tables of Unicode 14.0, the version of CPython 3.11: the
    simple lower-case mapping as runs [(first, last, step, image of
    first)], and the ranges of the cased and of the case-ignorable
    characters. *)
Definition lower_runs : list (N * N * N * N) :=
  [
    (0x41, 0x5A, 1, 0x61); (0xC0, 0xD6, 1, 0xE0);
    (0xD8, 0xDE, 1, 0xF8); (0x100, 0x12E, 2, 0x101);
    (0x132, 0x136, 2, 0x133); (0x139, 0x147, 2, 0x13A);
    (0x14A, 0x176, 2, 0x14B); (0x178, 0x178, 1, 0xFF);
    (0x179, 0x17D, 2, 0x17A); (0x181, 0x181, 1, 0x253);
    (0x182, 0x184, 2, 0x183); (0x186, 0x186, 1, 0x254);
    (0x187, 0x187, 1, 0x188); (0x189, 0x18A, 1, 0x256);
    (0x18B, 0x18B, 1, 0x18C); (0x18E, 0x18E, 1, 0x1DD);
    (0x18F, 0x18F, 1, 0x259); (0x190, 0x190, 1, 0x25B);
    (0x191, 0x191, 1, 0x192); (0x193, 0x193, 1, 0x260);
    (0x194, 0x194, 1, 0x263); (0x196, 0x196, 1, 0x269);
    (0x197, 0x197, 1, 0x268); (0x198, 0x198, 1, 0x199);
    (0x19C, 0x19C, 1, 0x26F); (0x19D, 0x19D, 1, 0x272);
    (0x19F, 0x19F, 1, 0x275); (0x1A0, 0x1A4, 2, 0x1A1);
    (0x1A6, 0x1A6, 1, 0x280); (0x1A7, 0x1A7, 1, 0x1A8);
    (0x1A9, 0x1A9, 1, 0x283); (0x1AC, 0x1AC, 1, 0x1AD);
    (0x1AE, 0x1AE, 1, 0x288); (0x1AF, 0x1AF, 1, 0x1B0);
    (0x1B1, 0x1B2, 1, 0x28A); (0x1B3, 0x1B5, 2, 0x1B4);
    (0x1B7, 0x1B7, 1, 0x292); (0x1B8, 0x1B8, 1, 0x1B9);
    (0x1BC, 0x1BC, 1, 0x1BD); (0x1C4, 0x1C4, 1, 0x1C6);
    (0x1C5, 0x1C5, 1, 0x1C6); (0x1C7, 0x1C7, 1, 0x1C9);
    (0x1C8, 0x1C8, 1, 0x1C9); (0x1CA, 0x1CA, 1, 0x1CC);
    (0x1CB, 0x1DB, 2, 0x1CC); (0x1DE, 0x1EE, 2, 0x1DF);
    (0x1F1, 0x1F1, 1, 0x1F3); (0x1F2, 0x1F4, 2, 0x1F3);
    (0x1F6, 0x1F6, 1, 0x195); (0x1F7, 0x1F7, 1, 0x1BF);
    (0x1F8, 0x21E, 2, 0x1F9); (0x220, 0x220, 1, 0x19E);
    (0x222, 0x232, 2, 0x223); (0x23A, 0x23A, 1, 0x2C65);
    (0x23B, 0x23B, 1, 0x23C); (0x23D, 0x23D, 1, 0x19A);
    (0x23E, 0x23E, 1, 0x2C66); (0x241, 0x241, 1, 0x242);
    (0x243, 0x243, 1, 0x180); (0x244, 0x244, 1, 0x289);
    (0x245, 0x245, 1, 0x28C); (0x246, 0x24E, 2, 0x247);
    (0x370, 0x372, 2, 0x371); (0x376, 0x376, 1, 0x377);
    (0x37F, 0x37F, 1, 0x3F3); (0x386, 0x386, 1, 0x3AC);
    (0x388, 0x38A, 1, 0x3AD); (0x38C, 0x38C, 1, 0x3CC);
    (0x38E, 0x38F, 1, 0x3CD); (0x391, 0x3A1, 1, 0x3B1);
    (0x3A3, 0x3AB, 1, 0x3C3); (0x3CF, 0x3CF, 1, 0x3D7);
    (0x3D8, 0x3EE, 2, 0x3D9); (0x3F4, 0x3F4, 1, 0x3B8);
    (0x3F7, 0x3F7, 1, 0x3F8); (0x3F9, 0x3F9, 1, 0x3F2);
    (0x3FA, 0x3FA, 1, 0x3FB); (0x3FD, 0x3FF, 1, 0x37B);
    (0x400, 0x40F, 1, 0x450); (0x410, 0x42F, 1, 0x430);
    (0x460, 0x480, 2, 0x461); (0x48A, 0x4BE, 2, 0x48B);
    (0x4C0, 0x4C0, 1, 0x4CF); (0x4C1, 0x4CD, 2, 0x4C2);
    (0x4D0, 0x52E, 2, 0x4D1); (0x531, 0x556, 1, 0x561);
    (0x10A0, 0x10C5, 1, 0x2D00); (0x10C7, 0x10C7, 1, 0x2D27);
    (0x10CD, 0x10CD, 1, 0x2D2D); (0x13A0, 0x13EF, 1, 0xAB70);
    (0x13F0, 0x13F5, 1, 0x13F8); (0x1C90, 0x1CBA, 1, 0x10D0);
    (0x1CBD, 0x1CBF, 1, 0x10FD); (0x1E00, 0x1E94, 2, 0x1E01);
    (0x1E9E, 0x1E9E, 1, 0xDF); (0x1EA0, 0x1EFE, 2, 0x1EA1);
    (0x1F08, 0x1F0F, 1, 0x1F00); (0x1F18, 0x1F1D, 1, 0x1F10);
    (0x1F28, 0x1F2F, 1, 0x1F20); (0x1F38, 0x1F3F, 1, 0x1F30);
    (0x1F48, 0x1F4D, 1, 0x1F40); (0x1F59, 0x1F5F, 2, 0x1F51);
    (0x1F68, 0x1F6F, 1, 0x1F60); (0x1F88, 0x1F8F, 1, 0x1F80);
    (0x1F98, 0x1F9F, 1, 0x1F90); (0x1FA8, 0x1FAF, 1, 0x1FA0);
    (0x1FB8, 0x1FB9, 1, 0x1FB0); (0x1FBA, 0x1FBB, 1, 0x1F70);
    (0x1FBC, 0x1FBC, 1, 0x1FB3); (0x1FC8, 0x1FCB, 1, 0x1F72);
    (0x1FCC, 0x1FCC, 1, 0x1FC3); (0x1FD8, 0x1FD9, 1, 0x1FD0);
    (0x1FDA, 0x1FDB, 1, 0x1F76); (0x1FE8, 0x1FE9, 1, 0x1FE0);
    (0x1FEA, 0x1FEB, 1, 0x1F7A); (0x1FEC, 0x1FEC, 1, 0x1FE5);
    (0x1FF8, 0x1FF9, 1, 0x1F78); (0x1FFA, 0x1FFB, 1, 0x1F7C);
    (0x1FFC, 0x1FFC, 1, 0x1FF3); (0x2126, 0x2126, 1, 0x3C9);
    (0x212A, 0x212A, 1, 0x6B); (0x212B, 0x212B, 1, 0xE5);
    (0x2132, 0x2132, 1, 0x214E); (0x2160, 0x216F, 1, 0x2170);
    (0x2183, 0x2183, 1, 0x2184); (0x24B6, 0x24CF, 1, 0x24D0);
    (0x2C00, 0x2C2F, 1, 0x2C30); (0x2C60, 0x2C60, 1, 0x2C61);
    (0x2C62, 0x2C62, 1, 0x26B); (0x2C63, 0x2C63, 1, 0x1D7D);
    (0x2C64, 0x2C64, 1, 0x27D); (0x2C67, 0x2C6B, 2, 0x2C68);
    (0x2C6D, 0x2C6D, 1, 0x251); (0x2C6E, 0x2C6E, 1, 0x271);
    (0x2C6F, 0x2C6F, 1, 0x250); (0x2C70, 0x2C70, 1, 0x252);
    (0x2C72, 0x2C72, 1, 0x2C73); (0x2C75, 0x2C75, 1, 0x2C76);
    (0x2C7E, 0x2C7F, 1, 0x23F); (0x2C80, 0x2CE2, 2, 0x2C81);
    (0x2CEB, 0x2CED, 2, 0x2CEC); (0x2CF2, 0x2CF2, 1, 0x2CF3);
    (0xA640, 0xA66C, 2, 0xA641); (0xA680, 0xA69A, 2, 0xA681);
    (0xA722, 0xA72E, 2, 0xA723); (0xA732, 0xA76E, 2, 0xA733);
    (0xA779, 0xA77B, 2, 0xA77A); (0xA77D, 0xA77D, 1, 0x1D79);
    (0xA77E, 0xA786, 2, 0xA77F); (0xA78B, 0xA78B, 1, 0xA78C);
    (0xA78D, 0xA78D, 1, 0x265); (0xA790, 0xA792, 2, 0xA791);
    (0xA796, 0xA7A8, 2, 0xA797); (0xA7AA, 0xA7AA, 1, 0x266);
    (0xA7AB, 0xA7AB, 1, 0x25C); (0xA7AC, 0xA7AC, 1, 0x261);
    (0xA7AD, 0xA7AD, 1, 0x26C); (0xA7AE, 0xA7AE, 1, 0x26A);
    (0xA7B0, 0xA7B0, 1, 0x29E); (0xA7B1, 0xA7B1, 1, 0x287);
    (0xA7B2, 0xA7B2, 1, 0x29D); (0xA7B3, 0xA7B3, 1, 0xAB53);
    (0xA7B4, 0xA7C2, 2, 0xA7B5); (0xA7C4, 0xA7C4, 1, 0xA794);
    (0xA7C5, 0xA7C5, 1, 0x282); (0xA7C6, 0xA7C6, 1, 0x1D8E);
    (0xA7C7, 0xA7C9, 2, 0xA7C8); (0xA7D0, 0xA7D0, 1, 0xA7D1);
    (0xA7D6, 0xA7D8, 2, 0xA7D7); (0xA7F5, 0xA7F5, 1, 0xA7F6);
    (0xFF21, 0xFF3A, 1, 0xFF41); (0x10400, 0x10427, 1, 0x10428);
    (0x104B0, 0x104D3, 1, 0x104D8); (0x10570, 0x1057A, 1, 0x10597);
    (0x1057C, 0x1058A, 1, 0x105A3); (0x1058C, 0x10592, 1, 0x105B3);
    (0x10594, 0x10595, 1, 0x105BB); (0x10C80, 0x10CB2, 1, 0x10CC0);
    (0x118A0, 0x118BF, 1, 0x118C0); (0x16E40, 0x16E5F, 1, 0x16E60);
    (0x1E900, 0x1E921, 1, 0x1E922) ]%N.

Definition cased_ranges : list (N * N) :=
  [
    (0x41, 0x5A); (0x61, 0x7A); (0xAA, 0xAA); (0xB5, 0xB5);
    (0xBA, 0xBA); (0xC0, 0xD6); (0xD8, 0xF6); (0xF8, 0x1BA);
    (0x1BC, 0x1BF); (0x1C4, 0x293); (0x295, 0x2B8); (0x2C0, 0x2C1);
    (0x2E0, 0x2E4); (0x345, 0x345); (0x370, 0x373); (0x376, 0x377);
    (0x37A, 0x37D); (0x37F, 0x37F); (0x386, 0x386); (0x388, 0x38A);
    (0x38C, 0x38C); (0x38E, 0x3A1); (0x3A3, 0x3F5); (0x3F7, 0x481);
    (0x48A, 0x52F); (0x531, 0x556); (0x560, 0x588); (0x10A0, 0x10C5);
    (0x10C7, 0x10C7); (0x10CD, 0x10CD); (0x10D0, 0x10FA); (0x10FD, 0x10FF);
    (0x13A0, 0x13F5); (0x13F8, 0x13FD); (0x1C80, 0x1C88); (0x1C90, 0x1CBA);
    (0x1CBD, 0x1CBF); (0x1D00, 0x1DBF); (0x1E00, 0x1F15); (0x1F18, 0x1F1D);
    (0x1F20, 0x1F45); (0x1F48, 0x1F4D); (0x1F50, 0x1F57); (0x1F59, 0x1F59);
    (0x1F5B, 0x1F5B); (0x1F5D, 0x1F5D); (0x1F5F, 0x1F7D); (0x1F80, 0x1FB4);
    (0x1FB6, 0x1FBC); (0x1FBE, 0x1FBE); (0x1FC2, 0x1FC4); (0x1FC6, 0x1FCC);
    (0x1FD0, 0x1FD3); (0x1FD6, 0x1FDB); (0x1FE0, 0x1FEC); (0x1FF2, 0x1FF4);
    (0x1FF6, 0x1FFC); (0x2071, 0x2071); (0x207F, 0x207F); (0x2090, 0x209C);
    (0x2102, 0x2102); (0x2107, 0x2107); (0x210A, 0x2113); (0x2115, 0x2115);
    (0x2119, 0x211D); (0x2124, 0x2124); (0x2126, 0x2126); (0x2128, 0x2128);
    (0x212A, 0x212D); (0x212F, 0x2134); (0x2139, 0x2139); (0x213C, 0x213F);
    (0x2145, 0x2149); (0x214E, 0x214E); (0x2160, 0x217F); (0x2183, 0x2184);
    (0x24B6, 0x24E9); (0x2C00, 0x2CE4); (0x2CEB, 0x2CEE); (0x2CF2, 0x2CF3);
    (0x2D00, 0x2D25); (0x2D27, 0x2D27); (0x2D2D, 0x2D2D); (0xA640, 0xA66D);
    (0xA680, 0xA69D); (0xA722, 0xA787); (0xA78B, 0xA78E); (0xA790, 0xA7CA);
    (0xA7D0, 0xA7D1); (0xA7D3, 0xA7D3); (0xA7D5, 0xA7D9); (0xA7F5, 0xA7F6);
    (0xA7F8, 0xA7FA); (0xAB30, 0xAB5A); (0xAB5C, 0xAB68); (0xAB70, 0xABBF);
    (0xFB00, 0xFB06); (0xFB13, 0xFB17); (0xFF21, 0xFF3A); (0xFF41, 0xFF5A);
    (0x10400, 0x1044F); (0x104B0, 0x104D3); (0x104D8, 0x104FB); (0x10570, 0x1057A);
    (0x1057C, 0x1058A); (0x1058C, 0x10592); (0x10594, 0x10595); (0x10597, 0x105A1);
    (0x105A3, 0x105B1); (0x105B3, 0x105B9); (0x105BB, 0x105BC); (0x10780, 0x10780);
    (0x10783, 0x10785); (0x10787, 0x107B0); (0x107B2, 0x107BA); (0x10C80, 0x10CB2);
    (0x10CC0, 0x10CF2); (0x118A0, 0x118DF); (0x16E40, 0x16E7F); (0x1D400, 0x1D454);
    (0x1D456, 0x1D49C); (0x1D49E, 0x1D49F); (0x1D4A2, 0x1D4A2); (0x1D4A5, 0x1D4A6);
    (0x1D4A9, 0x1D4AC); (0x1D4AE, 0x1D4B9); (0x1D4BB, 0x1D4BB); (0x1D4BD, 0x1D4C3);
    (0x1D4C5, 0x1D505); (0x1D507, 0x1D50A); (0x1D50D, 0x1D514); (0x1D516, 0x1D51C);
    (0x1D51E, 0x1D539); (0x1D53B, 0x1D53E); (0x1D540, 0x1D544); (0x1D546, 0x1D546);
    (0x1D54A, 0x1D550); (0x1D552, 0x1D6A5); (0x1D6A8, 0x1D6C0); (0x1D6C2, 0x1D6DA);
    (0x1D6DC, 0x1D6FA); (0x1D6FC, 0x1D714); (0x1D716, 0x1D734); (0x1D736, 0x1D74E);
    (0x1D750, 0x1D76E); (0x1D770, 0x1D788); (0x1D78A, 0x1D7A8); (0x1D7AA, 0x1D7C2);
    (0x1D7C4, 0x1D7CB); (0x1DF00, 0x1DF09); (0x1DF0B, 0x1DF1E); (0x1E900, 0x1E943);
    (0x1F130, 0x1F149); (0x1F150, 0x1F169); (0x1F170, 0x1F189) ]%N.

Definition case_ignorable_ranges : list (N * N) :=
  [
    (0x27, 0x27); (0x2E, 0x2E); (0x3A, 0x3A); (0x5E, 0x5E);
    (0x60, 0x60); (0xA8, 0xA8); (0xAD, 0xAD); (0xAF, 0xAF);
    (0xB4, 0xB4); (0xB7, 0xB8); (0x2B0, 0x36F); (0x374, 0x375);
    (0x37A, 0x37A); (0x384, 0x385); (0x387, 0x387); (0x483, 0x489);
    (0x559, 0x559); (0x55F, 0x55F); (0x591, 0x5BD); (0x5BF, 0x5BF);
    (0x5C1, 0x5C2); (0x5C4, 0x5C5); (0x5C7, 0x5C7); (0x5F4, 0x5F4);
    (0x600, 0x605); (0x610, 0x61A); (0x61C, 0x61C); (0x640, 0x640);
    (0x64B, 0x65F); (0x670, 0x670); (0x6D6, 0x6DD); (0x6DF, 0x6E8);
    (0x6EA, 0x6ED); (0x70F, 0x70F); (0x711, 0x711); (0x730, 0x74A);
    (0x7A6, 0x7B0); (0x7EB, 0x7F5); (0x7FA, 0x7FA); (0x7FD, 0x7FD);
    (0x816, 0x82D); (0x859, 0x85B); (0x888, 0x888); (0x890, 0x891);
    (0x898, 0x89F); (0x8C9, 0x902); (0x93A, 0x93A); (0x93C, 0x93C);
    (0x941, 0x948); (0x94D, 0x94D); (0x951, 0x957); (0x962, 0x963);
    (0x971, 0x971); (0x981, 0x981); (0x9BC, 0x9BC); (0x9C1, 0x9C4);
    (0x9CD, 0x9CD); (0x9E2, 0x9E3); (0x9FE, 0x9FE); (0xA01, 0xA02);
    (0xA3C, 0xA3C); (0xA41, 0xA42); (0xA47, 0xA48); (0xA4B, 0xA4D);
    (0xA51, 0xA51); (0xA70, 0xA71); (0xA75, 0xA75); (0xA81, 0xA82);
    (0xABC, 0xABC); (0xAC1, 0xAC5); (0xAC7, 0xAC8); (0xACD, 0xACD);
    (0xAE2, 0xAE3); (0xAFA, 0xAFF); (0xB01, 0xB01); (0xB3C, 0xB3C);
    (0xB3F, 0xB3F); (0xB41, 0xB44); (0xB4D, 0xB4D); (0xB55, 0xB56);
    (0xB62, 0xB63); (0xB82, 0xB82); (0xBC0, 0xBC0); (0xBCD, 0xBCD);
    (0xC00, 0xC00); (0xC04, 0xC04); (0xC3C, 0xC3C); (0xC3E, 0xC40);
    (0xC46, 0xC48); (0xC4A, 0xC4D); (0xC55, 0xC56); (0xC62, 0xC63);
    (0xC81, 0xC81); (0xCBC, 0xCBC); (0xCBF, 0xCBF); (0xCC6, 0xCC6);
    (0xCCC, 0xCCD); (0xCE2, 0xCE3); (0xD00, 0xD01); (0xD3B, 0xD3C);
    (0xD41, 0xD44); (0xD4D, 0xD4D); (0xD62, 0xD63); (0xD81, 0xD81);
    (0xDCA, 0xDCA); (0xDD2, 0xDD4); (0xDD6, 0xDD6); (0xE31, 0xE31);
    (0xE34, 0xE3A); (0xE46, 0xE4E); (0xEB1, 0xEB1); (0xEB4, 0xEBC);
    (0xEC6, 0xEC6); (0xEC8, 0xECD); (0xF18, 0xF19); (0xF35, 0xF35);
    (0xF37, 0xF37); (0xF39, 0xF39); (0xF71, 0xF7E); (0xF80, 0xF84);
    (0xF86, 0xF87); (0xF8D, 0xF97); (0xF99, 0xFBC); (0xFC6, 0xFC6);
    (0x102D, 0x1030); (0x1032, 0x1037); (0x1039, 0x103A); (0x103D, 0x103E);
    (0x1058, 0x1059); (0x105E, 0x1060); (0x1071, 0x1074); (0x1082, 0x1082);
    (0x1085, 0x1086); (0x108D, 0x108D); (0x109D, 0x109D); (0x10FC, 0x10FC);
    (0x135D, 0x135F); (0x1712, 0x1714); (0x1732, 0x1733); (0x1752, 0x1753);
    (0x1772, 0x1773); (0x17B4, 0x17B5); (0x17B7, 0x17BD); (0x17C6, 0x17C6);
    (0x17C9, 0x17D3); (0x17D7, 0x17D7); (0x17DD, 0x17DD); (0x180B, 0x180F);
    (0x1843, 0x1843); (0x1885, 0x1886); (0x18A9, 0x18A9); (0x1920, 0x1922);
    (0x1927, 0x1928); (0x1932, 0x1932); (0x1939, 0x193B); (0x1A17, 0x1A18);
    (0x1A1B, 0x1A1B); (0x1A56, 0x1A56); (0x1A58, 0x1A5E); (0x1A60, 0x1A60);
    (0x1A62, 0x1A62); (0x1A65, 0x1A6C); (0x1A73, 0x1A7C); (0x1A7F, 0x1A7F);
    (0x1AA7, 0x1AA7); (0x1AB0, 0x1ACE); (0x1B00, 0x1B03); (0x1B34, 0x1B34);
    (0x1B36, 0x1B3A); (0x1B3C, 0x1B3C); (0x1B42, 0x1B42); (0x1B6B, 0x1B73);
    (0x1B80, 0x1B81); (0x1BA2, 0x1BA5); (0x1BA8, 0x1BA9); (0x1BAB, 0x1BAD);
    (0x1BE6, 0x1BE6); (0x1BE8, 0x1BE9); (0x1BED, 0x1BED); (0x1BEF, 0x1BF1);
    (0x1C2C, 0x1C33); (0x1C36, 0x1C37); (0x1C78, 0x1C7D); (0x1CD0, 0x1CD2);
    (0x1CD4, 0x1CE0); (0x1CE2, 0x1CE8); (0x1CED, 0x1CED); (0x1CF4, 0x1CF4);
    (0x1CF8, 0x1CF9); (0x1D2C, 0x1D6A); (0x1D78, 0x1D78); (0x1D9B, 0x1DFF);
    (0x1FBD, 0x1FBD); (0x1FBF, 0x1FC1); (0x1FCD, 0x1FCF); (0x1FDD, 0x1FDF);
    (0x1FED, 0x1FEF); (0x1FFD, 0x1FFE); (0x200B, 0x200F); (0x2018, 0x2019);
    (0x2024, 0x2024); (0x2027, 0x2027); (0x202A, 0x202E); (0x2060, 0x2064);
    (0x2066, 0x206F); (0x2071, 0x2071); (0x207F, 0x207F); (0x2090, 0x209C);
    (0x20D0, 0x20F0); (0x2C7C, 0x2C7D); (0x2CEF, 0x2CF1); (0x2D6F, 0x2D6F);
    (0x2D7F, 0x2D7F); (0x2DE0, 0x2DFF); (0x2E2F, 0x2E2F); (0x3005, 0x3005);
    (0x302A, 0x302D); (0x3031, 0x3035); (0x303B, 0x303B); (0x3099, 0x309E);
    (0x30FC, 0x30FE); (0xA015, 0xA015); (0xA4F8, 0xA4FD); (0xA60C, 0xA60C);
    (0xA66F, 0xA672); (0xA674, 0xA67D); (0xA67F, 0xA67F); (0xA69C, 0xA69F);
    (0xA6F0, 0xA6F1); (0xA700, 0xA721); (0xA770, 0xA770); (0xA788, 0xA78A);
    (0xA7F2, 0xA7F4); (0xA7F8, 0xA7F9); (0xA802, 0xA802); (0xA806, 0xA806);
    (0xA80B, 0xA80B); (0xA825, 0xA826); (0xA82C, 0xA82C); (0xA8C4, 0xA8C5);
    (0xA8E0, 0xA8F1); (0xA8FF, 0xA8FF); (0xA926, 0xA92D); (0xA947, 0xA951);
    (0xA980, 0xA982); (0xA9B3, 0xA9B3); (0xA9B6, 0xA9B9); (0xA9BC, 0xA9BD);
    (0xA9CF, 0xA9CF); (0xA9E5, 0xA9E6); (0xAA29, 0xAA2E); (0xAA31, 0xAA32);
    (0xAA35, 0xAA36); (0xAA43, 0xAA43); (0xAA4C, 0xAA4C); (0xAA70, 0xAA70);
    (0xAA7C, 0xAA7C); (0xAAB0, 0xAAB0); (0xAAB2, 0xAAB4); (0xAAB7, 0xAAB8);
    (0xAABE, 0xAABF); (0xAAC1, 0xAAC1); (0xAADD, 0xAADD); (0xAAEC, 0xAAED);
    (0xAAF3, 0xAAF4); (0xAAF6, 0xAAF6); (0xAB5B, 0xAB5F); (0xAB69, 0xAB6B);
    (0xABE5, 0xABE5); (0xABE8, 0xABE8); (0xABED, 0xABED); (0xFB1E, 0xFB1E);
    (0xFBB2, 0xFBC2); (0xFE00, 0xFE0F); (0xFE13, 0xFE13); (0xFE20, 0xFE2F);
    (0xFE52, 0xFE52); (0xFE55, 0xFE55); (0xFEFF, 0xFEFF); (0xFF07, 0xFF07);
    (0xFF0E, 0xFF0E); (0xFF1A, 0xFF1A); (0xFF3E, 0xFF3E); (0xFF40, 0xFF40);
    (0xFF70, 0xFF70); (0xFF9E, 0xFF9F); (0xFFE3, 0xFFE3); (0xFFF9, 0xFFFB);
    (0x101FD, 0x101FD); (0x102E0, 0x102E0); (0x10376, 0x1037A); (0x10780, 0x10785);
    (0x10787, 0x107B0); (0x107B2, 0x107BA); (0x10A01, 0x10A03); (0x10A05, 0x10A06);
    (0x10A0C, 0x10A0F); (0x10A38, 0x10A3A); (0x10A3F, 0x10A3F); (0x10AE5, 0x10AE6);
    (0x10D24, 0x10D27); (0x10EAB, 0x10EAC); (0x10F46, 0x10F50); (0x10F82, 0x10F85);
    (0x11001, 0x11001); (0x11038, 0x11046); (0x11070, 0x11070); (0x11073, 0x11074);
    (0x1107F, 0x11081); (0x110B3, 0x110B6); (0x110B9, 0x110BA); (0x110BD, 0x110BD);
    (0x110C2, 0x110C2); (0x110CD, 0x110CD); (0x11100, 0x11102); (0x11127, 0x1112B);
    (0x1112D, 0x11134); (0x11173, 0x11173); (0x11180, 0x11181); (0x111B6, 0x111BE);
    (0x111C9, 0x111CC); (0x111CF, 0x111CF); (0x1122F, 0x11231); (0x11234, 0x11234);
    (0x11236, 0x11237); (0x1123E, 0x1123E); (0x112DF, 0x112DF); (0x112E3, 0x112EA);
    (0x11300, 0x11301); (0x1133B, 0x1133C); (0x11340, 0x11340); (0x11366, 0x1136C);
    (0x11370, 0x11374); (0x11438, 0x1143F); (0x11442, 0x11444); (0x11446, 0x11446);
    (0x1145E, 0x1145E); (0x114B3, 0x114B8); (0x114BA, 0x114BA); (0x114BF, 0x114C0);
    (0x114C2, 0x114C3); (0x115B2, 0x115B5); (0x115BC, 0x115BD); (0x115BF, 0x115C0);
    (0x115DC, 0x115DD); (0x11633, 0x1163A); (0x1163D, 0x1163D); (0x1163F, 0x11640);
    (0x116AB, 0x116AB); (0x116AD, 0x116AD); (0x116B0, 0x116B5); (0x116B7, 0x116B7);
    (0x1171D, 0x1171F); (0x11722, 0x11725); (0x11727, 0x1172B); (0x1182F, 0x11837);
    (0x11839, 0x1183A); (0x1193B, 0x1193C); (0x1193E, 0x1193E); (0x11943, 0x11943);
    (0x119D4, 0x119D7); (0x119DA, 0x119DB); (0x119E0, 0x119E0); (0x11A01, 0x11A0A);
    (0x11A33, 0x11A38); (0x11A3B, 0x11A3E); (0x11A47, 0x11A47); (0x11A51, 0x11A56);
    (0x11A59, 0x11A5B); (0x11A8A, 0x11A96); (0x11A98, 0x11A99); (0x11C30, 0x11C36);
    (0x11C38, 0x11C3D); (0x11C3F, 0x11C3F); (0x11C92, 0x11CA7); (0x11CAA, 0x11CB0);
    (0x11CB2, 0x11CB3); (0x11CB5, 0x11CB6); (0x11D31, 0x11D36); (0x11D3A, 0x11D3A);
    (0x11D3C, 0x11D3D); (0x11D3F, 0x11D45); (0x11D47, 0x11D47); (0x11D90, 0x11D91);
    (0x11D95, 0x11D95); (0x11D97, 0x11D97); (0x11EF3, 0x11EF4); (0x13430, 0x13438);
    (0x16AF0, 0x16AF4); (0x16B30, 0x16B36); (0x16B40, 0x16B43); (0x16F4F, 0x16F4F);
    (0x16F8F, 0x16F9F); (0x16FE0, 0x16FE1); (0x16FE3, 0x16FE4); (0x1AFF0, 0x1AFF3);
    (0x1AFF5, 0x1AFFB); (0x1AFFD, 0x1AFFE); (0x1BC9D, 0x1BC9E); (0x1BCA0, 0x1BCA3);
    (0x1CF00, 0x1CF2D); (0x1CF30, 0x1CF46); (0x1D167, 0x1D169); (0x1D173, 0x1D182);
    (0x1D185, 0x1D18B); (0x1D1AA, 0x1D1AD); (0x1D242, 0x1D244); (0x1DA00, 0x1DA36);
    (0x1DA3B, 0x1DA6C); (0x1DA75, 0x1DA75); (0x1DA84, 0x1DA84); (0x1DA9B, 0x1DA9F);
    (0x1DAA1, 0x1DAAF); (0x1E000, 0x1E006); (0x1E008, 0x1E018); (0x1E01B, 0x1E021);
    (0x1E023, 0x1E024); (0x1E026, 0x1E02A); (0x1E130, 0x1E13D); (0x1E2AE, 0x1E2AE);
    (0x1E2EC, 0x1E2EF); (0x1E8D0, 0x1E8D6); (0x1E944, 0x1E94B); (0x1F3FB, 0x1F3FF);
    (0xE0001, 0xE0001); (0xE0020, 0xE007F); (0xE0100, 0xE01EF) ]%N.

Fixpoint lookup_run (runs : list (N * N * N * N)) (cp : N) : N :=
  match runs with
  | [] => cp
  | (lo, hi, step, image) :: runs' =>
      if in_range lo hi cp && ((cp - lo) mod step =? 0)%N
      then (image + (cp - lo))%N
      else lookup_run runs' cp
  end.

Definition in_ranges (ranges : list (N * N)) (cp : N) : bool :=
  existsb (fun r => in_range (fst r) (snd r) cp) ranges.

Definition is_cased (cp : N) : bool := in_ranges cased_ranges cp.

Definition is_case_ignorable (cp : N) : bool :=
  in_ranges case_ignorable_ranges cp.

(** The full lower-case mapping of one character out of context: one code
    point, but for U+0130, which gives "i" and a combining dot. *)
Definition lower_full (cp : N) : list N :=
  if (cp =? 0x130)%N then [0x69; 0x307]%N else [lookup_run lower_runs cp].

(** [str.lower] on one ASCII character. *)
Definition lower_char (c : ascii) : ascii :=
  let n := nat_of_ascii c in
  if ((65 <=? n) && (n <=? 90))%nat then ascii_of_nat (n + 32) else c.

(** The capital sigma U+03A3 is lower-cased to the final form U+03C2 when a
    cased character comes before it and none after it, case-ignorable
    characters skipped on both sides; to U+03C3 otherwise. *)
Fixpoint skip_ignorable (l : list (N * string)) : list (N * string) :=
  match l with
  | [] => []
  | (cp, chunk) :: l' =>
      if is_case_ignorable cp then skip_ignorable l' else l
  end.

Definition final_sigma (before after : list (N * string)) : bool :=
  match skip_ignorable before with
  | [] => false
  | (cp, _) :: _ =>
      is_cased cp
      && match skip_ignorable after with
         | [] => true
         | (cp', _) :: _ => negb (is_cased cp')
         end
  end.

(** The lower-casing of one character: [before] holds the characters to
    its left, nearest first, and [after] those to its right. *)
Definition lower_one (before : list (N * string)) (cp : N) (chunk : string)
    (after : list (N * string)) : string :=
  if (cp <? 0x80)%N then
    match chunk with
    | String c _ => chunk1 (lower_char c)
    | EmptyString => EmptyString
    end
  else if (cp =? 0x3A3)%N then
    encode (if final_sigma before after then 0x3C2 else 0x3C3)%N
  else
    match lower_full cp with
    | [cp'] => if (cp' =? cp)%N then chunk else encode cp'
    | l => encode_all l
    end.

Fixpoint lower_from (before l : list (N * string)) : string :=
  match l with
  | [] => EmptyString
  | (cp, chunk) :: after =>
      (lower_one before cp chunk after
       ++ lower_from ((cp, chunk) :: before) after)%string
  end.

(** [s.lower()] *)
Definition lower (s : string) : string := lower_from [] (decode s).

(** [kw in text]: [kw] occurs in [text] as a contiguous substring. *)
Fixpoint contains (kw text : string) : bool :=
  prefix kw text ||
  match text with
  | EmptyString => false
  | String _ text' => contains kw text'
  end.

(** [not s] for a [str]: the empty string is the only falsy one. *)
Definition is_empty (s : string) : bool :=
  match s with
  | EmptyString => true
  | String _ _ => false
  end.

(** [s.split()] with no argument: the maximal runs of non-whitespace
    characters, in order.  [cur] is the run being read. *)
Fixpoint split_from (cur : string) (l : list (N * string)) : list string :=
  match l with
  | [] => if is_empty cur then [] else [cur]
  | (cp, chunk) :: l' =>
      if isspace cp
      then (if is_empty cur then split_from EmptyString l'
            else cur :: split_from EmptyString l')
      else split_from (cur ++ chunk)%string l'
  end.

Definition split (s : string) : list string :=
  split_from EmptyString (decode s).

(** [s.lstrip()], [s.rstrip()], [s.strip()] with no argument. *)
Fixpoint lstrip_chars (l : list (N * string)) : list (N * string) :=
  match l with
  | [] => []
  | (cp, chunk) :: l' => if isspace cp then lstrip_chars l' else l
  end.

Fixpoint rstrip_chars (l : list (N * string)) : list (N * string) :=
  match l with
  | [] => []
  | (cp, chunk) :: l' =>
      match rstrip_chars l' with
      | [] => if isspace cp then [] else [(cp, chunk)]
      | r => (cp, chunk) :: r
      end
  end.

Definition lstrip (s : string) : string := unchars (lstrip_chars (decode s)).

Definition rstrip (s : string) : string := unchars (rstrip_chars (decode s)).

Definition strip (s : string) : string :=
  unchars (rstrip_chars (lstrip_chars (decode s))).

(** [s.replace(a, b)] for one-character ASCII [a] and [b]. *)
Fixpoint replace_char (a b : ascii) (s : string) : string :=
  match s with
  | EmptyString => EmptyString
  | String c s' =>
      String (if Ascii.eqb c a then b else c) (replace_char a b s')
  end.

(** [s[:n]]: the first [n] characters. *)
Definition slice_to (n : nat) (s : string) : string :=
  unchars (firstn n (decode s)).

(** [sep.join(l)] *)
Definition join (sep : string) (l : list string) : string := concat sep l.

(** [sorted(l)] on strings: ascending in the lexicographic order of the
    characters, here by insertion. *)
Fixpoint insert_sorted (x : string) (l : list string) : list string :=
  match l with
  | [] => [x]
  | y :: l' => if String.leb x y then x :: l else y :: insert_sorted x l'
  end.

Fixpoint sorted (l : list string) : list string :=
  match l with
  | [] => []
  | x :: l' => insert_sorted x (sorted l')
  end.

(** A [set] of strings, kept as a duplicate-free list.  Python fixes no
    iteration order for a set; the program only ever reads it through
    [sorted], whose result does not depend on that order. *)
Definition set_mem (x : string) (s : list string) : bool :=
  existsb (String.eqb x) s.

Definition set_add (x : string) (s : list string) : list string :=
  if set_mem x s then s else s ++ [x].

(** Every character is whitespace. *)
Definition all_space (s : string) : bool :=
  forallb (fun c => isspace (fst c)) (decode s).

End PyStr.

(* ================================================================== *)
(** * The profile extractor *)
(* ================================================================== *)

(** The profile dict.  [extract_profile_from_resume] fills every key but
    ['name'], which the page attaches afterwards; the readers use
    [dict.get] with a default, so every key is optional. *)
Record profile : Type := mkProfile {
  role : option string;
  experience_years : option Z;
  skills : option (list string);
  seniority : option string;
  raw_text_preview : option string;
  name : option string
}.

(** The [keywords] dict, in insertion order. *)
Definition keywords : list (string * list string) :=
  [ ("Software Engineer",
      ["python"; "java"; "react"; "javascript"; "backend"; "frontend";
       "api"; "docker"; "kubernetes"]);
    ("Data Analyst",
      ["excel"; "tableau"; "power bi"; "sql"; "pandas"; "visualization";
       "dashboard"; "reporting"; "rfm"; "eda"]);
    ("Data Scientist",
      ["machine learning"; "deep learning"; "tensorflow"; "pytorch";
       "scikit-learn"; "ml"; "ai"; "pandas"; "numpy"]);
    ("Product Manager",
      ["product management"; "roadmap"; "stakeholder"; "user research";
       "kpi"; "metrics"]);
    ("DevOps Engineer",
      ["aws"; "azure"; "ci/cd"; "terraform"; "jenkins"; "infrastructure"]) ].

(** The inner loop: [for kw in kwlist: if kw in text: count += 1;
    found_skills.add(kw)]. *)
Definition scan_kwlist (text : string) (kwlist : list string)
    (found_skills : list string) : Z * list string :=
  fold_left
    (fun (st : Z * list string) (kw : string) =>
       let '(count, found) := st in
       if PyStr.contains kw text
       then ((count + 1)%Z, PyStr.set_add kw found)
       else (count, found))
    kwlist (0%Z, found_skills).

(** The outer loop over [keywords.items()]; the result is the [scores]
    dict (in insertion order) and the [found_skills] set. *)
Definition scan_keywords (text : string)
    : list (string * Z) * list string :=
  fold_left
    (fun (st : list (string * Z) * list string)
         (item : string * list string) =>
       let '(scores, found) := st in
       let '(r, kwlist) := item in
       let '(count, found') := scan_kwlist text kwlist found in
       (scores ++ [(r, count)], found'))
    keywords ([], []).

(** [scores.get(k)]; [None] for a missing key. *)
Fixpoint dict_get (k : string) (d : list (string * Z)) : option Z :=
  match d with
  | [] => None
  | (k', v) :: d' => if String.eqb k k' then Some v else dict_get k d'
  end.

(** [max(keys, key=f)]: the first key whose [f]-value no later key
    exceeds.  [best] is the candidate so far. *)
Fixpoint max_from (f : string -> Z) (best : string) (keys : list string)
    : string :=
  match keys with
  | [] => best
  | k :: keys' =>
      if (f best <? f k)%Z then max_from f k keys' else max_from f best keys'
  end.

(** [max(scores, key=scores.get)]; [None] stands for the [ValueError] of
    an empty dict. *)
Definition max_key (scores : list (string * Z)) : option string :=
  let f k := match dict_get k scores with Some v => v | None => 0%Z end in
  match map fst scores with
  | [] => None
  | k :: keys => Some (max_from f k keys)
  end.

(** The experience approximation. *)
Definition approx_experience (text : string) : Z :=
  if PyStr.contains "senior" text || PyStr.contains "5+" text
     || PyStr.contains "5 years" text then 6%Z
  else if PyStr.contains "lead" text || PyStr.contains "3+" text
     || PyStr.contains "3 years" text then 4%Z
  else if PyStr.contains "junior" text || PyStr.contains "1+" text
     || PyStr.contains "1 year" text then 2%Z
  else 1%Z.

Definition seniority_of (exp : Z) : string :=
  if (5 <=? exp)%Z then "Senior"
  else if (3 <=? exp)%Z then "Mid-level"
  else "Junior".

Definition newline : ascii := ascii_of_nat 10.
Definition space : ascii := ascii_of_nat 32.

(** [best_role = max(scores, key=scores.get)] followed by
    [if scores[best_role] == 0: best_role = "Data Analyst"]. *)
Definition pick_best_role (scores : list (string * Z)) : option string :=
  match max_key scores with
  | None => None
  | Some best_role =>
      match dict_get best_role scores with
      | Some v => Some (if (v =? 0)%Z then "Data Analyst" else best_role)
      | None => None
      end
  end.

(** [resume_text[:100].replace('\n', ' ') + ('...' if len(resume_text) > 100
    else '')] *)
Definition text_preview (resume_text : string) : string :=
  (PyStr.replace_char newline space (PyStr.slice_to 100 resume_text)
   ++ (if (100 <? PyStr.len resume_text)%nat then "..." else EmptyString))
  %string.

(** [extract_profile_from_resume(resume_text)].  The argument is [None]
    when absent; the result is [None] for the no-profile sentinel.  (The
    inner [None]s stand for the exceptions of [max] on an empty dict and of
    a missing key, which the fixed [keywords] dict rules out.) *)
Definition extract_profile_from_resume (resume_text : option string)
    : option profile :=
  match resume_text with
  | None => None
  | Some resume_text =>
      if PyStr.is_empty resume_text then None
      else
        let text := PyStr.lower resume_text in
        let '(scores, found_skills) := scan_keywords text in
        match pick_best_role scores with
        | None => None
        | Some best_role =>
            let exp := approx_experience text in
            Some {|
              role := Some best_role;
              experience_years := Some exp;
              skills := Some (PyStr.sorted found_skills);
              seniority := Some (seniority_of exp);
              raw_text_preview := Some (text_preview resume_text);
              name := None
            |}
        end
  end.

(* ================================================================== *)
(** * Python built-ins on [float] *)
(* ================================================================== *)

Module PyFloat.

Local Open Scope float_scope.

(** [float(n)] for an [int] in the exact range of the conversion. *)
Definition of_int (n : Z) : float := PrimFloat.of_uint63 (Uint63.of_Z n).

(** [min(a, b)] keeps its first argument unless the second is smaller;
    [max(a, b)] keeps its first argument unless the second is larger. *)
Definition min (a b : float) : float := if b <? a then b else a.
Definition max (a b : float) : float := if a <? b then b else a.

(** The integer nearest to [n / d] ([0 < d]), ties to the even one. *)
Definition round_half_even (n d : Z) : Z :=
  let q := (n / d)%Z in
  match (2 * (n mod d) ?= d)%Z with
  | Lt => q
  | Gt => (q + 1)%Z
  | Eq => if Z.even q then q else (q + 1)%Z
  end.

(** [round(x, 1)]: the double nearest to the decimal with one fractional
    digit that is nearest to the exact value of [x] (ties to even in both
    steps).  A finite [x] is [m * 2^e] with [m < 2^53].  Below [2^49]
    ([e < -3]) the number of tenths [k] is below [2^53], so [float(k)] is
    exact and the correctly rounded quotient [float(k) / 10.0] is the
    double nearest to [k / 10].  From [2^49] on, neighbouring doubles are
    at least [1/8] apart while the decimal is within [0.05] of [x], so
    the result is [x]; zeros, infinities and NaN round to themselves. *)
Definition round1 (x : float) : float :=
  match Prim2SF x with
  | S754_finite s m e =>
      if (e <? -3)%Z then
        let k := round_half_even (10 * Z.pos m) (2 ^ (- e)) in
        let y := of_int k / 10.0 in
        if s then - y else y
      else x
  | _ => x
  end.

(** [a <= x <= b] *)
Definition between (a b x : float) : Prop :=
  (a <=? x) = true /\ (x <=? b) = true.

End PyFloat.

(* ================================================================== *)
(** * The solution scorer *)
(* ================================================================== *)

(** The keyword boosts, in the order of the loop. *)
Definition boosts : list (string * float) :=
  [ ("feature", 0.5%float); ("validation", 0.7%float); ("cross", 0.4%float);
    ("ensemble", 0.6%float); ("hyperparameter", 0.6%float) ].

(** [for kw, boost in boosts: if kw in text: score += boost] *)
Definition apply_boosts (text : string) (score : float) : float :=
  fold_left
    (fun (score : float) (item : string * float) =>
       let '(kw, boost) := item in
       if PyStr.contains kw text then (score + boost)%float else score)
    boosts score.

Section Scorer.

(** The random source: [rng] is the state of the generator and
    [uniform a b g] is one call of [random.uniform(a, b)] in state [g],
    with the value drawn and the next state. *)
Variable rng : Type.
Variable uniform : float -> float -> rng -> float * rng.

(** [simulate_scoring(solution_text)] run in generator state [g]. *)
Definition simulate_scoring (solution_text : string) (g : rng)
    : float * rng :=
  if PyStr.is_empty solution_text
     || String.eqb (PyStr.strip solution_text) EmptyString
  then uniform 4.0%float 6.5%float g
  else
    let text := PyStr.lower solution_text in
    let score :=
      PyFloat.min 10.0%float
        (3.0 + PyFloat.of_int (Z.of_nat (List.length (PyStr.split text)))
               * 0.03)%float in
    let score := apply_boosts text score in
    let '(noise, g') := uniform (-0.5)%float 0.8%float g in
    let score := (score + noise)%float in
    (PyFloat.round1 (PyFloat.max 0.0%float (PyFloat.min 10.0%float score)),
     g').

End Scorer.

(** A generator for tests: the state is the list of the values
    [random.random()] is going to return, and [uniform] is the library's
    [a + (b - a) * random()]. *)
Definition list_uniform (a b : float) (g : list float)
    : float * list float :=
  match g with
  | r :: g' => ((a + (b - a) * r)%float, g')
  | [] => (a, [])
  end.

(* ================================================================== *)
(** * The discount mapper *)
(* ================================================================== *)

Record discount : Type := mkDiscount { tier : string; savings : string }.

Definition tier_40 : discount := {| tier := "🥇 40% OFF"; savings := "40%" |}.
Definition tier_30 : discount := {| tier := "🥈 30% OFF"; savings := "30%" |}.
Definition tier_20 : discount := {| tier := "🥉 20% OFF"; savings := "20%" |}.
Definition tier_15 : discount :=
  {| tier := "🎯 15% OFF (Participant)"; savings := "15%" |}.

(** [discount_by_score(score)] *)
Definition discount_by_score (score : float) : discount :=
  if (9.0 <=? score)%float then tier_40
  else if (8.0 <=? score)%float then tier_30
  else if (7.0 <=? score)%float then tier_20
  else tier_15.

(* ================================================================== *)
(** * The nugget generator *)
(* ================================================================== *)

(** [not profile] for a dict: no key at all. *)
Definition profile_is_empty (p : profile) : bool :=
  match role p, experience_years p, skills p, seniority p,
        raw_text_preview p, name p with
  | None, None, None, None, None, None => true
  | _, _, _, _, _, _ => false
  end.

(** [d.get(k, default)] on an optional key. *)
Definition get_or {A : Type} (v : option A) (default : A) : A :=
  match v with Some x => x | None => default end.

(** A dict of strings in insertion order; [d[k] = v] overwrites the value
    of a key in place and appends a new key; [d.get(k)] reads it. *)
Fixpoint dict_set (k v : string) (d : list (string * string))
    : list (string * string) :=
  match d with
  | [] => [(k, v)]
  | (k', v') :: d' =>
      if String.eqb k k' then (k, v) :: d' else (k', v') :: dict_set k v d'
  end.

Fixpoint str_dict_get (k : string) (d : list (string * string))
    : option string :=
  match d with
  | [] => None
  | (k', v) :: d' => if String.eqb k k' then Some v else str_dict_get k d'
  end.

(** [generate_personalized_nuggets(profile, masterclass_topic)]; the empty
    list is the empty dict. *)
Definition generate_personalized_nuggets (profile : option profile)
    (masterclass_topic : string) : list (string * string) :=
  match profile with
  | None => []
  | Some p =>
      if profile_is_empty p then []
      else
        let role := get_or (role p) "Professional" in
        let seniority := get_or (seniority p) "Junior" in
        let skills := firstn 5 (get_or (skills p) []) in
        let nuggets :=
          [ ("headline",
              role ++ " • " ++ seniority ++ " • "
              ++ (match skills with
                  | [] => "Skills not listed"
                  | _ :: _ => PyStr.join ", " skills
                  end));
            ("nugget_1",
              "As a " ++ role ++ ", mastering " ++ masterclass_topic
              ++ " can help you build production-ready analytics & models faster.");
            ("nugget_2",
              "Focus on project-based learning — employers value delivered impact (dashboards, pipelines, ML features).");
            ("cta",
              "Join the 30-min challenge and earn up to 40% off our AI course — limited spots!") ]%string in
        if String.eqb role "Data Analyst"
        then
          dict_set "extra_tip"
            "Try combining SQL + Python + visualization to demonstrate quick wins to stakeholders."
            (dict_set "nugget_1"
               "AI helps Data Analysts automate repetitive analysis and build predictive models — learn how in the masterclass."
               nuggets)
        else nuggets
  end.

(* ================================================================== *)
(** * The email generator *)
(* ================================================================== *)

Record email : Type := mkEmail { subject : string; content : string }.

(** The three branches of [generate_personalized_email]: the subject and
    the content each one formats from [name], [role], [seniority] and the
    topic. *)
Definition post_exit_email (name role seniority masterclass_topic : string)
    : email :=
  {| subject :=
       "That moment from today's " ++ masterclass_topic
       ++ " — don't let it fade";
     content :=
       "Hi " ++ name ++ ",

I noticed you attended the " ++ masterclass_topic
       ++ " masterclass. As a " ++ seniority ++ " " ++ role
       ++ ", now is the perfect time to convert that learning spark into a measurable skill.

Quick wins for you:
• Build a dashboard to demonstrate one business metric in 1 week.
• Use a small ML model to predict the next 30-day trend for a key KPI.

Your exclusive 40% discount is still available for a short time.

[CLAIM 40% OFF]

Best,
The Scaler AI Team
" |}%string.

Definition day_later_email (name role seniority : string) : email :=
  {| subject :=
       "Your peers are already advancing — a reminder from Scaler AI";
     content :=
       "Hi " ++ name ++ ",

Yesterday's masterclass created momentum. Many " ++ PyStr.lower role
       ++ "s like you have already started the challenge and secured priority access.

We saved a spot with a discount for " ++ seniority ++ " " ++ role
       ++ "s who take action.

[SECURE YOUR SPOT]

— Scaler AI" |}%string.

Definition final_reminder_email (name role : string) : email :=
  {| subject := "A note from your future self — keep building";
     content :=
       "Hi " ++ name ++ ",

Two weeks from now you'll be glad you acted. As a " ++ role
       ++ ", this program helps you move from analysis to impact.

[ENROLL NOW — FINAL REMINDER]

— The Scaler Team" |}%string.

(** [generate_personalized_email(profile, masterclass_topic, email_type)] *)
Definition generate_personalized_email (profile : profile)
    (masterclass_topic email_type : string) : email :=
  let name := get_or (name profile) "[Name]" in
  let role := get_or (role profile) "Professional" in
  let seniority := get_or (seniority profile) EmptyString in
  if String.eqb email_type "2 Hours Post-Exit" then
    post_exit_email name role seniority masterclass_topic
  else if String.eqb email_type "24 Hours Later" then
    day_later_email name role seniority
  else
    final_reminder_email name role.

(* ================================================================== *)
(** * Specification-side notions *)
(* ================================================================== *)

(** How many keywords of [kwlist] occur in [text]. *)
Definition count_matches (text : string) (kwlist : list string) : Z :=
  Z.of_nat (List.length (filter (fun kw => PyStr.contains kw text) kwlist)).

(** The keywords of [kwlist] that occur in [text], added to a set. *)
Definition add_matches (text : string) (kwlist found : list string)
    : list string :=
  fold_left
    (fun found kw =>
       if PyStr.contains kw text then PyStr.set_add kw found else found)
    kwlist found.

(** The role names in declaration order. *)
Definition declared_roles : list string :=
  [ "Software Engineer"; "Data Analyst"; "Data Scientist";
    "Product Manager"; "DevOps Engineer" ].

(** [x] is the first entry of [scores] that reaches the highest count. *)
Definition first_max (scores : list (string * Z)) (r : string) (c : Z)
    : Prop :=
  exists pre post,
    scores = pre ++ (r, c) :: post
    /\ (forall x, In x pre -> (snd x < c)%Z)
    /\ (forall x, In x post -> (snd x <= c)%Z).

(** Some keyword of [kwlist] occurs in [text]; none does. *)
Definition some_match (text : string) (kwlist : list string) : Prop :=
  exists kw, In kw kwlist /\ PyStr.contains kw text = true.

Definition no_match (text : string) (kwlist : list string) : Prop :=
  forall kw, In kw kwlist -> PyStr.contains kw text = false.

(** The score as the specification words it: the base score for the number
    of words, plus the boost of every keyword present, plus the noise,
    clamped to [[0.0, 10.0]] and rounded to one decimal.  The additions are
    those of floats, taken from left to right. *)
Definition spec_base (word_count : nat) : float :=
  PyFloat.min 10.0%float
    (3.0 + PyFloat.of_int (Z.of_nat word_count) * 0.03)%float.

Definition present_boosts (text : string) : list float :=
  map snd (filter (fun item => PyStr.contains (fst item) text) boosts).

Definition sum_from (base : float) (l : list float) : float :=
  fold_left PrimFloat.add l base.

Definition spec_score (solution_text : string) (noise : float) : float :=
  let text := PyStr.lower solution_text in
  PyFloat.round1
    (PyFloat.max 0.0%float
       (PyFloat.min 10.0%float
          (sum_from (spec_base (List.length (PyStr.split text)))
                    (present_boosts text)
           + noise)%float)).

(** [x] is a value rounded to one decimal: rounding leaves it unchanged. *)
Definition is_rounded1 (x : float) : Prop := PyFloat.round1 x = x.

(** The number of words of a text, counted on its characters: a word
    starts at every character that is not a whitespace and comes first or
    after a whitespace. *)
Fixpoint count_words (in_word : bool) (l : list N) : nat :=
  match l with
  | [] => 0%nat
  | cp :: l' =>
      if PyStr.isspace cp then count_words false l'
      else ((if in_word then 0 else 1) + count_words true l')%nat
  end.

Definition word_count (s : string) : nat :=
  count_words false (map fst (PyStr.decode s)).

(** [r] is the smaller of [a] and [x]: below both, and one of them. *)
Definition smaller_of (a x r : float) : Prop :=
  (r <=? a)%float = true
  /\ ((x <? a)%float = true -> r = x)
  /\ ((a <=? x)%float = true -> r = a).

(** [c] is [x] brought into [[0.0, 10.0]]: [x] itself inside, the nearer
    end outside. *)
Definition clamped (x c : float) : Prop :=
  PyFloat.between 0.0 10.0 c
  /\ ((x <=? 0.0)%float = true -> c = 0.0%float)
  /\ ((10.0 <=? x)%float = true -> c = 10.0%float)
  /\ ((0.0 <? x)%float = true -> (x <? 10.0)%float = true -> c = x).

(** [r] is [x] rounded to one decimal, for [x] zero or positive below
    [1.0]'s exponent range: [r] is the double nearest to [k / 10] for the
    integer [k] nearest to [10 * x], the even one of the two when [10 * x]
    lies half way.  With [x = m * 2^e] and [e < 0], the distance of
    [10 * x] to [k] is [|10 * m - k * 2^(-e)| * 2^e]. *)
Definition nearest_tenth (x r : float) : Prop :=
  match Prim2SF x with
  | S754_zero _ => r = x
  | S754_finite false m e =>
      (e < 0)%Z
      /\ exists k : Z,
           r = (PyFloat.of_int k / 10.0)%float
           /\ (0 <= k)%Z
           /\ (Z.abs (2 * (10 * Z.pos m) - 2 * (k * 2 ^ (- e)))
               <= 2 ^ (- e))%Z
           /\ (Z.abs (2 * (10 * Z.pos m) - 2 * (k * 2 ^ (- e)))
               = 2 ^ (- e) -> Z.even k = true)%Z
  | _ => False
  end.

(* ================================================================== *)
(** * The order of binary64 numbers *)
(* ================================================================== *)

Module FloatOrder.

Local Open Scope Z_scope.

(** A position on the line for every number that is not NaN: the class
    (infinities at the ends, zeros in the middle), then the exponent, then
    the mantissa, the last two negated for negative numbers. *)
Definition rank (x : spec_float) : Z * Z * Z :=
  match x with
  | S754_nan => (0, 0, 0)
  | S754_zero _ => (0, 0, 0)
  | S754_infinity true => (-2, 0, 0)
  | S754_infinity false => (2, 0, 0)
  | S754_finite true m e => (-1, - e, Z.neg m)
  | S754_finite false m e => (1, e, Z.pos m)
  end.

Definition is_nan (x : spec_float) : bool :=
  match x with S754_nan => true | _ => false end.

Definition lex_lt (a b : Z * Z * Z) : Prop :=
  let '(a1, a2, a3) := a in
  let '(b1, b2, b3) := b in
  a1 < b1 \/ (a1 = b1 /\ (a2 < b2 \/ (a2 = b2 /\ a3 < b3))).

Definition lex_le (a b : Z * Z * Z) : Prop := lex_lt a b \/ a = b.

(** The comparisons of floats, read on the line. *)
Definition lt (x y : float) : Prop :=
  is_nan (Prim2SF x) = false /\ is_nan (Prim2SF y) = false
  /\ lex_lt (rank (Prim2SF x)) (rank (Prim2SF y)).

Definition le (x y : float) : Prop :=
  is_nan (Prim2SF x) = false /\ is_nan (Prim2SF y) = false
  /\ lex_le (rank (Prim2SF x)) (rank (Prim2SF y)).

End FloatOrder.

(** A list of strings in ascending order: each entry is at most the next. *)
Definition ascending (l : list string) : Prop :=
  forall i a b,
    nth_error l i = Some a -> nth_error l (S i) = Some b ->
    String.leb a b = true.

(** The doubles nearest to [k / 10] for [k] from 0 to 100 lie in
    [[0.0, 10.0]] and are left unchanged by [round(_, 1)]. *)
Definition tenth_ok (k : Z) : bool :=
  let y := (PyFloat.of_int k / 10.0)%float in
  ((0.0 <=? y) && (y <=? 10.0)
   && PrimFloat.Leibniz.eqb (PyFloat.round1 y) y)%float.

(* ================================================================== *)
(** * The team assignment *)
(* ================================================================== *)

Definition team_names : list string :=
  [ "AI Innovators"; "Code Crushers"; "Data Wizards"; "ML Masters";
    "Tech Titans"; "Algorithm Aces" ].

Definition teammate_names : list string :=
  [ "Sarah K."; "Alex M."; "Priya S."; "John D."; "Maya R."; "David L.";
    "Lisa C."; "Mike R." ].

Section Team.

(** The random source again: [randbelow n g] is one call of the generator's
    [_randbelow(n)] in state [g], an index below [n] and the next state.
    [random.choice(seq)] is [seq[_randbelow(len(seq))]] and
    [random.randint(a, b)] is [a + _randbelow(b - a + 1)]. *)
Variable rng : Type.
Variable randbelow : nat -> rng -> nat * rng.

Definition choice {A : Type} (default : A) (seq : list A) (g : rng)
    : A * rng :=
  let '(i, g') := randbelow (List.length seq) g in (nth i seq default, g').

Definition randint (a b : Z) (g : rng) : Z * rng :=
  let '(i, g') := randbelow (Z.to_nat (b - a + 1)) g in
  ((a + Z.of_nat i)%Z, g').

(** [for i in range(count): teammates.append(random.choice([...]))] *)
Fixpoint draw_teammates (count : nat) (teammates : list string) (g : rng)
    : list string * rng :=
  match count with
  | O => (teammates, g)
  | S count' =>
      let '(t, g') := choice EmptyString teammate_names g in
      draw_teammates count' (teammates ++ [t]) g'
  end.

(** [assign_random_team(user_name, participants)]; neither argument is
    read. *)
Definition assign_random_team (user_name : string) (participants : Z)
    (g : rng) : (string * list string) * rng :=
  let '(team, g1) := choice EmptyString team_names g in
  let '(count, g2) := choice 0%Z [2%Z; 3%Z] g1 in
  let '(teammates, g3) := draw_teammates (Z.to_nat count) [] g2 in
  ((team, teammates), g3).

End Team.

(** A generator for tests: the state is the list of the numbers the
    generator is going to produce, each reduced below the bound asked. *)
Definition list_randbelow (n : nat) (g : list nat) : nat * list nat :=
  match g with
  | r :: g' => ((r mod n)%nat, g')
  | [] => (0%nat, [])
  end.

(* ================================================================== *)
(** * The session state and the pages that write it *)
(* ================================================================== *)

(** [st.session_state]: the five keys the script initialises, and
    ['participants'], which page 2 creates on its first run. *)
Module Session.

Record state : Type := mkState {
  resume_data : option profile;
  masterclass_joined : bool;
  team_info : option (string * list string);
  challenge_score : option float;
  discount : option discount;
  exit_popup_shown : bool;
  participants : option Z
}.

(** The state after the initialisation block. *)
Definition initial : state :=
  {| resume_data := None;
     masterclass_joined := false;
     team_info := None;
     challenge_score := None;
     discount := None;
     exit_popup_shown := false;
     participants := None |}.

End Session.

(** [profile['name'] = v] *)
Definition set_name (v : string) (p : profile) : profile :=
  {| role := role p;
     experience_years := experience_years p;
     skills := skills p;
     seniority := seniority p;
     raw_text_preview := raw_text_preview p;
     name := Some v |}.

(** The three buttons of page 4. *)
Inductive page4_button : Type :=
  | ImLeaving
  | ClaimNow
  | MaybeLater.

(** One run of the script: the page selected, and the button whose click
    started the run, if any (with the text of the text area it reads). *)
Inductive run : Type :=
  | Page1 (analyze_pressed : bool) (resume_text : string)
  | Page2 (join_pressed : bool)
  | Page3Submit (solution : string)
  | Page3QuickTest
  | Page3
  | Page4 (button : option page4_button)
  | Page5.

Section Pages.

Variable rng : Type.
Variable uniform : float -> float -> rng -> float * rng.
Variable randbelow : nat -> rng -> nat * rng.

(** Page 1: [if resume_text and st.button(...)] stores the extracted
    profile with the name "Candidate".  (On [None] the assignment to
    [profile['name']] would raise; the run then leaves the state as it
    was.) *)
Definition page1 (analyze_pressed : bool) (resume_text : string)
    (s : Session.state) : Session.state :=
  if negb (PyStr.is_empty resume_text) && analyze_pressed then
    match extract_profile_from_resume (Some resume_text) with
    | Some profile =>
        {| Session.resume_data := Some (set_name "Candidate" profile);
           Session.masterclass_joined := Session.masterclass_joined s;
           Session.team_info := Session.team_info s;
           Session.challenge_score := Session.challenge_score s;
           Session.discount := Session.discount s;
           Session.exit_popup_shown := Session.exit_popup_shown s;
           Session.participants := Session.participants s |}
    | None => s
    end
  else s.

(** Page 2, left column: the join button exists only while the user has
    not joined; pressing it records the team. *)
Definition page2_join (join_pressed : bool) (s : Session.state) (g : rng)
    : Session.state * rng :=
  if negb (Session.masterclass_joined s) && join_pressed then
    let '((team, teammates), g') :=
      assign_random_team rng randbelow "You" 50%Z g in
    ({| Session.resume_data := Session.resume_data s;
        Session.masterclass_joined := true;
        Session.team_info := Some (team, teammates);
        Session.challenge_score := Session.challenge_score s;
        Session.discount := Session.discount s;
        Session.exit_popup_shown := Session.exit_popup_shown s;
        Session.participants := Session.participants s |}, g')
  else (s, g).

(** Page 2, right column, on every run:
    [participants = min(50, participants + random.randint(0, 5))], from 12
    when the key is missing. *)
Definition page2_counter (s : Session.state) (g : rng)
    : Session.state * rng :=
  let participants := get_or (Session.participants s) 12%Z in
  let '(inc, g') := randint rng randbelow 0%Z 5%Z g in
  let participants := Z.min 50 (participants + inc) in
  ({| Session.resume_data := Session.resume_data s;
      Session.masterclass_joined := Session.masterclass_joined s;
      Session.team_info := Session.team_info s;
      Session.challenge_score := Session.challenge_score s;
      Session.discount := Session.discount s;
      Session.exit_popup_shown := Session.exit_popup_shown s;
      Session.participants := Some participants |}, g').

(** Page 3: both buttons store a score and the tier it maps to. *)
Definition store_score (score : float) (s : Session.state)
    : Session.state :=
  {| Session.resume_data := Session.resume_data s;
     Session.masterclass_joined := Session.masterclass_joined s;
     Session.team_info := Session.team_info s;
     Session.challenge_score := Some score;
     Session.discount := Some (discount_by_score score);
     Session.exit_popup_shown := Session.exit_popup_shown s;
     Session.participants := Session.participants s |}.

Definition page3_submit (solution : string) (s : Session.state) (g : rng)
    : Session.state * rng :=
  let '(score, g') := simulate_scoring rng uniform solution g in
  (store_score score s, g').

(** [score = round(random.uniform(7.0, 9.5), 1)] *)
Definition quick_test_score (g : rng) : float * rng :=
  let '(u, g') := uniform 7.0%float 9.5%float g in (PyFloat.round1 u, g').

Definition page3_quick_test (s : Session.state) (g : rng)
    : Session.state * rng :=
  let '(score, g') := quick_test_score g in (store_score score s, g').

(** Page 4 stops at once without a profile.  Otherwise "I'm leaving" sets
    the exit flag, and while the flag is set the popup shows two buttons
    that each clear it. *)
Definition set_exit_popup (v : bool) (s : Session.state) : Session.state :=
  {| Session.resume_data := Session.resume_data s;
     Session.masterclass_joined := Session.masterclass_joined s;
     Session.team_info := Session.team_info s;
     Session.challenge_score := Session.challenge_score s;
     Session.discount := Session.discount s;
     Session.exit_popup_shown := v;
     Session.participants := Session.participants s |}.

Definition has_profile (s : Session.state) : bool :=
  match Session.resume_data s with
  | None => false
  | Some rd => negb (profile_is_empty rd)
  end.

Definition page4 (button : option page4_button) (s : Session.state)
    : Session.state :=
  if has_profile s then
    let s1 :=
      match button with
      | Some ImLeaving => set_exit_popup true s
      | _ => s
      end in
    if Session.exit_popup_shown s1 then
      match button with
      | Some ClaimNow | Some MaybeLater => set_exit_popup false s1
      | _ => s1
      end
    else s1
  else s.

(** One run of the script. *)
Definition step (r : run) (s : Session.state) (g : rng)
    : Session.state * rng :=
  match r with
  | Page1 analyze_pressed resume_text =>
      (page1 analyze_pressed resume_text s, g)
  | Page2 join_pressed =>
      let '(s1, g1) := page2_join join_pressed s g in page2_counter s1 g1
  | Page3Submit solution => page3_submit solution s g
  | Page3QuickTest => page3_quick_test s g
  | Page3 => (s, g)
  | Page4 button => (page4 button s, g)
  | Page5 => (s, g)
  end.

(** A session: the runs in order, from a state and a generator state. *)
Fixpoint session (runs : list run) (s : Session.state) (g : rng)
    : Session.state * rng :=
  match runs with
  | [] => (s, g)
  | r :: runs' => let '(s', g') := step r s g in session runs' s' g'
  end.

(** Page 5: the email shown for the stored profile; nothing without one. *)
Definition page5_email (email_type : string) (s : Session.state)
    : option email :=
  if has_profile s then
    match Session.resume_data s with
    | Some rd =>
        Some (generate_personalized_email rd "AI & Machine Learning"
                email_type)
    | None => None
    end
  else None.

End Pages.

(* ================================================================== *)
(** * Notions for the further properties *)
(* ================================================================== *)

(** Every keyword of every role, in declaration order. *)
Definition all_keywords : list string := flat_map snd keywords.

(** The percentage a tier stands for. *)
Definition percent (d : discount) : Z :=
  if String.eqb (savings d) "40%" then 40%Z
  else if String.eqb (savings d) "30%" then 30%Z
  else if String.eqb (savings d) "20%" then 20%Z
  else 15%Z.

(** The keys of a dict, in insertion order. *)
Definition dict_keys (d : list (string * string)) : list string :=
  map fst d.

(** The check behind the table of the quick test: the doubles nearest to
    [k / 10] for [k] from 70 to 95 lie in [[7.0, 9.5]] and are left
    unchanged by [round(_, 1)]. *)
Definition quick_tenth_ok (k : Z) : bool :=
  let y := (PyFloat.of_int k / 10.0)%float in
  ((7.0 <=? y) && (y <=? 9.5)
   && PrimFloat.Leibniz.eqb (PyFloat.round1 y) y)%float.

(** What every reachable session state satisfies. *)
Definition team_ok (t : string * list string) : Prop :=
  In (fst t) team_names
  /\ (2 <= List.length (snd t) <= 3)%nat
  /\ (forall m, In m (snd t) -> In m teammate_names).

Definition profile_ok (p : profile) : Prop :=
  name p = Some "Candidate"
  /\ (exists r, role p = Some r /\ In r declared_roles)
  /\ profile_is_empty p = false.

(** The contract of [_randbelow]: an index below the bound. *)
Definition randbelow_ok {rng : Type} (randbelow : nat -> rng -> nat * rng)
    : Prop :=
  forall n g, (0 < n)%nat -> (fst (randbelow n g) < n)%nat.

(** What the pages keep true of the session state. *)
Definition session_inv (s : Session.state) : Prop :=
  (Session.masterclass_joined s = true <-> Session.team_info s <> None)
  /\ Session.discount s
     = option_map discount_by_score (Session.challenge_score s)
  /\ (forall rd, Session.resume_data s = Some rd -> profile_ok rd)
  /\ (Session.exit_popup_shown s = true -> has_profile s = true)
  /\ (forall n, Session.participants s = Some n -> (12 <= n <= 50)%Z).

Definition team_inv (s : Session.state) : Prop :=
  forall t, Session.team_info s = Some t -> team_ok t.

(** The two test generators side by side, for sessions that draw both
    floats and indices. *)
Definition pair_uniform (a b : float) (g : list float * list nat)
    : float * (list float * list nat) :=
  let '(x, fs) := list_uniform a b (fst g) in (x, (fs, snd g)).

Definition pair_randbelow (n : nat) (g : list float * list nat)
    : nat * (list float * list nat) :=
  let '(i, ns) := list_randbelow n (snd g) in (i, (fst g, ns)).

(** The first character of a string, with its bytes and the rest of the
    string: what [decode] reads in one step. *)
Definition first_char (s : string) : option (N * string * string) :=
  match s with
  | EmptyString => None
  | String b0 s1 =>
      let fallback := (PyStr.escape b0, PyStr.chunk1 b0, s1) in
      Some
        (if (PyStr.byte b0 <? 0x80)%N
         then (PyStr.byte b0, PyStr.chunk1 b0, s1)
         else
           match s1 with
           | EmptyString => fallback
           | String b1 s2 =>
               if PyStr.two_ok b0 b1
               then (PyStr.cp2 b0 b1, String b0 (PyStr.chunk1 b1), s2)
               else
                 match s2 with
                 | EmptyString => fallback
                 | String b2 s3 =>
                     if PyStr.three_ok b0 b1 b2
                     then (PyStr.cp3 b0 b1 b2,
                           String b0 (String b1 (PyStr.chunk1 b2)), s3)
                     else
                       match s3 with
                       | EmptyString => fallback
                       | String b3 s4 =>
                           if PyStr.four_ok b0 b1 b2 b3
                           then (PyStr.cp4 b0 b1 b2 b3,
                                 String b0
                                   (String b1 (String b2 (PyStr.chunk1 b3))),
                                 s4)
                           else fallback
                       end
                 end
           end)
  end.

(** Every byte is outside ASCII; every byte is outside ASCII or an ASCII
    whitespace. *)
Fixpoint high_bytes (s : string) : bool :=
  match s with
  | EmptyString => true
  | String b s' => (0x80 <=? PyStr.byte b)%N && high_bytes s'
  end.

Fixpoint space_bytes (s : string) : bool :=
  match s with
  | EmptyString => true
  | String b s' =>
      ((0x80 <=? PyStr.byte b)%N || PyStr.isspace (PyStr.byte b))
      && space_bytes s'
  end.









(** Characters outside ASCII, in UTF-8: U+00A0 the no-break space, U+3000
    the ideographic space, U+212A the Kelvin sign, U+0130 the capital I
    with a dot above. *)
Definition no_break_space : string :=
  String "194"%char (String "160"%char EmptyString).

Definition ideographic_space : string :=
  String "227"%char (String "128"%char (String "128"%char EmptyString)).

Definition kelvin_sign : string :=
  String "226"%char (String "132"%char (String "170"%char EmptyString)).

Definition dotted_capital_i : string :=
  String "196"%char (String "176"%char EmptyString).

(** U+2022, the bullet, in UTF-8. *)
Definition bullet : string :=
  String "226"%char (String "128"%char (String "162"%char EmptyString)).

(* ================================================================== *)
(** * Lemmas on the string built-ins *)
(* ================================================================== *)

Module PyStrFacts.
Import PyStr.

Lemma is_empty_true (s : string) : is_empty s = true <-> s = EmptyString.
Proof. destruct s; simpl; split; congruence. Qed.

(** [decode] one step at a time. *)
Lemma decode_first (s : string) :
  decode s
  = match first_char s with
    | None => []
    | Some (cp, chunk, rest) => (cp, chunk) :: decode rest
    end.
Proof.
  destruct s as [|b0 s1]; [reflexivity|]. cbn [decode first_char].
  destruct (byte b0 <? 0x80)%N; [reflexivity|].
  destruct s1 as [|b1 s2]; cbv match; [reflexivity|].
  destruct (two_ok b0 b1); [reflexivity|].
  destruct s2 as [|b2 s3]; cbv match; [reflexivity|].
  destruct (three_ok b0 b1 b2); [reflexivity|].
  destruct s3 as [|b3 s4]; cbv match; [reflexivity|].
  destruct (four_ok b0 b1 b2 b3); reflexivity.
Qed.

Ltac bool_hyps :=
  repeat match goal with
         | H : _ && _ = true |- _ => apply andb_true_iff in H as [? ?]
         | H : (_ <=? _)%N = true |- _ => apply N.leb_le in H
         | H : (_ <? _)%N = true |- _ => apply N.ltb_lt in H
         | H : (_ =? _)%N = true |- _ => apply N.eqb_eq in H
         end.

(** What one step reads: the bytes of the character followed by the rest
    make the string; the character is one ASCII byte, its own code point,
    or a run of bytes outside ASCII with a code point outside ASCII. *)
Lemma first_char_facts (s : string) (cp : N) (chunk rest : string) :
  first_char s = Some (cp, chunk, rest) ->
  s = (chunk ++ rest)%string
  /\ (String.length rest < String.length s)%nat
  /\ ((exists b0,
          chunk = chunk1 b0 /\ cp = byte b0 /\ (byte b0 < 0x80)%N)
      \/ ((0x80 <= cp)%N /\ high_bytes chunk = true
          /\ chunk <> EmptyString)).
Proof.
  unfold first_char. destruct s as [|b0 s1]; [discriminate|].
  destruct (byte b0 <? 0x80)%N eqn:E0.
  - intros H. inversion H. subst. apply N.ltb_lt in E0.
    split; [reflexivity|]. split; [cbn [String.length]; lia|]. left. now exists b0.
  - apply N.ltb_ge in E0.
    assert (Hesc : (0x80 <= escape b0)%N) by (unfold escape; lia).
    assert (Hfb : Some (escape b0, chunk1 b0, s1) = Some (cp, chunk, rest) ->
                  String b0 s1 = (chunk ++ rest)%string
                  /\ (String.length rest < String.length (String b0 s1))%nat
                  /\ ((exists b, chunk = chunk1 b /\ cp = byte b
                                 /\ (byte b < 0x80)%N)
                      \/ ((0x80 <= cp)%N /\ high_bytes chunk = true
                          /\ chunk <> EmptyString))).
    { intros H. inversion H. subst. split; [reflexivity|]. split; [cbn [String.length]; lia|]. right.
      repeat split; [exact Hesc| |discriminate].
      cbn [high_bytes chunk1]. apply andb_true_iff.
      split; [now apply N.leb_le|reflexivity]. }
    destruct s1 as [|b1 s2]; [exact Hfb|].
    destruct (two_ok b0 b1) eqn:E2.
    + intros H. inversion H. subst. clear H Hfb.
      unfold two_ok, is_cont, in_range in E2.
      bool_hyps.
      split; [reflexivity|]. split; [cbn [String.length]; lia|]. right. repeat split.
      * unfold cp2, cont_bits. lia.
      * cbn [high_bytes chunk1]. rewrite !andb_true_iff, !N.leb_le.
           repeat split; lia.
      * discriminate.
    + destruct s2 as [|b2 s3]; [exact Hfb|].
      destruct (three_ok b0 b1 b2) eqn:E3.
      * intros H. inversion H. subst. clear H Hfb.
        unfold three_ok, is_cont, in_range in E3.
        apply andb_true_iff in E3 as [E3 Hc2].
        apply andb_true_iff in Hc2 as [Hc2 _]. apply N.leb_le in Hc2.
        assert (Hb1 : (0x80 <= byte b1)%N
                      /\ (0xE0 <= byte b0)%N
                      /\ ((byte b0 = 0xE0)%N -> (0xA0 <= byte b1)%N)).
        { repeat (apply orb_true_iff in E3 as [E3|E3]);
            bool_hyps; repeat split; lia. }
        destruct Hb1 as (Hb1 & Hb0 & Hlow).
        split; [reflexivity|]. split; [cbn [String.length]; lia|]. right. repeat split.
        -- unfold cp3, cont_bits.
           destruct (N.eq_dec (byte b0) 0xE0) as [Heq|Hne].
           ++ specialize (Hlow Heq). lia.
           ++ lia.
        -- cbn [high_bytes chunk1]. rewrite !andb_true_iff, !N.leb_le.
           repeat split; lia.
        -- discriminate.
      * destruct s3 as [|b3 s4]; [exact Hfb|].
        destruct (four_ok b0 b1 b2 b3) eqn:E4; [|exact Hfb].
        intros H. inversion H. subst. clear H Hfb.
        unfold four_ok, is_cont, in_range in E4.
        apply andb_true_iff in E4 as [E4 Hc3].
        apply andb_true_iff in E4 as [E4 Hc2].
        apply andb_true_iff in Hc2 as [Hc2 _]. apply N.leb_le in Hc2.
        apply andb_true_iff in Hc3 as [Hc3 _]. apply N.leb_le in Hc3.
        assert (Hb1 : (0x80 <= byte b1)%N
                      /\ (0xF0 <= byte b0)%N
                      /\ ((byte b0 = 0xF0)%N -> (0x90 <= byte b1)%N)).
        { repeat (apply orb_true_iff in E4 as [E4|E4]);
            bool_hyps; repeat split; lia. }
        destruct Hb1 as (Hb1 & Hb0 & Hlow).
        split; [reflexivity|]. split; [cbn [String.length]; lia|]. right. repeat split.
        -- unfold cp4, cont_bits.
           destruct (N.eq_dec (byte b0) 0xF0) as [Heq|Hne].
           ++ specialize (Hlow Heq). lia.
           ++ lia.
        -- cbn [high_bytes chunk1]. rewrite !andb_true_iff, !N.leb_le.
           repeat split; lia.
        -- discriminate.
Qed.

(** Induction along [decode]. *)
Lemma decode_ind (P : string -> Prop) :
  P EmptyString ->
  (forall s cp chunk rest,
      first_char s = Some (cp, chunk, rest) -> P rest -> P s) ->
  forall s, P s.
Proof.
  intros Hnil Hstep s.
  remember (String.length s) as n eqn:Hn. revert s Hn.
  induction n as [n IH] using lt_wf_ind. intros s Hn.
  destruct (first_char s) as [[[cp chunk] rest]|] eqn:E.
  - apply (Hstep s cp chunk rest E).
    destruct (first_char_facts _ _ _ _ E) as (_ & Hlen & _).
    apply (IH (String.length rest)); [lia|reflexivity].
  - destruct s; [exact Hnil|discriminate].
Qed.


Lemma unchars_empty (l : list (N * string)) :
  (forall x, In x l -> snd x <> EmptyString) ->
  unchars l = EmptyString -> l = [].
Proof.
  destruct l as [|[cp chunk] l]; [reflexivity|]. intros H E. simpl in E.
  specialize (H (cp, chunk) (or_introl eq_refl)). simpl in H.
  destruct chunk; [congruence|discriminate].
Qed.

Lemma decode_chunks (s : string) (x : N * string) :
  In x (decode s) -> snd x <> EmptyString.
Proof.
  induction s as [|s cp chunk rest E IH] using decode_ind; [intros []|].
  rewrite decode_first, E. intros [<-|H]; [|now apply IH].
  simpl. destruct (first_char_facts _ _ _ _ E) as (_ & _ & [(b0 & -> & _)|H]).
  - discriminate.
  - apply H.
Qed.

Lemma space_bytes_app (s1 s2 : string) :
  space_bytes (s1 ++ s2) = space_bytes s1 && space_bytes s2.
Proof.
  induction s1 as [|b s1 IH]; simpl; [reflexivity|].
  now rewrite IH, andb_assoc.
Qed.

Lemma high_space_bytes (s : string) :
  high_bytes s = true -> space_bytes s = true.
Proof.
  induction s as [|b s IH]; simpl; [reflexivity|]. intros H.
  apply andb_true_iff in H as [H1 H2]. now rewrite H1, IH.
Qed.

(** In a text made of whitespace every ASCII byte is a whitespace. *)
Lemma all_space_bytes (s : string) :
  all_space s = true -> space_bytes s = true.
Proof.
  unfold all_space.
  induction s as [|s cp chunk rest E IH] using decode_ind; [reflexivity|].
  rewrite decode_first, E. simpl. intros H.
  apply andb_true_iff in H as [Hcp Hrest].
  destruct (first_char_facts _ _ _ _ E) as (-> & _ & Hshape).
  rewrite space_bytes_app, (IH Hrest), andb_true_r.
  destruct Hshape as [(b0 & -> & -> & _)|(_ & Hh & _)].
  - simpl. now rewrite Hcp, orb_true_r.
  - now apply high_space_bytes.
Qed.

(** A keyword that starts with an ASCII character other than a whitespace
    does not occur in a text made of whitespace. *)
Lemma prefix_space_bytes (c : ascii) (kw text : string) :
  (byte c <? 0x80)%N = true -> isspace (byte c) = false ->
  space_bytes text = true ->
  prefix (String c kw) text = false.
Proof.
  intros Hc Hs. destruct text as [|d text]; simpl; [reflexivity|].
  intros H. apply andb_true_iff in H as [Hd _].
  destruct (ascii_dec c d) as [->|]; [|reflexivity].
  rewrite Hs, orb_false_r in Hd. apply N.leb_le in Hd.
  apply N.ltb_lt in Hc. lia.
Qed.

Lemma contains_space_bytes (c : ascii) (kw text : string) :
  (byte c <? 0x80)%N = true -> isspace (byte c) = false ->
  space_bytes text = true ->
  contains (String c kw) text = false.
Proof.
  intros Hc Hs. induction text as [|d text IH]; intros H.
  - reflexivity.
  - cbn [contains]. rewrite (prefix_space_bytes c kw _ Hc Hs H).
    simpl in H. apply andb_true_iff in H as [_ H]. now apply IH.
Qed.

Lemma contains_all_space (c : ascii) (kw text : string) :
  (byte c <? 0x80)%N = true -> isspace (byte c) = false ->
  all_space text = true ->
  contains (String c kw) text = false.
Proof.
  intros Hc Hs H. apply contains_space_bytes; try assumption.
  now apply all_space_bytes.
Qed.

(** Lower-casing leaves a whitespace character as it is. *)
Lemma lower_char_space (c : ascii) :
  isspace (byte c) = true -> lower_char c = c.
Proof.
  destruct c as [[|] [|] [|] [|] [|] [|] [|] [|]];
    vm_compute; congruence.
Qed.

Lemma lower_one_space (before after : list (N * string)) (s : string)
    (cp : N) (chunk rest : string) :
  first_char s = Some (cp, chunk, rest) -> isspace cp = true ->
  lower_one before cp chunk after = chunk.
Proof.
  intros E Hsp.
  destruct (first_char_facts _ _ _ _ E)
    as (_ & _ & [(b0 & -> & -> & Hlt)|(Hge & _ & _)]).
  - unfold lower_one. apply N.ltb_lt in Hlt. rewrite Hlt. simpl.
    now rewrite lower_char_space.
  - unfold isspace in Hsp. apply existsb_exists in Hsp as (w & Hin & Ew).
    apply N.eqb_eq in Ew. subst w. unfold whitespace in Hin. simpl in Hin.
    repeat (destruct Hin as [<-|Hin];
            [first [lia | vm_compute; reflexivity]|]).
    destruct Hin.
Qed.

Lemma lower_all_space (s : string) : all_space s = true -> lower s = s.
Proof.
  unfold lower, all_space. generalize (@nil (N * string)) as before.
  induction s as [|s cp chunk rest E IH] using decode_ind; intros before;
    [reflexivity|].
  rewrite decode_first, E. simpl. intros H.
  apply andb_true_iff in H as [Hcp Hrest].
  rewrite (lower_one_space before (decode rest) s cp chunk rest E Hcp).
  rewrite (IH _ Hrest).
  now destruct (first_char_facts _ _ _ _ E) as (-> & _).
Qed.



(** [strip] leaves nothing exactly of the texts made of whitespace. *)
Lemma lstrip_chars_empty (l : list (N * string)) :
  lstrip_chars l = [] <-> forallb (fun c => isspace (fst c)) l = true.
Proof.
  induction l as [|[cp chunk] l IH]; simpl; [tauto|].
  destruct (isspace cp); simpl; [exact IH|split; congruence].
Qed.

Lemma lstrip_chars_head (l : list (N * string)) :
  match lstrip_chars l with
  | [] => True
  | (cp, _) :: _ => isspace cp = false
  end.
Proof.
  induction l as [|[cp chunk] l IH]; simpl; [exact I|].
  destruct (isspace cp) eqn:E; [exact IH|exact E].
Qed.

Lemma lstrip_chars_sub (l : list (N * string)) (x : N * string) :
  In x (lstrip_chars l) -> In x l.
Proof.
  induction l as [|[cp chunk] l IH]; simpl; [tauto|].
  destruct (isspace cp); simpl; auto.
Qed.

Lemma rstrip_chars_empty (l : list (N * string)) :
  rstrip_chars l = [] <-> forallb (fun c => isspace (fst c)) l = true.
Proof.
  induction l as [|[cp chunk] l IH]; simpl; [tauto|].
  destruct (rstrip_chars l) eqn:E.
  - destruct (isspace cp); simpl; [exact IH|split; congruence].
  - split; [congruence|]. intros H.
    apply andb_true_iff in H as [_ H]. apply IH in H. congruence.
Qed.

Lemma rstrip_chars_sub (l : list (N * string)) (x : N * string) :
  In x (rstrip_chars l) -> In x l.
Proof.
  revert x. induction l as [|[cp chunk] l IH]; intros x; simpl; [tauto|].
  destruct (rstrip_chars l) eqn:E.
  - destruct (isspace cp); simpl; [tauto|]. intros [<-|[]]. now left.
  - intros [<-|H]; [now left|right]. now apply IH.
Qed.

Lemma strip_empty (s : string) :
  strip s = EmptyString <-> all_space s = true.
Proof.
  unfold strip, all_space. split; intros H.
  - apply unchars_empty in H.
    + apply rstrip_chars_empty in H. apply lstrip_chars_empty.
      pose proof (lstrip_chars_head (decode s)) as Hh.
      destruct (lstrip_chars (decode s)) as [|[cp chunk] l]; [reflexivity|].
      simpl in H. rewrite Hh in H. discriminate.
    + intros x Hx. apply (decode_chunks s).
      now apply lstrip_chars_sub, rstrip_chars_sub.
  - apply lstrip_chars_empty in H. now rewrite H.
Qed.

Lemma ascending_cons (x : string) (l : list string) :
  ascending l ->
  match l with [] => True | y :: _ => String.leb x y = true end ->
  ascending (x :: l).
Proof.
  intros Hl Hx [|i] a b Ha Hb; simpl in *.
  - destruct l as [|y l]; [discriminate|]. simpl in Hb. congruence.
  - eapply Hl; eauto.
Qed.

Lemma ascending_tail (x : string) (l : list string) :
  ascending (x :: l) -> ascending l.
Proof. intros H i a b Ha Hb. apply (H (S i) a b); assumption. Qed.

Lemma insert_sorted_ascending (x : string) (l : list string) :
  ascending l -> ascending (insert_sorted x l).
Proof.
  induction l as [|y l IH]; intros Hl; simpl.
  - intros [|[|i]] a b Ha Hb; simpl in *; discriminate.
  - destruct (String.leb x y) eqn:E.
    + apply ascending_cons; assumption.
    + apply ascending_cons.
      * apply IH. eapply ascending_tail; eassumption.
      * assert (Hyx : String.leb y x = true)
          by (destruct (String.leb_total x y); congruence).
        destruct l as [|z l]; simpl; [exact Hyx|].
        destruct (String.leb x z); [exact Hyx|].
        apply (Hl 0%nat y z); reflexivity.
Qed.

Lemma sorted_ascending (l : list string) : ascending (sorted l).
Proof.
  induction l as [|x l IH]; simpl.
  - intros [|i] a b Ha Hb; discriminate.
  - now apply insert_sorted_ascending.
Qed.

Lemma firstn_ascending (n : nat) (l : list string) :
  ascending l -> ascending (firstn n l).
Proof.
  revert l. induction n as [|n IH]; intros l Hl.
  - intros [|i] a b Ha Hb; discriminate.
  - destruct l as [|x l]; [exact Hl|]. simpl.
    apply ascending_cons.
    + apply IH. eapply ascending_tail; eassumption.
    + destruct n; [exact I|]. destruct l as [|y l]; [exact I|]. simpl.
      apply (Hl 0%nat x y); reflexivity.
Qed.

(** [split] gives one word for every start of a word. *)
Lemma split_from_length (cur : string) (l : list (N * string)) :
  (forall x, In x l -> snd x <> EmptyString) ->
  List.length (split_from cur l)
  = ((if is_empty cur then 0 else 1)
     + count_words (negb (is_empty cur)) (map fst l))%nat.
Proof.
  revert cur. induction l as [|[cp chunk] l IH]; intros cur Hne.
  - simpl. now destruct (is_empty cur).
  - assert (Hl : forall x, In x l -> snd x <> EmptyString)
      by (intros x Hx; apply Hne; now right).
    assert (Hc : chunk <> EmptyString)
      by (apply (Hne (cp, chunk)); now left).
    cbn [split_from map fst count_words].
    destruct (isspace cp).
    + destruct (is_empty cur); cbn [List.length negb];
        rewrite (IH EmptyString Hl); reflexivity.
    + rewrite (IH _ Hl).
      assert (He : is_empty (cur ++ chunk) = false).
      { destruct cur; [|reflexivity]. destruct chunk; [congruence|].
        reflexivity. }
      rewrite He. destruct (is_empty cur); reflexivity.
Qed.

Lemma split_length (s : string) :
  List.length (split s) = word_count s.
Proof.
  unfold split, word_count.
  rewrite split_from_length by apply decode_chunks. reflexivity.
Qed.

End PyStrFacts.

(** The built-ins on characters outside ASCII.  The no-break space and its
    like are whitespace, the zero-width space U+200B and the Mongolian
    vowel separator U+180E are not; the Kelvin sign is lower-cased to "k",
    the capital I with a dot to "i" and a combining dot U+0307, the capital
    sigma to the final sigma after a letter at the end of a word and to the
    small sigma elsewhere; a bullet is one character. *)
Example unicode_builtins :
  forallb PyStr.isspace
    [0x85; 0xA0; 0x1680; 0x2000; 0x200A; 0x2028; 0x2029; 0x202F; 0x205F;
     0x3000]%N = true
  /\ PyStr.isspace 0x200B = false
  /\ PyStr.isspace 0x180E = false
  /\ PyStr.lower kelvin_sign = "k"
  /\ PyStr.lower dotted_capital_i
     = String "i" (String "204"%char (String "135"%char EmptyString))
  /\ PyStr.lower
       (String "206"%char (String "145"%char
          (String "206"%char (String "163"%char EmptyString))))
     = String "206"%char (String "177"%char
         (String "207"%char (String "130"%char EmptyString)))
  /\ PyStr.lower (String "206"%char (String "163"%char EmptyString))
     = String "207"%char (String "131"%char EmptyString)
  /\ PyStr.len bullet = 1%nat
  /\ PyStr.slice_to 1 (bullet ++ "a") = bullet
  /\ PyStr.split ("a" ++ no_break_space ++ "b") = ["a"; "b"]
  /\ PyStr.strip (ideographic_space ++ "a" ++ no_break_space) = "a".
Proof. repeat split. Qed.

(* ================================================================== *)
(** * The profile extractor: keyword counts and the choice of the role *)
(* ================================================================== *)

Section ScanFacts.

Variable text : string.

Lemma scan_kwlist_from (kwlist : list string) (c : Z) (found : list string) :
  fold_left
    (fun (st : Z * list string) (kw : string) =>
       let '(count, found) := st in
       if PyStr.contains kw text
       then ((count + 1)%Z, PyStr.set_add kw found)
       else (count, found))
    kwlist (c, found)
  = ((c + count_matches text kwlist)%Z, add_matches text kwlist found).
Proof.
  revert c found. unfold count_matches, add_matches.
  induction kwlist as [|kw l IH]; intros c found; simpl.
  - f_equal. lia.
  - destruct (PyStr.contains kw text); rewrite IH; simpl; f_equal; lia.
Qed.

Lemma scan_kwlist_eq (kwlist found : list string) :
  scan_kwlist text kwlist found
  = (count_matches text kwlist, add_matches text kwlist found).
Proof. unfold scan_kwlist. now rewrite scan_kwlist_from. Qed.

Lemma scan_items_from (items : list (string * list string))
    (scores : list (string * Z)) (found : list string) :
  fold_left
    (fun (st : list (string * Z) * list string)
         (item : string * list string) =>
       let '(scores, found) := st in
       let '(r, kwlist) := item in
       let '(count, found') := scan_kwlist text kwlist found in
       (scores ++ [(r, count)], found'))
    items (scores, found)
  = (scores ++ map (fun item => (fst item, count_matches text (snd item)))
                   items,
     fold_left (fun found item => add_matches text (snd item) found)
               items found).
Proof.
  revert scores found.
  induction items as [|[r kwlist] items IH]; intros scores found; simpl.
  - now rewrite app_nil_r.
  - rewrite scan_kwlist_eq, IH, <- app_assoc. reflexivity.
Qed.

(** The [scores] dict holds, role by role and in declaration order, the
    number of the role's keywords that occur in the text. *)
Lemma scan_keywords_eq :
  scan_keywords text
  = (map (fun item => (fst item, count_matches text (snd item))) keywords,
     fold_left (fun found item => add_matches text (snd item) found)
               keywords []).
Proof. unfold scan_keywords. now rewrite scan_items_from. Qed.

Lemma count_matches_nonneg (kwlist : list string) :
  (0 <= count_matches text kwlist)%Z.
Proof. unfold count_matches. lia. Qed.

Lemma count_matches_none (kwlist : list string) :
  no_match text kwlist -> count_matches text kwlist = 0%Z.
Proof.
  unfold no_match, count_matches. induction kwlist as [|kw l IH]; intros H.
  - reflexivity.
  - simpl. rewrite (H kw) by now left. apply IH.
    intros kw' Hin. apply H. now right.
Qed.

Lemma count_matches_some (kwlist : list string) :
  some_match text kwlist -> (0 < count_matches text kwlist)%Z.
Proof.
  unfold some_match, count_matches.
  induction kwlist as [|kw l IH]; intros [kw' [Hin Hc]].
  - destruct Hin.
  - simpl. destruct Hin as [->|Hin].
    + rewrite Hc. simpl. lia.
    + destruct (PyStr.contains kw text); simpl.
      * lia.
      * apply IH. now exists kw'.
Qed.

Lemma add_matches_none (kwlist found : list string) :
  no_match text kwlist -> add_matches text kwlist found = found.
Proof.
  unfold no_match, add_matches. revert found.
  induction kwlist as [|kw l IH]; intros found H.
  - reflexivity.
  - simpl. rewrite (H kw) by now left. apply IH.
    intros kw' Hin. apply H. now right.
Qed.

(** The counts only depend on which keywords occur. *)
Lemma count_matches_ext (occurs : string -> bool) (kwlist : list string) :
  (forall kw, In kw kwlist -> PyStr.contains kw text = occurs kw) ->
  count_matches text kwlist
  = Z.of_nat (List.length (filter occurs kwlist)).
Proof.
  unfold count_matches. intros H. do 2 f_equal.
  apply filter_ext_in. exact H.
Qed.

End ScanFacts.

Section PickFacts.

Variable f : string -> Z.

Lemma max_from_top (keys : list string) (best : string) :
  (forall k, In k keys -> (f k <= f best)%Z) ->
  max_from f best keys = best.
Proof.
  revert best. induction keys as [|k keys IH]; intros best H.
  - reflexivity.
  - simpl. destruct (f best <? f k)%Z eqn:E.
    + apply Z.ltb_lt in E. specialize (H k (or_introl eq_refl)). lia.
    + apply IH. intros k' Hin. apply H. now right.
Qed.

(** [max] returns the first key whose value no other key exceeds. *)
Lemma max_from_first (keys : list string) :
  forall (best r : string) (pre post : list string),
    best :: keys = pre ++ r :: post ->
    (forall k, In k pre -> (f k < f r)%Z) ->
    (forall k, In k post -> (f k <= f r)%Z) ->
    max_from f best keys = r.
Proof.
  induction keys as [|k keys IH]; intros best r pre post Heq Hpre Hpost.
  - destruct pre as [|p pre]; simpl in Heq.
    + now inversion Heq.
    + inversion Heq as [[H1 H2]]. now destruct pre.
  - destruct pre as [|p pre]; simpl in Heq.
    + inversion Heq as [[H1 H2]]. subst. now apply max_from_top.
    + inversion Heq as [[H1 H2]]. subst p. simpl.
      destruct (f best <? f k)%Z eqn:E.
      * apply (IH k r pre post H2); [|exact Hpost].
        intros k' Hin. apply Hpre. now right.
      * apply Z.ltb_ge in E.
        destruct pre as [|p pre]; simpl in H2.
        -- inversion H2. subst.
           specialize (Hpre best (or_introl eq_refl)). lia.
        -- inversion H2 as [[H3 H4]]. subst p. rewrite <- H4.
           apply (IH best r (best :: pre) post); [now rewrite H4| |exact Hpost].
           intros k' [<-|Hin].
           ++ apply Hpre. now left.
           ++ apply Hpre. right. now right.
Qed.

End PickFacts.

Lemma dict_get_in (scores : list (string * Z)) (r : string) (c : Z) :
  NoDup (map fst scores) -> In (r, c) scores -> dict_get r scores = Some c.
Proof.
  induction scores as [|[k v] scores IH]; intros Hnd Hin.
  - destruct Hin.
  - simpl in *. inversion Hnd as [|? ? Hk Hnd']. subst.
    destruct Hin as [Heq|Hin].
    + inversion Heq. subst. now rewrite String.eqb_refl.
    + destruct (String.eqb r k) eqn:E.
      * apply String.eqb_eq in E. subst. exfalso. apply Hk.
        change k with (fst (k, c)). now apply in_map.
      * now apply IH.
Qed.

Lemma max_key_cons (scores : list (string * Z)) :
  scores <> [] ->
  exists k0 keys,
    map fst scores = k0 :: keys
    /\ max_key scores
       = Some (max_from
                 (fun k => match dict_get k scores with
                           | Some v => v
                           | None => 0%Z
                           end) k0 keys).
Proof.
  intros Hne. unfold max_key.
  destruct (map fst scores) as [|k0 keys] eqn:E.
  - destruct scores; [congruence|discriminate].
  - now exists k0, keys.
Qed.

(** The role chosen is the first one that reaches the highest count, when
    that count is not zero. *)
Lemma pick_best_role_first_max (scores : list (string * Z)) (r : string)
    (c : Z) :
  NoDup (map fst scores) -> first_max scores r c -> (0 < c)%Z ->
  pick_best_role scores = Some r.
Proof.
  intros Hnd (pre & post & Heq & Hpre & Hpost) Hc.
  assert (Hne : scores <> []) by (rewrite Heq; now destruct pre).
  destruct (max_key_cons scores Hne) as (k0 & keys & Ek & Emax).
  unfold pick_best_role. rewrite Emax. clear Emax.
  set (g := fun k => match dict_get k scores with Some v => v | None => 0%Z end).
  assert (Hg : forall x, In x scores -> g (fst x) = snd x).
  { intros [k v] Hin. unfold g. simpl. now rewrite (dict_get_in scores k v). }
  assert (Hr : dict_get r scores = Some c).
  { apply dict_get_in; [exact Hnd|]. rewrite Heq. apply in_elt. }
  assert (Hgr : g r = c) by (unfold g; now rewrite Hr).
  assert (Hmax : max_from g k0 keys = r).
  { apply (max_from_first g _ k0 r (map fst pre) (map fst post)).
    - rewrite <- Ek, Heq, map_app. reflexivity.
    - intros k Hin. apply in_map_iff in Hin as (x & <- & Hin).
      rewrite (Hg x), Hgr; [now apply Hpre|].
      rewrite Heq. apply in_or_app. now left.
    - intros k Hin. apply in_map_iff in Hin as (x & <- & Hin).
      rewrite (Hg x), Hgr; [now apply Hpost|].
      rewrite Heq. apply in_or_app. right. now right. }
  rewrite Hmax, Hr.
  destruct (c =? 0)%Z eqn:E; [apply Z.eqb_eq in E; lia|reflexivity].
Qed.

(** With every count at zero the role is the default one. *)
Lemma pick_best_role_all_zero (scores : list (string * Z)) :
  scores <> [] -> NoDup (map fst scores) ->
  (forall x, In x scores -> snd x = 0%Z) ->
  pick_best_role scores = Some "Data Analyst".
Proof.
  intros Hne Hnd Hz.
  destruct (max_key_cons scores Hne) as (k0 & keys & Ek & Emax).
  unfold pick_best_role. rewrite Emax. clear Emax.
  set (g := fun k => match dict_get k scores with Some v => v | None => 0%Z end).
  assert (H0 : forall k, In k (map fst scores) -> dict_get k scores = Some 0%Z).
  { intros k Hin. apply in_map_iff in Hin as ([k' v] & <- & Hin). simpl.
    rewrite (dict_get_in scores k' v Hnd Hin). f_equal. exact (Hz _ Hin). }
  assert (Hmax : max_from g k0 keys = k0).
  { apply max_from_top. intros k Hin. unfold g.
    rewrite (H0 k), (H0 k0); [lia| |]; rewrite Ek; simpl; auto. }
  rewrite Hmax, (H0 k0) by (rewrite Ek; simpl; auto). reflexivity.
Qed.

(** Every non-empty list of counts has a first highest entry. *)
Lemma first_max_exists (scores : list (string * Z)) :
  scores <> [] -> exists r c, first_max scores r c.
Proof.
  induction scores as [|[k v] scores IH]; intros Hne; [congruence|].
  destruct scores as [|y scores'].
  - exists k, v, [], []. repeat split; intros x [].
  - destruct IH as (r & c & pre & post & Heq & Hpre & Hpost); [congruence|].
    destruct (Z_lt_le_dec v c) as [Hlt|Hle].
    + exists r, c, ((k, v) :: pre), post. rewrite Heq. repeat split.
      * intros x [<-|Hin]; [exact Hlt|now apply Hpre].
      * exact Hpost.
    + exists k, v, [], (y :: scores'). repeat split.
      * intros x [].
      * intros x Hin. rewrite Heq in Hin.
        apply in_app_or in Hin as [Hin|[<-|Hin]].
        -- specialize (Hpre x Hin). lia.
        -- exact Hle.
        -- specialize (Hpost x Hin). lia.
Qed.

Lemma keywords_nodup : NoDup (map fst keywords).
Proof.
  simpl. repeat constructor; simpl; intuition discriminate.
Qed.

(** What the extractor returns on a non-empty text, field by field. *)
Lemma extract_fields (resume_text r : string) :
  resume_text <> EmptyString ->
  pick_best_role (fst (scan_keywords (PyStr.lower resume_text))) = Some r ->
  extract_profile_from_resume (Some resume_text)
  = Some {|
      role := Some r;
      experience_years := Some (approx_experience (PyStr.lower resume_text));
      skills :=
        Some (PyStr.sorted (snd (scan_keywords (PyStr.lower resume_text))));
      seniority :=
        Some (seniority_of (approx_experience (PyStr.lower resume_text)));
      raw_text_preview := Some (text_preview resume_text);
      name := None
    |}.
Proof.
  intros Hne Hpick. unfold extract_profile_from_resume.
  destruct (PyStr.is_empty resume_text) eqn:E.
  - apply PyStrFacts.is_empty_true in E. congruence.
  - destruct (scan_keywords (PyStr.lower resume_text)) as [scores found].
    simpl in Hpick. now rewrite Hpick.
Qed.

Lemma extract_role (resume_text r : string) :
  resume_text <> EmptyString ->
  pick_best_role (fst (scan_keywords (PyStr.lower resume_text))) = Some r ->
  exists p,
    extract_profile_from_resume (Some resume_text) = Some p
    /\ role p = Some r.
Proof.
  intros Hne Hpick. rewrite (extract_fields _ r Hne Hpick).
  eexists. split; reflexivity.
Qed.

Lemma scores_nodup (text : string) :
  NoDup (map fst (fst (scan_keywords text))).
Proof.
  rewrite scan_keywords_eq. cbn [fst]. rewrite map_map.
  exact keywords_nodup.
Qed.

Lemma scores_nonempty (text : string) : fst (scan_keywords text) <> [].
Proof. rewrite scan_keywords_eq. discriminate. Qed.

Lemma scores_in (text r : string) (c : Z) :
  In (r, c) (fst (scan_keywords text)) <->
  exists kwlist, In (r, kwlist) keywords /\ c = count_matches text kwlist.
Proof.
  rewrite scan_keywords_eq. cbn [fst]. rewrite in_map_iff. split.
  - intros ([r' kws] & Heq & Hin). simpl in Heq. inversion Heq. subst.
    now exists kws.
  - intros (kws & Hin & ->). now exists (r, kws).
Qed.

(** The extractor returns a profile exactly on a non-empty text. *)
Lemma extract_none_iff (resume_text : option string) :
  extract_profile_from_resume resume_text = None
  <-> resume_text = None \/ resume_text = Some EmptyString.
Proof.
  split.
  - destruct resume_text as [text|]; [|now left]. intros H. right.
    destruct text as [|a text]; [reflexivity|exfalso].
    destruct (first_max_exists _ (scores_nonempty (PyStr.lower (String a text))))
      as (r & c & Hfm).
    pose proof (scores_nodup (PyStr.lower (String a text))) as Hnd.
    destruct (Z_lt_le_dec 0 c) as [Hc|Hc].
    + rewrite (extract_fields _ r) in H; [discriminate|discriminate|].
      now apply (pick_best_role_first_max _ r c).
    + rewrite (extract_fields _ "Data Analyst") in H;
        [discriminate|discriminate|].
      apply pick_best_role_all_zero;
        [apply scores_nonempty|exact Hnd|].
      intros [r' c'] Hin. simpl.
      assert (0 <= c')%Z.
      { apply scores_in in Hin as (kws & _ & ->).
        apply count_matches_nonneg. }
      destruct Hfm as (pre & post & Heq & Hpre & Hpost).
      rewrite Heq in Hin. apply in_app_or in Hin as [Hin|[Hin|Hin]].
      * specialize (Hpre _ Hin). simpl in Hpre. lia.
      * inversion Hin. lia.
      * specialize (Hpost _ Hin). simpl in Hpost. lia.
  - intros [->| ->]; reflexivity.
Qed.

(** A keyword is never empty, so a text that holds one is not empty. *)
Lemma keyword_nonempty (r kw : string) (kwlist : list string) :
  In (r, kwlist) keywords -> In kw kwlist -> kw <> EmptyString.
Proof.
  intros Hin Hkw. simpl in Hin.
  repeat (destruct Hin as [Hin|Hin];
          [inversion Hin; subst; simpl in Hkw;
           repeat (destruct Hkw as [<-|Hkw]; [discriminate|]);
           destruct Hkw|]).
  destruct Hin.
Qed.

Lemma some_match_nonempty (text r : string) (kwlist : list string) :
  In (r, kwlist) keywords -> some_match (PyStr.lower text) kwlist ->
  text <> EmptyString.
Proof.
  intros Hin (kw & Hkw & Hc) ->.
  pose proof (keyword_nonempty r kw kwlist Hin Hkw) as Hne.
  destruct kw; [congruence|discriminate].
Qed.

Lemma scores_of_occurs (text : string) (occurs : string -> bool) :
  (forall r kwlist kw,
      In (r, kwlist) keywords -> In kw kwlist ->
      PyStr.contains kw text = occurs kw) ->
  fst (scan_keywords text)
  = map (fun item =>
           (fst item, Z.of_nat (List.length (filter occurs (snd item)))))
        keywords.
Proof.
  intros H. rewrite scan_keywords_eq. cbn [fst].
  apply map_ext_in. intros [r kwlist] Hin. simpl. f_equal.
  apply count_matches_ext. intros kw Hkw. exact (H r kwlist kw Hin Hkw).
Qed.

(** The [scores] dict lists the roles in declaration order. *)
Lemma scores_keys (text : string) :
  map fst (fst (scan_keywords text)) = declared_roles.
Proof. rewrite scan_keywords_eq. cbn [fst]. now rewrite map_map. Qed.

(* ================================================================== *)
(** * Claims on the profile extractor *)
(* ================================================================== *)

(** C4 (as amended).  A resume text in which at least one keyword of one
    role's list occurs, and no keyword of any other role's list, is given
    that role; a non-empty resume text in which no keyword of any list
    occurs is given the role Data Analyst.  (Keywords are looked up in the
    lower-cased text, as the extractor does.) *)
Theorem extract_role_single_list (resume_text : string) :
  (forall r kwlist,
      In (r, kwlist) keywords ->
      some_match (PyStr.lower resume_text) kwlist ->
      (forall r' kwlist',
          In (r', kwlist') keywords -> r' <> r ->
          no_match (PyStr.lower resume_text) kwlist') ->
      exists p,
        extract_profile_from_resume (Some resume_text) = Some p
        /\ role p = Some r)
  /\ (resume_text <> EmptyString ->
      (forall r kwlist,
          In (r, kwlist) keywords ->
          no_match (PyStr.lower resume_text) kwlist) ->
      exists p,
        extract_profile_from_resume (Some resume_text) = Some p
        /\ role p = Some "Data Analyst").
Proof.
  set (text := PyStr.lower resume_text). split.
  - intros r kwlist Hin Hsome Hothers.
    pose proof (some_match_nonempty _ _ _ Hin Hsome) as Hne.
    apply extract_role; [exact Hne|]. fold text.
    apply (pick_best_role_first_max _ r (count_matches text kwlist)).
    + apply scores_nodup.
    + pose proof keywords_nodup as Hnd.
      destruct (in_split _ _ Hin) as (K1 & K2 & HK).
      rewrite HK, map_app in Hnd. simpl in Hnd.
      apply NoDup_remove_2 in Hnd.
      assert (Hzero : forall K x,
                 (forall y, In y K -> In y (K1 ++ K2)) ->
                 In x (map (fun item => (fst item, count_matches text (snd item))) K) ->
                 snd x = 0%Z).
      { intros K x HKin Hx. apply in_map_iff in Hx as ([r' kws'] & <- & Hx).
        simpl. apply count_matches_none. apply (Hothers r' kws').
        - rewrite HK. specialize (HKin _ Hx).
          apply in_app_or in HKin as [?|?]; apply in_or_app;
            [now left|right; now right].
        - intros ->. apply Hnd. rewrite <- map_app.
          change r with (fst (r, kws')). apply in_map. now apply HKin. }
      pose proof (count_matches_some text kwlist Hsome) as Hpos.
      exists (map (fun item => (fst item, count_matches text (snd item))) K1),
             (map (fun item => (fst item, count_matches text (snd item))) K2).
      repeat split.
      * rewrite scan_keywords_eq. cbn [fst]. rewrite HK, map_app. reflexivity.
      * intros x Hx. rewrite (Hzero K1 x); [exact Hpos| |exact Hx].
        intros y Hy. apply in_or_app. now left.
      * intros x Hx. rewrite (Hzero K2 x); [lia| |exact Hx].
        intros y Hy. apply in_or_app. now right.
    + now apply count_matches_some.
  - intros Hne Hnone.
    apply extract_role; [exact Hne|]. fold text.
    apply pick_best_role_all_zero.
    + apply scores_nonempty.
    + apply scores_nodup.
    + intros [r c] Hin. apply scores_in in Hin as (kws & Hin & ->).
      simpl. apply count_matches_none. now apply (Hnone r).
Qed.

(** C4, a run of the amended statement: a text that only holds the
    keyword "numpy" is given the role Data Scientist, and a text without
    any keyword the role Data Analyst. *)
Lemma extract_role_single_list_witness :
  (exists p,
      extract_profile_from_resume (Some "NumPy arrays") = Some p
      /\ role p = Some "Data Scientist")
  /\ (exists p,
        extract_profile_from_resume (Some "gardener") = Some p
        /\ role p = Some "Data Analyst").
Proof.
  split.
  - apply (proj1 (extract_role_single_list "NumPy arrays")
             "Data Scientist"
             ["machine learning"; "deep learning"; "tensorflow"; "pytorch";
              "scikit-learn"; "ml"; "ai"; "pandas"; "numpy"]).
    + simpl. tauto.
    + exists "numpy". split; [simpl; tauto|reflexivity].
    + intros r' kwlist' Hin Hne kw Hkw. simpl in Hin.
      repeat (destruct Hin as [Hin|Hin];
              [inversion Hin; subst; try congruence; simpl in Hkw;
               repeat (destruct Hkw as [<-|Hkw]; [reflexivity|]);
               destruct Hkw|]).
      destruct Hin.
  - apply (proj2 (extract_role_single_list "gardener")).
    + discriminate.
    + intros r kwlist Hin kw Hkw. simpl in Hin.
      repeat (destruct Hin as [Hin|Hin];
              [inversion Hin; subst; simpl in Hkw;
               repeat (destruct Hkw as [<-|Hkw]; [reflexivity|]);
               destruct Hkw|]).
      destruct Hin.
Defined.

(** C4, as first stated, fails on the empty text: no keyword of any list
    occurs in it, and the extractor returns the no-profile sentinel instead
    of a profile with the role Data Analyst. *)
Lemma extract_empty_text_no_role :
  (forall r kwlist,
      In (r, kwlist) keywords ->
      no_match (PyStr.lower EmptyString) kwlist)
  /\ extract_profile_from_resume (Some EmptyString) = None
  /\ ~ (exists p,
          extract_profile_from_resume (Some EmptyString) = Some p
          /\ role p = Some "Data Analyst").
Proof.
  repeat split.
  - intros r kwlist Hin kw Hkw.
    pose proof (keyword_nonempty r kw kwlist Hin Hkw) as Hne.
    destruct kw; [congruence|reflexivity].
  - intros (p & Hp & _). discriminate.
Qed.

(** C5.  On the text "Experienced senior python developer with react and
    docker skills" the extractor returns the role Software Engineer, 6 years
    of experience, the seniority Senior, and a skills list that holds
    python, react and docker. *)
Theorem extract_senior_python_developer :
  exists p l,
    extract_profile_from_resume
      (Some "Experienced senior python developer with react and docker skills")
    = Some p
    /\ role p = Some "Software Engineer"
    /\ experience_years p = Some 6%Z
    /\ seniority p = Some "Senior"
    /\ skills p = Some l
    /\ In "python" l /\ In "react" l /\ In "docker" l.
Proof.
  exists {| role := Some "Software Engineer";
            experience_years := Some 6%Z;
            skills := Some ["docker"; "python"; "react"];
            seniority := Some "Senior";
            raw_text_preview :=
              Some "Experienced senior python developer with react and docker skills";
            name := None |}, ["docker"; "python"; "react"].
  split; [vm_compute; reflexivity|].
  simpl. tauto.
Qed.

(** C9.  The [scores] dict lists the roles in declaration order (Software
    Engineer, Data Analyst, Data Scientist, Product Manager, DevOps
    Engineer); when the highest keyword count is not zero the extractor
    returns the first role, in that order, that reaches it; and a text whose
    only matched keyword is "pandas" (on the lists of Data Analyst and of
    Data Scientist) is given the role Data Analyst. *)
Theorem extract_tie_first_declared (resume_text : string) :
  map fst (fst (scan_keywords (PyStr.lower resume_text))) = declared_roles
  /\ (forall p,
        extract_profile_from_resume (Some resume_text) = Some p ->
        (exists r c,
            In (r, c) (fst (scan_keywords (PyStr.lower resume_text)))
            /\ (0 < c)%Z) ->
        exists r c,
          first_max (fst (scan_keywords (PyStr.lower resume_text))) r c
          /\ (0 < c)%Z
          /\ role p = Some r)
  /\ ((forall r kwlist kw,
          In (r, kwlist) keywords -> In kw kwlist ->
          (PyStr.contains kw (PyStr.lower resume_text) = true
           <-> kw = "pandas")) ->
      exists p,
        extract_profile_from_resume (Some resume_text) = Some p
        /\ role p = Some "Data Analyst").
Proof.
  set (text := PyStr.lower resume_text). repeat split.
  - apply scores_keys.
  - intros p Hp (r0 & c0 & Hin0 & Hc0).
    destruct (first_max_exists _ (scores_nonempty text)) as (r & c & Hfm).
    exists r, c.
    assert (Hc : (0 < c)%Z).
    { destruct Hfm as (pre & post & Heq & Hpre & Hpost).
      rewrite Heq in Hin0. apply in_app_or in Hin0 as [Hin|[Hin|Hin]].
      - specialize (Hpre _ Hin). simpl in Hpre. lia.
      - inversion Hin. lia.
      - specialize (Hpost _ Hin). simpl in Hpost. lia. }
    repeat split; [exact Hfm|exact Hc|].
    assert (Hne : resume_text <> EmptyString).
    { intros ->. discriminate. }
    rewrite (extract_fields resume_text r Hne) in Hp.
    + inversion Hp. reflexivity.
    + fold text. apply (pick_best_role_first_max _ r c);
        [apply scores_nodup|exact Hfm|exact Hc].
  - intros Honly.
    assert (Hne : resume_text <> EmptyString).
    { intros ->.
      assert (H : PyStr.contains "pandas" (PyStr.lower EmptyString) = true).
      { apply (Honly "Data Analyst"
                 ["excel"; "tableau"; "power bi"; "sql"; "pandas";
                  "visualization"; "dashboard"; "reporting"; "rfm"; "eda"]);
          simpl; tauto. }
      discriminate. }
    apply extract_role; [exact Hne|]. fold text.
    rewrite (scores_of_occurs text (fun kw => String.eqb kw "pandas")).
    + vm_compute. reflexivity.
    + intros r kwlist kw Hin Hkw.
      specialize (Honly r kwlist kw Hin Hkw). fold text in Honly.
      destruct (PyStr.contains kw text), (String.eqb_spec kw "pandas");
        try reflexivity.
      * now apply proj1 in Honly; specialize (Honly eq_refl).
      * now apply proj2 in Honly; specialize (Honly e).
Qed.

(** C9, a run: in "Pandas user" the only keyword is "pandas"; Data Analyst
    and Data Scientist both count one match and the first declared of the
    two is returned. *)
Lemma extract_tie_first_declared_witness :
  (exists r c,
      first_max (fst (scan_keywords (PyStr.lower "Pandas user"))) r c
      /\ (0 < c)%Z
      /\ Some "Data Analyst" = Some r)
  /\ (exists p,
        extract_profile_from_resume (Some "Pandas user") = Some p
        /\ role p = Some "Data Analyst").
Proof.
  split.
  - apply (proj1 (proj2 (extract_tie_first_declared "Pandas user"))
             {| role := Some "Data Analyst";
                experience_years := Some 1%Z;
                skills := Some ["pandas"];
                seniority := Some "Junior";
                raw_text_preview := Some "Pandas user";
                name := None |}).
    + reflexivity.
    + exists "Data Analyst", 1%Z. split; [|reflexivity].
      right. left. reflexivity.
  - apply (proj2 (proj2 (extract_tie_first_declared "Pandas user"))).
    intros r kwlist kw Hin Hkw. simpl in Hin.
    repeat (destruct Hin as [Hin|Hin];
            [inversion Hin; subst; simpl in Hkw;
             repeat (destruct Hkw as [<-|Hkw];
                     [first [split; discriminate|split; reflexivity]|]);
             destruct Hkw|]).
    destruct Hin.
Defined.

(** The counts behind that run: one match each for the two tied roles. *)
Example pandas_scores :
  fst (scan_keywords (PyStr.lower "Pandas user"))
  = [ ("Software Engineer", 0%Z); ("Data Analyst", 1%Z);
      ("Data Scientist", 1%Z); ("Product Manager", 0%Z);
      ("DevOps Engineer", 0%Z) ].
Proof. reflexivity. Qed.

(** Letters outside ASCII are lower-cased too.  The Kelvin sign U+212A is
    lower-cased to "k": "aws" and "kpi" both occur in the first text below,
    whose role is Product Manager, the first of the two tied roles; "docker"
    occurs in the second, whose role is Software Engineer. *)
Example kelvin_sign_resumes :
  PyStr.lower ("aws " ++ kelvin_sign ++ "PI") = "aws kpi"
  /\ extract_profile_from_resume (Some ("aws " ++ kelvin_sign ++ "PI"))%string
     = Some {| role := Some "Product Manager";
               experience_years := Some 1%Z;
               skills := Some ["aws"; "kpi"];
               seniority := Some "Junior";
               raw_text_preview :=
                 Some ("aws " ++ kelvin_sign ++ "PI")%string;
               name := None |}
  /\ PyStr.lower ("pandas doc" ++ kelvin_sign ++ "er") = "pandas docker"
  /\ extract_profile_from_resume
       (Some ("pandas doc" ++ kelvin_sign ++ "er"))%string
     = Some {| role := Some "Software Engineer";
               experience_years := Some 1%Z;
               skills := Some ["docker"; "pandas"];
               seniority := Some "Junior";
               raw_text_preview :=
                 Some ("pandas doc" ++ kelvin_sign ++ "er")%string;
               name := None |}.
Proof. repeat split. Qed.

(* ================================================================== *)
(** * Whitespace-only texts *)
(* ================================================================== *)

(** No keyword and no experience marker occurs in a text made of
    whitespace. *)
Lemma all_space_no_match (text r : string) (kwlist : list string) :
  PyStr.all_space text = true -> In (r, kwlist) keywords ->
  no_match text kwlist.
Proof.
  intros Hsp Hin kw Hkw. simpl in Hin.
  repeat (destruct Hin as [Hin|Hin];
          [inversion Hin; subst; simpl in Hkw;
           repeat (destruct Hkw as [<-|Hkw];
                   [now apply PyStrFacts.contains_all_space|]);
           destruct Hkw|]).
  destruct Hin.
Qed.

Lemma all_space_experience (text : string) :
  PyStr.all_space text = true -> approx_experience text = 1%Z.
Proof.
  intros Hsp. unfold approx_experience.
  now rewrite !PyStrFacts.contains_all_space.
Qed.

Lemma all_space_skills (text : string) :
  PyStr.all_space text = true -> snd (scan_keywords text) = [].
Proof.
  intros Hsp. rewrite scan_keywords_eq. cbn [snd].
  assert (H : forall items found,
             (forall x, In x items -> In x keywords) ->
             fold_left (fun found item => add_matches text (snd item) found)
                       items found = found).
  { induction items as [|[r kws] items IH]; intros found Hsub.
    - reflexivity.
    - simpl. rewrite (add_matches_none text kws).
      + apply IH. intros x Hx. apply Hsub. now right.
      + apply (all_space_no_match text r); [exact Hsp|].
        apply Hsub. now left. }
  apply H. auto.
Qed.

(* ================================================================== *)
(** * Claims on the nugget generator and on the email generator *)
(* ================================================================== *)

Lemma firstn_nth_error {A : Type} (n i : nat) (l : list A) :
  (i < n)%nat -> nth_error (firstn n l) i = nth_error l i.
Proof.
  revert n l. induction i as [|i IH]; intros n l Hi;
    (destruct n; [lia|]); (destruct l as [|x l]; [reflexivity|]); simpl.
  - reflexivity.
  - apply IH. lia.
Qed.

(** The headline the generator formats from a role, a seniority and the
    text that stands for the skills. *)
Lemma nuggets_headline (p : profile) (masterclass_topic : string) :
  profile_is_empty p = false ->
  str_dict_get "headline"
    (generate_personalized_nuggets (Some p) masterclass_topic)
  = Some (get_or (role p) "Professional" ++ " • "
          ++ get_or (seniority p) "Junior" ++ " • "
          ++ match firstn 5 (get_or (skills p) []) with
             | [] => "Skills not listed"
             | _ :: _ => PyStr.join ", " (firstn 5 (get_or (skills p) []))
             end)%string.
Proof.
  intros Hne. unfold generate_personalized_nuggets. rewrite Hne.
  destruct (String.eqb (get_or (role p) "Professional") "Data Analyst");
    reflexivity.
Qed.

(** C7.  For a profile with a non-empty skills list the headline holds the
    first five entries of that list (at most five skills), joined by
    commas; for a profile with an empty skills list it holds the words
    "Skills not listed"; and the skills list of a profile returned by the
    extractor is in ascending order, so that the skills shown are the first
    five of the sorted list.  (A profile is a dict with at least one key;
    the empty dict stands for the absent profile.) *)
Theorem nuggets_headline_skills (p : profile) (masterclass_topic : string) :
  (forall l,
      skills p = Some l -> l <> [] ->
      (List.length (firstn 5 l) <= 5)%nat
      /\ (forall i, (i < 5)%nat -> nth_error (firstn 5 l) i = nth_error l i)
      /\ str_dict_get "headline"
           (generate_personalized_nuggets (Some p) masterclass_topic)
         = Some (get_or (role p) "Professional" ++ " • "
                 ++ get_or (seniority p) "Junior" ++ " • "
                 ++ PyStr.join ", " (firstn 5 l))%string)
  /\ (profile_is_empty p = false ->
      get_or (skills p) [] = [] ->
      str_dict_get "headline"
        (generate_personalized_nuggets (Some p) masterclass_topic)
      = Some (get_or (role p) "Professional" ++ " • "
              ++ get_or (seniority p) "Junior" ++ " • "
              ++ "Skills not listed")%string)
  /\ (forall resume_text,
        extract_profile_from_resume resume_text = Some p ->
        exists l,
          skills p = Some l
          /\ ascending l
          /\ ascending (firstn 5 l)).
Proof.
  repeat split.
  - apply firstn_le_length.
  - intros i Hi. now apply firstn_nth_error.
  - rewrite nuggets_headline.
    + rewrite H. simpl get_or. destruct l as [|x l]; [congruence|reflexivity].
    + unfold profile_is_empty. rewrite H.
      now destruct (role p), (experience_years p).
  - intros Hne Hs. rewrite nuggets_headline by exact Hne. now rewrite Hs.
  - intros resume_text Hp.
    destruct resume_text as [text|]; [|discriminate].
    unfold extract_profile_from_resume in Hp.
    destruct (PyStr.is_empty text); [discriminate|].
    destruct (scan_keywords (PyStr.lower text)) as [scores found].
    destruct (pick_best_role scores); [|discriminate].
    inversion Hp. simpl. exists (PyStr.sorted found).
    split; [reflexivity|]. split.
    + exact (PyStrFacts.sorted_ascending found).
    + exact (PyStrFacts.firstn_ascending 5 _
               (PyStrFacts.sorted_ascending found)).
Qed.

(** The three templates differ in the first letter of their subject. *)
Lemma templates_differ (n r sn topic : string) :
  post_exit_email n r sn topic <> day_later_email n r sn
  /\ post_exit_email n r sn topic <> final_reminder_email n r
  /\ day_later_email n r sn <> final_reminder_email n r.
Proof.
  repeat split; intros H; apply (f_equal subject) in H; simpl in H;
    discriminate.
Qed.

(** C8.  For every profile, topic and [email_type], the generator returns
    the "2 Hours Post-Exit" template exactly when [email_type] is that
    label, the "24 Hours Later" template exactly when [email_type] is that
    label, and the final-reminder template for every other string, among
    them "Final Reminder (7 days)", the empty string, and labels that miss
    by case or by spacing; the function is total, no input is an error. *)
Theorem email_template_selection (p : profile)
    (masterclass_topic email_type : string) :
  let n := get_or (name p) "[Name]" in
  let r := get_or (role p) "Professional" in
  let sn := get_or (seniority p) EmptyString in
  let generate := generate_personalized_email p masterclass_topic in
  (generate email_type = post_exit_email n r sn masterclass_topic
   <-> email_type = "2 Hours Post-Exit")
  /\ (generate email_type = day_later_email n r sn
      <-> email_type = "24 Hours Later")
  /\ (generate email_type = final_reminder_email n r
      <-> email_type <> "2 Hours Post-Exit"
          /\ email_type <> "24 Hours Later")
  /\ generate "Final Reminder (7 days)" = final_reminder_email n r
  /\ generate EmptyString = final_reminder_email n r
  /\ generate "2 hours post-exit" = final_reminder_email n r
  /\ generate "2 Hours Post-Exit " = final_reminder_email n r
  /\ generate "24 hours later" = final_reminder_email n r
  /\ generate "24  Hours Later" = final_reminder_email n r.
Proof.
  intros n r sn generate.
  destruct (templates_differ n r sn masterclass_topic) as (H12 & H13 & H23).
  unfold generate, generate_personalized_email. fold n r sn.
  repeat split; try reflexivity;
    destruct (String.eqb_spec email_type "2 Hours Post-Exit") as [E1|E1];
    destruct (String.eqb_spec email_type "24 Hours Later") as [E2|E2];
    try subst email_type; try discriminate; try congruence;
    try (intros H; exfalso; congruence);
    try (intros [Ha Hb]; congruence).
Qed.

(* ================================================================== *)
(** * Lemmas on the order of binary64 numbers *)
(* ================================================================== *)

Module FloatOrderFacts.

Import FloatOrder.
Local Open Scope Z_scope.

Lemma SFcompare_lt (x y : spec_float) :
  SFcompare x y = Some Lt
  <-> is_nan x = false /\ is_nan y = false /\ lex_lt (rank x) (rank y).
Proof.
  destruct x as [sx|sx| |sx mx ex], y as [sy|sy| |sy my ey];
    try destruct sx; try destruct sy; simpl;
    try (split; [discriminate|intros (? & ? & ?); first [discriminate|lia]]);
    try (split; [intros _; repeat split; lia|reflexivity]).
  - destruct (Z.compare_spec ex ey) as [He|He|He]; simpl.
    + change (Pos.compare_cont Eq mx my) with (Pos.compare mx my).
      destruct (Pos.compare_spec mx my) as [Hm|Hm|Hm]; simpl;
        (split; [try discriminate; intros _; repeat split; lia
                |intros (_ & _ & H); try reflexivity; lia]).
    + split; [discriminate|intros (_ & _ & H); lia].
    + split; [intros _; repeat split; lia|reflexivity].
  - destruct (Z.compare_spec ex ey) as [He|He|He]; simpl.
    + change (Pos.compare_cont Eq mx my) with (Pos.compare mx my).
      destruct (Pos.compare_spec mx my) as [Hm|Hm|Hm]; simpl;
        (split; [try discriminate; intros _; repeat split; lia
                |intros (_ & _ & H); try reflexivity; lia]).
    + split; [intros _; repeat split; lia|reflexivity].
    + split; [discriminate|intros (_ & _ & H); lia].
Qed.

Lemma SFcompare_eq (x y : spec_float) :
  SFcompare x y = Some Eq
  <-> is_nan x = false /\ is_nan y = false /\ rank x = rank y.
Proof.
  destruct x as [sx|sx| |sx mx ex], y as [sy|sy| |sy my ey];
    try destruct sx; try destruct sy; simpl;
    try (split; [discriminate|intros (? & ? & ?); discriminate]);
    try (split; [intros _; repeat split|reflexivity]).
  - destruct (Z.compare_spec ex ey) as [He|He|He]; simpl.
    + change (Pos.compare_cont Eq mx my) with (Pos.compare mx my).
      destruct (Pos.compare_spec mx my) as [Hm|Hm|Hm]; simpl;
        (split; [try discriminate; intros _; repeat split; congruence
                |intros (_ & _ & H); try reflexivity; inversion H; lia]).
    + split; [discriminate|intros (_ & _ & H); inversion H; lia].
    + split; [discriminate|intros (_ & _ & H); inversion H; lia].
  - destruct (Z.compare_spec ex ey) as [He|He|He]; simpl.
    + change (Pos.compare_cont Eq mx my) with (Pos.compare mx my).
      destruct (Pos.compare_spec mx my) as [Hm|Hm|Hm]; simpl;
        (split; [try discriminate; intros _; repeat split; congruence
                |intros (_ & _ & H); try reflexivity; inversion H; lia]).
    + split; [discriminate|intros (_ & _ & H); inversion H; lia].
    + split; [discriminate|intros (_ & _ & H); inversion H; lia].
Qed.

Lemma ltb_lt (x y : float) : (x <? y)%float = true <-> lt x y.
Proof.
  rewrite ltb_spec. unfold SFltb, lt. rewrite <- SFcompare_lt.
  destruct (SFcompare (Prim2SF x) (Prim2SF y)) as [[ | | ]|];
    split; congruence.
Qed.

Lemma leb_le (x y : float) : (x <=? y)%float = true <-> le x y.
Proof.
  rewrite leb_spec. unfold SFleb, le, lex_le.
  pose proof (SFcompare_lt (Prim2SF x) (Prim2SF y)) as Hlt.
  pose proof (SFcompare_eq (Prim2SF x) (Prim2SF y)) as Heq.
  destruct (SFcompare (Prim2SF x) (Prim2SF y)) as [[ | | ]|]; split;
    try congruence.
  - intros _. destruct (proj1 Heq eq_refl) as (Hx & Hy & Hr). auto.
  - intros _. destruct (proj1 Hlt eq_refl) as (Hx & Hy & Hr). auto.
  - intros (Hx & Hy & [Hr|Hr]).
    + assert (H : Some Gt = Some Lt) by (apply Hlt; auto). discriminate.
    + assert (H : Some Gt = Some Eq) by (apply Heq; auto). discriminate.
  - intros (Hx & Hy & [Hr|Hr]).
    + assert (H : @None comparison = Some Lt) by (apply Hlt; auto).
      discriminate.
    + assert (H : @None comparison = Some Eq) by (apply Heq; auto).
      discriminate.
Qed.

Ltac lex :=
  unfold le, lt, lex_le, lex_lt in *;
  repeat match goal with
         | H : _ /\ _ |- _ => destruct H
         | |- context [rank ?x] =>
             let a := fresh "a" in let b := fresh "b" in
             let c := fresh "c" in
             destruct (rank x) as [[a b] c]
         | H : context [rank ?x] |- _ =>
             let a := fresh "a" in let b := fresh "b" in
             let c := fresh "c" in
             destruct (rank x) as [[a b] c]
         end.

Lemma lt_le (x y : float) : lt x y -> le x y.
Proof. unfold lt, le, lex_le. tauto. Qed.

Lemma le_trans (x y z : float) : le x y -> le y z -> le x z.
Proof.
  lex. intros. lex. repeat split; try assumption.
  repeat match goal with
         | H : _ \/ _ |- _ => destruct H
         | H : _ /\ _ |- _ => destruct H
         | H : (_, _) = (_, _) |- _ => inversion H; clear H; subst
         end;
    first [right; reflexivity | left; lia].
Qed.

Lemma le_lt_trans (x y z : float) : le x y -> lt y z -> lt x z.
Proof.
  lex. intros. lex. repeat split; try assumption.
  repeat match goal with
         | H : _ \/ _ |- _ => destruct H
         | H : _ /\ _ |- _ => destruct H
         | H : (_, _) = (_, _) |- _ => inversion H; clear H; subst
         end; lia.
Qed.

Lemma lt_irrefl (x : float) : ~ lt x x.
Proof. lex. intros H. lex. lia. Qed.

(** Two numbers that are not NaN compare one way or the other. *)
Lemma lt_or_le (x y : float) :
  is_nan (Prim2SF x) = false -> is_nan (Prim2SF y) = false ->
  lt x y \/ le y x.
Proof.
  intros Hx Hy. lex.
  destruct (Z.compare_spec a0 a); destruct (Z.compare_spec b0 b);
    destruct (Z.compare_spec c0 c); subst;
    first [left; repeat split; try assumption; lia
          |right; repeat split; try assumption;
           first [right; reflexivity|left; lia]].
Qed.

End FloatOrderFacts.

Module FloatFacts.

Import FloatOrder FloatOrderFacts.
Local Open Scope float_scope.

Lemma leb_trans (x y z : float) :
  (x <=? y) = true -> (y <=? z) = true -> (x <=? z) = true.
Proof. rewrite !leb_le. apply le_trans. Qed.

Lemma ltb_leb (x y : float) : (x <? y) = true -> (x <=? y) = true.
Proof. rewrite ltb_lt, leb_le. apply lt_le. Qed.

(** [x <= y] rules out [y < x]. *)
Lemma leb_not_ltb (x y : float) : (x <=? y) = true -> (y <? x) = false.
Proof.
  intros H. destruct (y <? x) eqn:E; [|reflexivity].
  apply leb_le in H. apply ltb_lt in E.
  destruct (lt_irrefl x (le_lt_trans x y x H E)).
Qed.

(** Among numbers that are not NaN, [not (x <= y)] is [y < x]. *)
Lemma not_leb_ltb (x y z : float) :
  (x <=? y) = false -> (z <=? y) = true ->
  is_nan (Prim2SF x) = false -> (y <? x) = true.
Proof.
  intros H Hz Hx. apply leb_le in Hz. destruct Hz as (_ & Hy & _).
  apply ltb_lt. destruct (lt_or_le y x Hy Hx) as [Hlt|Hle]; [exact Hlt|].
  apply leb_le in Hle. congruence.
Qed.

(** [max(0.0, min(10.0, x))] lies in [[0.0, 10.0]], whatever [x] is. *)
Lemma clamp_between (x : float) :
  PyFloat.between 0.0 10.0 (PyFloat.max 0.0 (PyFloat.min 10.0 x)).
Proof.
  unfold PyFloat.between, PyFloat.max.
  assert (Hm : (PyFloat.min 10.0 x <=? 10.0) = true).
  { unfold PyFloat.min. destruct (x <? 10.0) eqn:E.
    - now apply ltb_leb.
    - reflexivity. }
  destruct (0.0 <? PyFloat.min 10.0 x) eqn:E.
  - split; [now apply ltb_leb|exact Hm].
  - split; reflexivity.
Qed.

(** [min(a, x)] is the smaller of the two, [a] when [x] is NaN. *)
Lemma min_smaller (a x : float) :
  (a <=? a) = true -> smaller_of a x (PyFloat.min a x).
Proof.
  intros Ha. unfold smaller_of, PyFloat.min.
  destruct (x <? a) eqn:E.
  - split; [now apply ltb_leb|]. split; [reflexivity|].
    intros H. apply leb_not_ltb in H. congruence.
  - split; [exact Ha|]. split; [discriminate|reflexivity].
Qed.

(** [max(0.0, min(10.0, x))] is [x] brought into [[0.0, 10.0]]. *)
Lemma clamp_clamped (x : float) :
  clamped x (PyFloat.max 0.0 (PyFloat.min 10.0 x)).
Proof.
  split; [apply clamp_between|].
  unfold PyFloat.max, PyFloat.min. split; [|split].
  - intros H0.
    assert (H10 : (x <? 10.0) = true).
    { apply ltb_lt. apply (le_lt_trans x 0.0 10.0).
      - now apply leb_le.
      - now apply ltb_lt. }
    rewrite H10. now rewrite (leb_not_ltb x 0.0 H0).
  - intros H10. now rewrite (leb_not_ltb 10.0 x H10).
  - intros H0 H10. now rewrite H10, H0.
Qed.

End FloatFacts.

(* ================================================================== *)
(** * Claims on the discount mapper *)
(* ================================================================== *)

Lemma tiers_differ :
  tier_40 <> tier_30 /\ tier_40 <> tier_20 /\ tier_40 <> tier_15
  /\ tier_30 <> tier_20 /\ tier_30 <> tier_15 /\ tier_20 <> tier_15.
Proof. repeat split; intros H; apply (f_equal savings) in H; discriminate. Qed.

(** C2.  For every float score, the mapper returns the 40% tier exactly
    when [score >= 9.0], the 30% tier exactly when [8.0 <= score < 9.0], the
    20% tier exactly when [7.0 <= score < 8.0], and the 15% participant tier
    otherwise, that is exactly when [score >= 7.0] is false.  The result is
    always one of the four tiers: the function is total on floats, NaN,
    infinities and numbers outside [[0.0, 10.0]] included.  In particular
    8.9999 gives 30% and 7.0 gives 20%. *)
Theorem discount_tiers (score : float) :
  (discount_by_score score = tier_40 <-> (9.0 <=? score)%float = true)
  /\ (discount_by_score score = tier_30
      <-> (8.0 <=? score)%float = true /\ (score <? 9.0)%float = true)
  /\ (discount_by_score score = tier_20
      <-> (7.0 <=? score)%float = true /\ (score <? 8.0)%float = true)
  /\ (discount_by_score score = tier_15
      <-> (7.0 <=? score)%float = false)
  /\ In (discount_by_score score) [tier_40; tier_30; tier_20; tier_15]
  /\ discount_by_score 8.9999%float = tier_30
  /\ discount_by_score 7.0%float = tier_20
  /\ discount_by_score 8.0%float = tier_30
  /\ discount_by_score 9.0%float = tier_40
  /\ discount_by_score 6.9999%float = tier_15
  /\ discount_by_score (-3.5)%float = tier_15
  /\ discount_by_score 12.0%float = tier_40
  /\ discount_by_score nan = tier_15
  /\ discount_by_score infinity = tier_40
  /\ discount_by_score neg_infinity = tier_15.
Proof.
  destruct tiers_differ as (D1 & D2 & D3 & D4 & D5 & D6).
  assert (H78 : (7.0 <=? 8.0)%float = true) by reflexivity.
  assert (H89 : (8.0 <=? 9.0)%float = true) by reflexivity.
  assert (N9 : FloatOrder.is_nan (Prim2SF 9.0%float) = false) by reflexivity.
  assert (N8 : FloatOrder.is_nan (Prim2SF 8.0%float) = false) by reflexivity.
  unfold discount_by_score.
  destruct (9.0 <=? score)%float eqn:E9;
    destruct (8.0 <=? score)%float eqn:E8;
    destruct (7.0 <=? score)%float eqn:E7;
    try (rewrite (FloatFacts.leb_trans 8.0 9.0 score H89 E9) in E8;
         discriminate);
    try (rewrite (FloatFacts.leb_trans 7.0 8.0 score H78 E8) in E7;
         discriminate);
    repeat split; try reflexivity; try congruence;
    try (intros [H1 H2]; congruence);
    try (simpl; tauto);
    try (intros [_ H];
         first [now rewrite (FloatFacts.leb_not_ltb _ _ E9) in H
               |now rewrite (FloatFacts.leb_not_ltb _ _ E8) in H]);
    try (first [now apply (FloatFacts.not_leb_ltb 9.0 score 8.0)
               |now apply (FloatFacts.not_leb_ltb 8.0 score 7.0)]).
Qed.

(* ================================================================== *)
(** * Rounding to one decimal *)
(* ================================================================== *)

Module RoundFacts.

Import FloatOrder FloatOrderFacts.

Lemma digits2_pos_bound (m : positive) :
  (Z.pos m < 2 ^ Z.pos (digits2_pos m))%Z.
Proof.
  induction m as [m IH|m IH|]; simpl digits2_pos;
    try rewrite Pos2Z.inj_succ, Z.pow_succ_r by lia; lia.
Qed.

(** The mantissa of a float is below [2^53]. *)
Lemma mantissa_bound (x : float) (s : bool) (m : positive) (e : Z) :
  Prim2SF x = S754_finite s m e -> (Z.pos m < 2 ^ 53)%Z.
Proof.
  intros Hx. pose proof (Prim2SF_valid x) as Hv. rewrite Hx in Hv.
  simpl in Hv. unfold bounded, canonical_mantissa, fexp in Hv.
  apply andb_true_iff in Hv as [Hc _]. apply Z.eqb_eq in Hc.
  pose proof (digits2_pos_bound m) as Hd.
  assert (Hle : (Z.pos (digits2_pos m) <= 53)%Z).
  { unfold FloatOps.prec in Hc. lia. }
  eapply Z.lt_le_trans; [exact Hd|].
  apply Z.pow_le_mono_r; lia.
Qed.

Lemma round_half_even_bound (n d : Z) :
  (0 < d)%Z -> (0 <= n <= 100 * d)%Z ->
  (0 <= PyFloat.round_half_even n d <= 100)%Z.
Proof.
  intros Hd Hn. unfold PyFloat.round_half_even.
  pose proof (Z.div_mod n d ltac:(lia)) as Hdm.
  pose proof (Z.mod_pos_bound n d Hd) as Hr.
  assert (Hq : (0 <= n / d <= 100)%Z).
  { split; [apply Z.div_pos; lia|].
    apply Z.div_le_upper_bound; lia. }
  assert (Hq' : (0 < n mod d -> n / d < 100)%Z) by nia.
  destruct (Z.compare_spec (2 * (n mod d)) d) as [He|He|He].
  - destruct (Z.even (n / d)); lia.
  - lia.
  - lia.
Qed.

Lemma tenths_table :
  forallb (fun n => tenth_ok (Z.of_nat n)) (seq 0 101) = true.
Proof. vm_compute. reflexivity. Qed.

Lemma tenth_in_range (k : Z) :
  (0 <= k <= 100)%Z ->
  let y := (PyFloat.of_int k / 10.0)%float in
  PyFloat.between 0.0 10.0 y /\ PyFloat.round1 y = y.
Proof.
  intros Hk y.
  pose proof (proj1 (forallb_forall _ _) tenths_table (Z.to_nat k)) as H.
  cbv beta in H. rewrite Z2Nat.id in H by lia.
  assert (Hin : In (Z.to_nat k) (seq 0 101)) by (apply in_seq; lia).
  specialize (H Hin). unfold tenth_ok in H. fold y in H.
  apply andb_true_iff in H as [H H3]. apply andb_true_iff in H as [H1 H2].
  split; [split; assumption|]. now apply FloatAxioms.Leibniz.eqb_spec.
Qed.

(** Rounding a number of [[0.0, 10.0]] gives a number of [[0.0, 10.0]]
    that rounding leaves unchanged. *)
Lemma round1_between (c : float) :
  PyFloat.between 0.0 10.0 c ->
  PyFloat.between 0.0 10.0 (PyFloat.round1 c)
  /\ PyFloat.round1 (PyFloat.round1 c) = PyFloat.round1 c.
Proof.
  intros [H0 H10]. pose proof H0 as H0'. pose proof H10 as H10'.
  apply leb_le in H0, H10.
  destruct H0 as (_ & _ & H0). destruct H10 as (_ & _ & H10).
  change (Prim2SF 0.0%float) with (S754_zero false) in H0.
  change (Prim2SF 10.0%float)
    with (S754_finite false 5629499534213120 (-49)) in H10.
  assert (Hid : PyFloat.round1 c = c ->
                PyFloat.between 0.0 10.0 (PyFloat.round1 c)
                /\ PyFloat.round1 (PyFloat.round1 c) = PyFloat.round1 c).
  { intros E. rewrite !E. split; [split; assumption|reflexivity]. }
  pose proof (mantissa_bound c) as Hm.
  unfold PyFloat.round1 in *.
  destruct (Prim2SF c) as [sc|sc| |sc m e]; try (apply Hid; reflexivity).
  specialize (Hm sc m e eq_refl).
  destruct sc; simpl in H0, H10; unfold lex_le, lex_lt in H0, H10.
  - destruct H0 as [H0|H0]; [lia|discriminate].
  - assert (He : (e < -49 \/ (e = -49 /\ Z.pos m <= 5629499534213120))%Z).
    { destruct H10 as [H10|H10]; [lia|]. inversion H10. lia. }
    assert (Hlt : (e <? -3)%Z = true) by (apply Z.ltb_lt; lia).
    rewrite Hlt.
    apply (tenth_in_range
             (PyFloat.round_half_even (10 * Z.pos m) (2 ^ (- e)))).
    apply round_half_even_bound.
    + apply Z.pow_pos_nonneg; lia.
    + split; [lia|].
      destruct He as [He|[-> Hm10]].
      * assert (Hp : (2 ^ 50 <= 2 ^ (- e))%Z)
          by (apply Z.pow_le_mono_r; lia).
        change (2 ^ 53)%Z with (8 * 2 ^ 50)%Z in Hm. lia.
      * change (2 ^ (- -49))%Z with 562949953421312%Z. lia.
Qed.

(** [round_half_even n d] is the integer nearest to [n / d], the even one
    of the two when [n / d] lies half way. *)
Lemma round_half_even_nearest (n d : Z) :
  (0 < d)%Z ->
  let k := PyFloat.round_half_even n d in
  (Z.abs (2 * n - 2 * (k * d)) <= d)%Z
  /\ (Z.abs (2 * n - 2 * (k * d)) = d -> Z.even k = true)%Z.
Proof.
  intros Hd k. unfold k, PyFloat.round_half_even.
  pose proof (Z.div_mod n d ltac:(lia)) as Hdm.
  pose proof (Z.mod_pos_bound n d Hd) as Hr.
  set (q := (n / d)%Z) in *. set (r := (n mod d)%Z) in *.
  destruct (Z.compare_spec (2 * r) d) as [He|He|He].
  - destruct (Z.even q) eqn:Eq.
    + split; [nia|]. intros _. exact Eq.
    + split; [nia|]. intros _. rewrite Z.even_add, Eq. reflexivity.
  - split; [nia|]. intros H. exfalso. nia.
  - split; [nia|]. intros H. exfalso. nia.
Qed.

(** Rounding a number of [[0.0, 10.0]] gives the nearest tenth. *)
Lemma round1_nearest (c : float) :
  PyFloat.between 0.0 10.0 c -> nearest_tenth c (PyFloat.round1 c).
Proof.
  intros [H0 H10]. apply leb_le in H0, H10.
  destruct H0 as (_ & Hn & H0). destruct H10 as (_ & _ & H10).
  change (Prim2SF 0.0%float) with (S754_zero false) in H0.
  change (Prim2SF 10.0%float)
    with (S754_finite false 5629499534213120 (-49)) in H10.
  pose proof (mantissa_bound c) as Hm.
  unfold nearest_tenth, PyFloat.round1.
  destruct (Prim2SF c) as [sc|sc| |sc m e].
  - exact eq_refl.
  - destruct sc; simpl in H0, H10; unfold lex_le, lex_lt in H0, H10.
    + destruct H0 as [H0|H0]; [lia|discriminate].
    + destruct H10 as [H10|H10]; [lia|discriminate].
  - discriminate Hn.
  - specialize (Hm sc m e eq_refl).
    destruct sc; simpl in H0, H10; unfold lex_le, lex_lt in H0, H10.
    + destruct H0 as [H0|H0]; [lia|discriminate].
    + assert (He : (e <= -49)%Z).
      { destruct H10 as [H10|H10]; [lia|]. inversion H10. lia. }
      assert (Hlt : (e <? -3)%Z = true) by (apply Z.ltb_lt; lia).
      rewrite Hlt. split; [lia|].
      exists (PyFloat.round_half_even (10 * Z.pos m) (2 ^ (- e))).
      assert (Hd : (0 < 2 ^ (- e))%Z) by (apply Z.pow_pos_nonneg; lia).
      split; [reflexivity|]. split.
      * unfold PyFloat.round_half_even.
        assert (Hq : (0 <= (10 * Z.pos m) / 2 ^ (- e))%Z)
          by (apply Z.div_pos; lia).
        destruct (_ ?= _)%Z; [destruct (Z.even _)| |]; lia.
      * apply (round_half_even_nearest (10 * Z.pos m) (2 ^ (- e)) Hd).
Qed.

End RoundFacts.

(* ================================================================== *)
(** * The solution scorer: its two paths *)
(* ================================================================== *)

(** The test [not solution_text or solution_text.strip() == ""] holds
    exactly of the texts made of whitespace, the empty one included. *)
Lemma blank_test (s : string) :
  PyStr.is_empty s || String.eqb (PyStr.strip s) EmptyString
  = PyStr.all_space s.
Proof.
  destruct (PyStr.all_space s) eqn:E.
  - apply PyStrFacts.strip_empty in E. rewrite E. apply orb_true_r.
  - assert (Hs : PyStr.strip s <> EmptyString).
    { intros H. apply PyStrFacts.strip_empty in H. congruence. }
    apply String.eqb_neq in Hs. rewrite Hs.
    destruct s; [discriminate|reflexivity].
Qed.

Section ScorerFacts.

Variable rng : Type.
Variable uniform : float -> float -> rng -> float * rng.

Lemma simulate_scoring_blank (solution_text : string) (g : rng) :
  PyStr.all_space solution_text = true ->
  simulate_scoring rng uniform solution_text g
  = uniform 4.0%float 6.5%float g.
Proof.
  intros H. unfold simulate_scoring. now rewrite blank_test, H.
Qed.

Lemma apply_boosts_sum (text : string) (base : float) :
  apply_boosts text base = sum_from base (present_boosts text).
Proof.
  unfold apply_boosts, present_boosts, sum_from.
  generalize boosts as l. intros l. revert base.
  induction l as [|[kw boost] l IH]; intros base; simpl.
  - reflexivity.
  - destruct (PyStr.contains kw text); simpl; apply IH.
Qed.

Lemma simulate_scoring_text (solution_text : string) (g : rng) :
  PyStr.all_space solution_text = false ->
  simulate_scoring rng uniform solution_text g
  = (spec_score solution_text (fst (uniform (-0.5)%float 0.8%float g)),
     snd (uniform (-0.5)%float 0.8%float g)).
Proof.
  intros H. unfold simulate_scoring, spec_score, spec_base.
  rewrite blank_test, H, apply_boosts_sum.
  now destruct (uniform (-0.5)%float 0.8%float g) as [noise g'].
Qed.

End ScorerFacts.

(* ================================================================== *)
(** * Claims on the solution scorer *)
(* ================================================================== *)

(** C1, at the input where it fails.  On the empty solution text, with a
    generator whose next [random()] is 0.125, the draw of
    [uniform(4.0, 6.5)] is 4.3125 and the scorer returns it as it is: the
    value lies in [[0.0, 10.0]] but is not rounded to one decimal
    ([round(4.3125, 1)] is 4.3). *)
Theorem blank_solution_score_not_rounded :
  let score :=
    fst (simulate_scoring (list float) list_uniform EmptyString
           [0.125%float]) in
  score = 4.3125%float
  /\ PyFloat.between 4.0 6.5 score
  /\ PyFloat.between 0.0 10.0 score
  /\ PyFloat.round1 score = 4.3%float
  /\ ~ is_rounded1 score.
Proof.
  repeat split.
  intros H. apply (f_equal Prim2SF) in H. vm_compute in H. discriminate.
Qed.

(** C3.  For every solution text that is not empty and not made of
    whitespace only, and every noise draw [n] (any float, those of
    [[-0.5, 0.8]] among them), the scorer returns
    [round(max(0.0, min(10.0, base + boosts + n)), 1)], where [base] is
    [min(10.0, 3.0 + word_count * 0.03)] and [boosts] adds, for each of
    "feature", "validation", "cross", "ensemble", "hyperparameter" that
    occurs in the lower-cased text, its boost 0.5, 0.7, 0.4, 0.6, 0.6:
    every keyword present adds its own boost, whatever the others do.
    Each step is what its name says: the number of words is the number of
    starts of a word among the characters of the lower-cased text,
    whitespace being that of Unicode; [base] is the smaller of 10.0 and
    [3.0 + word_count * 0.03]; the sum is brought into [[0.0, 10.0]]; and
    the score is the double nearest to [k / 10] for the integer [k]
    nearest to ten times the clamped sum, ties to the even one, so a value
    of [[0.0, 10.0]]. *)
Theorem scored_text_formula (rng : Type)
    (uniform : float -> float -> rng -> float * rng)
    (solution_text : string) (g : rng) :
  PyStr.all_space solution_text = false ->
  let n := fst (uniform (-0.5)%float 0.8%float g) in
  let text := PyStr.lower solution_text in
  let base := spec_base (List.length (PyStr.split text)) in
  simulate_scoring rng uniform solution_text g
  = (PyFloat.round1
       (PyFloat.max 0.0%float
          (PyFloat.min 10.0%float
             (sum_from base (present_boosts text) + n)%float)),
     snd (uniform (-0.5)%float 0.8%float g))
  /\ present_boosts text
     = (if PyStr.contains "feature" text then [0.5%float] else [])
       ++ (if PyStr.contains "validation" text then [0.7%float] else [])
       ++ (if PyStr.contains "cross" text then [0.4%float] else [])
       ++ (if PyStr.contains "ensemble" text then [0.6%float] else [])
       ++ (if PyStr.contains "hyperparameter" text then [0.6%float] else [])
  /\ (forall b l, sum_from base (b :: l) = sum_from (base + b)%float l)
  /\ sum_from base [] = base
  /\ List.length (PyStr.split text) = word_count text
  /\ smaller_of 10.0%float
       (3.0 + PyFloat.of_int (Z.of_nat (word_count text)) * 0.03)%float
       base
  /\ (exists c,
        clamped (sum_from base (present_boosts text) + n)%float c
        /\ nearest_tenth c
             (fst (simulate_scoring rng uniform solution_text g)))
  /\ PyFloat.between 0.0 10.0
       (fst (simulate_scoring rng uniform solution_text g)).
Proof.
  intros H n text base.
  split; [now rewrite simulate_scoring_text|].
  split.
  { unfold present_boosts, boosts. cbn [filter fst].
    destruct (PyStr.contains "feature" text),
      (PyStr.contains "validation" text),
      (PyStr.contains "cross" text),
      (PyStr.contains "ensemble" text),
      (PyStr.contains "hyperparameter" text); reflexivity. }
  split; [reflexivity|]. split; [reflexivity|].
  split; [apply PyStrFacts.split_length|].
  split.
  { unfold base, spec_base. rewrite PyStrFacts.split_length.
    now apply FloatFacts.min_smaller. }
  rewrite simulate_scoring_text by exact H. cbn [fst].
  unfold spec_score. fold text. fold base. fold n.
  set (sum := (sum_from base (present_boosts text) + n)%float).
  split.
  - exists (PyFloat.max 0.0 (PyFloat.min 10.0 sum)). split.
    + apply FloatFacts.clamp_clamped.
    + apply RoundFacts.round1_nearest, FloatFacts.clamp_between.
  - apply RoundFacts.round1_between, FloatFacts.clamp_between.
Qed.

(** C3, three runs with a generator whose next [random()] is 0.5, so a
    noise of 0.15.  Three words holding "feature" and "validation": base
    3.09, boosts 0.5 and 0.7, score 4.4.  Four words parted by a no-break
    space, an ideographic space and a blank: base 3.12, score 3.3.  Four
    hundred words: the base stops at 10.0 and so does the score. *)
Lemma scored_text_formula_witness :
  (simulate_scoring (list float) list_uniform "Feature validation plan"
     [0.5%float] = (4.4%float, [])
   /\ word_count (PyStr.lower "Feature validation plan") = 3%nat)
  /\ (simulate_scoring (list float) list_uniform
        ("a" ++ no_break_space ++ "b" ++ ideographic_space ++ "c d")
        [0.5%float] = (3.3%float, [])
      /\ word_count
           (PyStr.lower
              ("a" ++ no_break_space ++ "b" ++ ideographic_space ++ "c d"))
         = 4%nat)
  /\ (simulate_scoring (list float) list_uniform
        (concat " " (repeat "word" 400)) [0.5%float] = (10.0%float, [])
      /\ spec_base 400 = 10.0%float).
Proof.
  pose proof (scored_text_formula (list float) list_uniform
                "Feature validation plan" [0.5%float] eq_refl) as H1.
  pose proof (scored_text_formula (list float) list_uniform
                ("a" ++ no_break_space ++ "b" ++ ideographic_space ++ "c d")
                [0.5%float] eq_refl) as H2.
  pose proof (scored_text_formula (list float) list_uniform
                (concat " " (repeat "word" 400)) [0.5%float] eq_refl)
    as H3.
  cbv zeta in H1, H2, H3.
  destruct H1 as (E1 & _ & _ & _ & W1 & _).
  destruct H2 as (E2 & _ & _ & _ & W2 & _).
  destruct H3 as (E3 & _ & _ & _ & W3 & B3 & _).
  split; [split|split; split].
  - rewrite E1. vm_compute. reflexivity.
  - rewrite <- W1. vm_compute. reflexivity.
  - rewrite E2. vm_compute. reflexivity.
  - rewrite <- W2. vm_compute. reflexivity.
  - rewrite E3. vm_compute. reflexivity.
  - destruct B3 as (_ & _ & B3). rewrite <- W3 in B3.
    replace 400%nat
      with (List.length (PyStr.split (PyStr.lower
              (concat " " (repeat "word" 400)))))
      by (vm_compute; reflexivity).
    apply B3. vm_compute. reflexivity.
Defined.

(** The value of that run: base 3.09 for three words, boosts 0.5 and 0.7,
    noise 0.15, rounded to 4.4.  With the five keywords the boosts add up;
    a noise out of range is caught by the clamp, NaN included. *)
Example scored_text_values :
  simulate_scoring (list float) list_uniform "Feature validation plan"
    [0.5%float] = (4.4%float, [])
  /\ simulate_scoring (list float) list_uniform
       "feature validation cross ensemble hyperparameter" [0.5%float]
     = (6.1%float, [])
  /\ simulate_scoring unit (fun _ _ g => (100.0%float, g)) "feature" tt
     = (10.0%float, tt)
  /\ simulate_scoring unit (fun _ _ g => ((-100.0)%float, g)) "feature" tt
     = (0.0%float, tt)
  /\ simulate_scoring unit (fun _ _ g => (nan, g)) "feature" tt
     = (10.0%float, tt).
Proof. repeat split. Qed.

(** C6.  For every solution text that is empty or made of whitespace only,
    and every draw of [uniform(4.0, 6.5)] within its range, the scorer
    returns the draw, a value of [[4.0, 6.5]], and the discount mapper
    gives that value the 15% tier. *)
Theorem blank_solution_low_score (rng : Type)
    (uniform : float -> float -> rng -> float * rng)
    (solution_text : string) (g : rng) :
  PyStr.all_space solution_text = true ->
  PyFloat.between 4.0 6.5 (fst (uniform 4.0%float 6.5%float g)) ->
  let score := fst (simulate_scoring rng uniform solution_text g) in
  score = fst (uniform 4.0%float 6.5%float g)
  /\ PyFloat.between 4.0 6.5 score
  /\ discount_by_score score = tier_15.
Proof.
  intros Hsp Hu score. unfold score.
  rewrite simulate_scoring_blank by exact Hsp.
  split; [reflexivity|]. split; [exact Hu|].
  destruct Hu as [_ Hu]. unfold discount_by_score.
  set (u := fst (uniform 4.0%float 6.5%float g)) in *.
  assert (H9 : (9.0 <=? u)%float = false).
  { destruct (9.0 <=? u)%float eqn:E; [|reflexivity].
    pose proof (FloatFacts.leb_trans 9.0 u 6.5 E Hu) as H. discriminate. }
  assert (H8 : (8.0 <=? u)%float = false).
  { destruct (8.0 <=? u)%float eqn:E; [|reflexivity].
    pose proof (FloatFacts.leb_trans 8.0 u 6.5 E Hu) as H. discriminate. }
  assert (H7 : (7.0 <=? u)%float = false).
  { destruct (7.0 <=? u)%float eqn:E; [|reflexivity].
    pose proof (FloatFacts.leb_trans 7.0 u 6.5 E Hu) as H. discriminate. }
  now rewrite H9, H8, H7.
Qed.

(** C6, a run: a text of a blank, a no-break space and an ideographic
    space, with a generator whose next [random()] is 0.75. *)
Lemma blank_solution_low_score_witness :
  fst (simulate_scoring (list float) list_uniform
         (" " ++ no_break_space ++ ideographic_space) [0.75%float])
  = fst (list_uniform 4.0%float 6.5%float [0.75%float])
  /\ PyFloat.between 4.0 6.5
       (fst (simulate_scoring (list float) list_uniform
               (" " ++ no_break_space ++ ideographic_space) [0.75%float]))
  /\ discount_by_score
       (fst (simulate_scoring (list float) list_uniform
               (" " ++ no_break_space ++ ideographic_space) [0.75%float]))
     = tier_15.
Proof.
  apply (blank_solution_low_score (list float) list_uniform
           (" " ++ no_break_space ++ ideographic_space) [0.75%float]).
  - reflexivity.
  - split; reflexivity.
Defined.

(** X1, the part of C1 that holds.  On a text that is not blank the score lies
    in [[0.0, 10.0]] and is rounded to one decimal, whatever the noise
    drawn; on a blank text the score lies in [[0.0, 10.0]] as soon as the
    draw lies in [[4.0, 6.5]]. *)
Theorem score_in_range (rng : Type)
    (uniform : float -> float -> rng -> float * rng)
    (solution_text : string) (g : rng) :
  let score := fst (simulate_scoring rng uniform solution_text g) in
  (PyStr.all_space solution_text = false ->
   PyFloat.between 0.0 10.0 score /\ is_rounded1 score)
  /\ (PyStr.all_space solution_text = true ->
      PyFloat.between 4.0 6.5 (fst (uniform 4.0%float 6.5%float g)) ->
      PyFloat.between 0.0 10.0 score).
Proof.
  intros score. unfold score. split.
  - intros H. rewrite simulate_scoring_text by exact H.
    cbn [fst]. unfold spec_score, is_rounded1.
    apply RoundFacts.round1_between, FloatFacts.clamp_between.
  - intros H [H4 H65]. rewrite simulate_scoring_blank by exact H.
    set (u := fst (uniform 4.0%float 6.5%float g)) in *. split.
    + exact (FloatFacts.leb_trans 0.0 4.0 u eq_refl H4).
    + exact (FloatFacts.leb_trans u 6.5 10.0 H65 eq_refl).
Qed.

(** X1, a run on both paths of the scorer; the blank text is a no-break
    space. *)
Lemma score_in_range_witness :
  (PyFloat.between 0.0 10.0
     (fst (simulate_scoring (list float) list_uniform
             "Cross validation with an ensemble" [0.25%float]))
   /\ is_rounded1
        (fst (simulate_scoring (list float) list_uniform
                "Cross validation with an ensemble" [0.25%float])))
  /\ PyFloat.between 0.0 10.0
       (fst (simulate_scoring (list float) list_uniform no_break_space
               [0.25%float])).
Proof.
  split.
  - apply (proj1 (score_in_range (list float) list_uniform
                    "Cross validation with an ensemble" [0.25%float])).
    reflexivity.
  - apply (proj2 (score_in_range (list float) list_uniform no_break_space
                    [0.25%float])).
    + reflexivity.
    + split; reflexivity.
Defined.

(** On a text that is a no-break space the scorer returns the draw as it
    is: 4.3125 when the next [random()] is 0.125. *)
Example no_break_space_score :
  PyStr.all_space no_break_space = true
  /\ PyStr.strip no_break_space = EmptyString
  /\ simulate_scoring (list float) list_uniform no_break_space
       [0.125%float] = (4.3125%float, []).
Proof. repeat split. Qed.

(* ================================================================== *)
(** * Empty and whitespace-only inputs *)
(* ================================================================== *)

(** C10.  The extractor returns the no-profile sentinel exactly on an
    absent or empty resume text.  A resume text made of whitespace only is
    not empty for it: it gets a full profile with the role Data Analyst, 1
    year of experience, the seniority Junior and no skills.  The solution
    scorer, which strips its input before the test, takes the same text on
    its empty-input path. *)
Theorem whitespace_resume_profiled :
  (forall resume_text,
      extract_profile_from_resume resume_text = None
      <-> resume_text = None \/ resume_text = Some EmptyString)
  /\ (forall text,
        text <> EmptyString -> PyStr.all_space text = true ->
        extract_profile_from_resume (Some text)
        = Some {| role := Some "Data Analyst";
                  experience_years := Some 1%Z;
                  skills := Some [];
                  seniority := Some "Junior";
                  raw_text_preview := Some (text_preview text);
                  name := None |})
  /\ (forall (rng : Type) (uniform : float -> float -> rng -> float * rng)
             text g,
        PyStr.all_space text = true ->
        simulate_scoring rng uniform text g = uniform 4.0%float 6.5%float g).
Proof.
  repeat split.
  - apply extract_none_iff.
  - apply extract_none_iff.
  - intros text Hne Hsp.
    assert (Hl : PyStr.all_space (PyStr.lower text) = true)
      by now rewrite PyStrFacts.lower_all_space.
    rewrite (extract_fields text "Data Analyst" Hne).
    + now rewrite (all_space_experience _ Hl), (all_space_skills _ Hl).
    + apply pick_best_role_all_zero.
      * apply scores_nonempty.
      * apply scores_nodup.
      * intros [r c] Hin. apply scores_in in Hin as (kws & Hin & ->).
        simpl. apply count_matches_none.
        now apply (all_space_no_match _ r).
  - intros rng uniform text g Hsp. now apply simulate_scoring_blank.
Qed.

(** C10, a run on a text of a blank, a tab, a newline, a no-break space
    and an ideographic space. *)
Lemma whitespace_resume_profiled_witness :
  let text :=
    (String space (String (ascii_of_nat 9) (String newline EmptyString))
     ++ no_break_space ++ ideographic_space)%string in
  extract_profile_from_resume (Some text)
  = Some {| role := Some "Data Analyst";
            experience_years := Some 1%Z;
            skills := Some [];
            seniority := Some "Junior";
            raw_text_preview := Some (text_preview text);
            name := None |}
  /\ simulate_scoring (list float) list_uniform text [0.5%float]
     = list_uniform 4.0%float 6.5%float [0.5%float].
Proof.
  split.
  - apply (proj1 (proj2 whitespace_resume_profiled)).
    + discriminate.
    + reflexivity.
  - apply (proj2 (proj2 whitespace_resume_profiled)). reflexivity.
Defined.

(** C7, a run on the profile the extractor returns for a resume with six
    skills: the headline shows the first five in ascending order. *)
Lemma nuggets_headline_skills_witness :
  let p :=
    {| role := Some "Data Analyst";
       experience_years := Some 1%Z;
       skills := Some ["eda"; "excel"; "pandas"; "python"; "sql"; "tableau"];
       seniority := Some "Junior";
       raw_text_preview := Some "Python, SQL, Excel, Tableau, Pandas, EDA";
       name := None |} in
  extract_profile_from_resume (Some "Python, SQL, Excel, Tableau, Pandas, EDA")
  = Some p
  /\ str_dict_get "headline"
       (generate_personalized_nuggets (Some p) "AI & Machine Learning")
     = Some "Data Analyst • Junior • eda, excel, pandas, python, sql"
  /\ str_dict_get "headline"
       (generate_personalized_nuggets
          (Some {| role := Some "Data Analyst";
                   experience_years := Some 1%Z;
                   skills := Some [];
                   seniority := Some "Junior";
                   raw_text_preview := Some " ";
                   name := None |})
          "AI & Machine Learning")
     = Some "Data Analyst • Junior • Skills not listed".
Proof.
  intros p. split; [vm_compute; reflexivity|]. split.
  - apply (proj1 (nuggets_headline_skills p "AI & Machine Learning")
             ["eda"; "excel"; "pandas"; "python"; "sql"; "tableau"]).
    + reflexivity.
    + discriminate.
  - apply (proj1 (proj2 (nuggets_headline_skills
                           {| role := Some "Data Analyst";
                              experience_years := Some 1%Z;
                              skills := Some [];
                              seniority := Some "Junior";
                              raw_text_preview := Some " ";
                              name := None |}
                           "AI & Machine Learning")));
      reflexivity.
Defined.

(* ================================================================== *)
(** * Further properties of the profile extractor *)
(* ================================================================== *)

(** Whatever the text, a role is chosen and it is a declared one. *)
Lemma pick_best_role_declared (text : string) :
  exists r,
    pick_best_role (fst (scan_keywords text)) = Some r
    /\ In r declared_roles.
Proof.
  destruct (first_max_exists _ (scores_nonempty text)) as (r & c & Hfm).
  pose proof (scores_nodup text) as Hnd.
  destruct (Z_lt_le_dec 0 c) as [Hc|Hc].
  - exists r. split; [now apply (pick_best_role_first_max _ r c)|].
    rewrite <- (scores_keys text).
    destruct Hfm as (pre & post & Heq & _). rewrite Heq, map_app.
    apply in_or_app. right. now left.
  - exists "Data Analyst". split; [|simpl; tauto].
    apply pick_best_role_all_zero; [apply scores_nonempty|exact Hnd|].
    intros [r' c'] Hin. simpl.
    assert (0 <= c')%Z.
    { apply scores_in in Hin as (kws & _ & ->). apply count_matches_nonneg. }
    destruct Hfm as (pre & post & Heq & Hpre & Hpost).
    rewrite Heq in Hin. apply in_app_or in Hin as [Hin|[Hin|Hin]].
    + specialize (Hpre _ Hin). simpl in Hpre. lia.
    + inversion Hin. lia.
    + specialize (Hpost _ Hin). simpl in Hpost. lia.
Qed.

(** The profile of a non-empty text, with the role left open. *)
Lemma extract_some (resume_text : option string) (p : profile) :
  extract_profile_from_resume resume_text = Some p ->
  exists text r,
    resume_text = Some text /\ text <> EmptyString
    /\ pick_best_role (fst (scan_keywords (PyStr.lower text))) = Some r
    /\ In r declared_roles
    /\ p = {| role := Some r;
              experience_years := Some (approx_experience (PyStr.lower text));
              skills :=
                Some (PyStr.sorted (snd (scan_keywords (PyStr.lower text))));
              seniority :=
                Some (seniority_of (approx_experience (PyStr.lower text)));
              raw_text_preview := Some (text_preview text);
              name := None |}.
Proof.
  intros H. destruct resume_text as [text|]; [|discriminate].
  assert (Hne : text <> EmptyString) by (intros ->; discriminate).
  destruct (pick_best_role_declared (PyStr.lower text)) as (r & Hr & Hin).
  exists text, r. repeat split; try assumption.
  rewrite (extract_fields text r Hne Hr) in H. now inversion H.
Qed.

(** X2.  Whenever the extractor returns a profile, its role is one of the
    five declared roles, and every key but ['name'] is filled. *)
Theorem extract_role_declared (resume_text : option string) (p : profile) :
  extract_profile_from_resume resume_text = Some p ->
  (exists r, role p = Some r /\ In r declared_roles)
  /\ experience_years p <> None
  /\ skills p <> None
  /\ seniority p <> None
  /\ raw_text_preview p <> None
  /\ name p = None.
Proof.
  intros H.
  destruct (extract_some _ _ H) as (text & r & _ & _ & _ & Hin & ->).
  simpl. repeat split; try discriminate. now exists r.
Qed.

(** X2, a run on a resume line. *)
Lemma extract_role_declared_witness :
  (exists r,
      Some "DevOps Engineer" = Some r /\ In r declared_roles)
  /\ Some 4%Z <> None
  /\ Some ["aws"; "jenkins"; "terraform"] <> None
  /\ Some "Mid-level" <> None
  /\ Some "Lead engineer: AWS, Terraform, Jenkins" <> None
  /\ @None string = None.
Proof.
  exact (extract_role_declared
           (Some "Lead engineer: AWS, Terraform, Jenkins")
           {| role := Some "DevOps Engineer";
              experience_years := Some 4%Z;
              skills := Some ["aws"; "jenkins"; "terraform"];
              seniority := Some "Mid-level";
              raw_text_preview :=
                Some "Lead engineer: AWS, Terraform, Jenkins";
              name := None |}
           eq_refl).
Defined.

Lemma set_mem_in (x : string) (s : list string) :
  PyStr.set_mem x s = true <-> In x s.
Proof.
  unfold PyStr.set_mem. rewrite existsb_exists. split.
  - intros (y & Hy & E). apply String.eqb_eq in E. now subst.
  - intros H. exists x. split; [exact H|apply String.eqb_refl].
Qed.

Lemma set_add_in (x k : string) (s : list string) :
  In x (PyStr.set_add k s) <-> x = k \/ In x s.
Proof.
  unfold PyStr.set_add. destruct (PyStr.set_mem k s) eqn:E.
  - apply set_mem_in in E. split; [now right|]. intros [->|H]; assumption.
  - rewrite in_app_iff. simpl. intuition.
Qed.

Lemma set_add_nodup (k : string) (s : list string) :
  NoDup s -> NoDup (PyStr.set_add k s).
Proof.
  intros H. unfold PyStr.set_add. destruct (PyStr.set_mem k s) eqn:E.
  - exact H.
  - assert (Hk : ~ In k s).
    { intros Hin. apply set_mem_in in Hin. congruence. }
    clear E. induction s as [|y s IH]; simpl.
    + constructor; [intros []|constructor].
    + inversion H as [|? ? Hy Hs]. subst. constructor.
      * rewrite in_app_iff. simpl. intros [Hin|[->|[]]].
        -- now apply Hy.
        -- apply Hk. now left.
      * apply IH; [exact Hs|]. intros Hin. apply Hk. now right.
Qed.

Lemma add_matches_in (text x : string) (kwlist found : list string) :
  In x (add_matches text kwlist found)
  <-> In x found \/ (In x kwlist /\ PyStr.contains x text = true).
Proof.
  unfold add_matches. revert found.
  induction kwlist as [|kw l IH]; intros found; simpl.
  - tauto.
  - rewrite IH. destruct (PyStr.contains kw text) eqn:E.
    + rewrite set_add_in. split.
      * intros [[->|H]|[H1 H2]]; auto.
      * intros [H|[[<-|H1] H2]]; auto.
    + split.
      * intros [H|[H1 H2]]; auto.
      * intros [H|[[<-|H1] H2]]; auto. congruence.
Qed.

Lemma add_matches_nodup (text : string) (kwlist found : list string) :
  NoDup found -> NoDup (add_matches text kwlist found).
Proof.
  unfold add_matches. revert found.
  induction kwlist as [|kw l IH]; intros found H; simpl.
  - exact H.
  - destruct (PyStr.contains kw text); apply IH;
      [now apply set_add_nodup|exact H].
Qed.

(** The [found_skills] set holds the keywords that occur in the text, each
    once. *)
Lemma found_skills_in (text x : string) :
  In x (snd (scan_keywords text))
  <-> In x all_keywords /\ PyStr.contains x text = true.
Proof.
  rewrite scan_keywords_eq. cbn [snd]. unfold all_keywords.
  assert (H : forall (items : list (string * list string)) found,
             In x (fold_left
                     (fun found item => add_matches text (snd item) found)
                     items found)
             <-> In x found
                 \/ (In x (flat_map snd items)
                     /\ PyStr.contains x text = true)).
  { induction items as [|[r kws] items IH]; intros found; simpl.
    - tauto.
    - rewrite IH, add_matches_in, in_app_iff. tauto. }
  rewrite H. simpl. tauto.
Qed.

Lemma found_skills_nodup (text : string) :
  NoDup (snd (scan_keywords text)).
Proof.
  rewrite scan_keywords_eq. cbn [snd].
  assert (H : forall (items : list (string * list string)) found,
             NoDup found ->
             NoDup (fold_left
                      (fun found item => add_matches text (snd item) found)
                      items found)).
  { induction items as [|[r kws] items IH]; intros found Hf; simpl.
    - exact Hf.
    - apply IH. now apply add_matches_nodup. }
  apply H. constructor.
Qed.

Lemma insert_sorted_in (x y : string) (l : list string) :
  In x (PyStr.insert_sorted y l) <-> x = y \/ In x l.
Proof.
  induction l as [|z l IH]; simpl.
  - intuition.
  - destruct (String.leb y z); simpl; [intuition|].
    rewrite IH. intuition.
Qed.

Lemma sorted_in (x : string) (l : list string) :
  In x (PyStr.sorted l) <-> In x l.
Proof.
  induction l as [|y l IH]; simpl; [tauto|].
  rewrite insert_sorted_in, IH. intuition.
Qed.

Lemma insert_sorted_nodup (y : string) (l : list string) :
  ~ In y l -> NoDup l -> NoDup (PyStr.insert_sorted y l).
Proof.
  induction l as [|z l IH]; intros Hy Hl; simpl.
  - constructor; [exact Hy|constructor].
  - destruct (String.leb y z).
    + constructor; assumption.
    + inversion Hl as [|? ? Hz Hl']. subst. constructor.
      * rewrite insert_sorted_in. intros [->|H]; [|now apply Hz].
        apply Hy. now left.
      * apply IH; [|exact Hl']. intros H. apply Hy. now right.
Qed.

Lemma sorted_nodup (l : list string) : NoDup l -> NoDup (PyStr.sorted l).
Proof.
  induction l as [|y l IH]; intros H; simpl; [constructor|].
  inversion H as [|? ? Hy Hl]. subst.
  apply insert_sorted_nodup; [|now apply IH].
  now rewrite sorted_in.
Qed.

(** X3.  The skills of a profile are exactly the keywords, of any role's
    list, that occur in the lower-cased resume text; the list is in
    ascending order and holds each keyword once, also a keyword that is on
    two lists. *)
Theorem extract_skills_exact (text : string) (p : profile) :
  extract_profile_from_resume (Some text) = Some p ->
  exists l,
    skills p = Some l
    /\ (forall kw,
          In kw l
          <-> In kw all_keywords
              /\ PyStr.contains kw (PyStr.lower text) = true)
    /\ NoDup l
    /\ ascending l.
Proof.
  intros H.
  destruct (extract_some _ _ H) as (text' & r & Ht & _ & _ & _ & ->).
  inversion Ht. subst text'. simpl. eexists. split; [reflexivity|].
  split; [|split].
  - intros kw. rewrite sorted_in. apply found_skills_in.
  - apply sorted_nodup, found_skills_nodup.
  - exact (PyStrFacts.sorted_ascending _).
Qed.

(** X3, a run: "pandas" is on two lists and is listed once. *)
Lemma extract_skills_exact_witness :
  exists l,
    Some ["numpy"; "pandas"; "sql"] = Some l
    /\ (forall kw,
          In kw l
          <-> In kw all_keywords
              /\ PyStr.contains kw (PyStr.lower "SQL, Pandas and NumPy")
                 = true)
    /\ NoDup l
    /\ ascending l.
Proof.
  exact (extract_skills_exact "SQL, Pandas and NumPy"
           {| role := Some "Data Analyst";
              experience_years := Some 1%Z;
              skills := Some ["numpy"; "pandas"; "sql"];
              seniority := Some "Junior";
              raw_text_preview := Some "SQL, Pandas and NumPy";
              name := None |}
           eq_refl).
Defined.

(** X4.  The experience estimate is 6, 4, 2 or 1 and the seniority follows
    it: Senior with 6, Mid-level with 4, Junior with 2 and 1.  The buckets
    are tried in that order: a senior marker ("senior", "5+", "5 years")
    gives 6 whatever else the text holds, and the estimate is 1 exactly
    when no marker of any bucket occurs. *)
Theorem extract_experience_buckets (text : string) (p : profile) :
  extract_profile_from_resume (Some text) = Some p ->
  let t := PyStr.lower text in
  let senior :=
    PyStr.contains "senior" t || PyStr.contains "5+" t
    || PyStr.contains "5 years" t in
  let lead :=
    PyStr.contains "lead" t || PyStr.contains "3+" t
    || PyStr.contains "3 years" t in
  let junior :=
    PyStr.contains "junior" t || PyStr.contains "1+" t
    || PyStr.contains "1 year" t in
  In (experience_years p, seniority p)
     [ (Some 6%Z, Some "Senior"); (Some 4%Z, Some "Mid-level");
       (Some 2%Z, Some "Junior"); (Some 1%Z, Some "Junior") ]
  /\ (experience_years p = Some 6%Z <-> senior = true)
  /\ (experience_years p = Some 4%Z <-> senior = false /\ lead = true)
  /\ (experience_years p = Some 2%Z
      <-> senior = false /\ lead = false /\ junior = true)
  /\ (experience_years p = Some 1%Z
      <-> senior = false /\ lead = false /\ junior = false).
Proof.
  intros H t senior lead junior.
  destruct (extract_some _ _ H) as (text' & r & Ht & _ & _ & _ & ->).
  inversion Ht. subst text'. simpl. fold t.
  unfold approx_experience. fold senior lead junior.
  destruct senior, lead, junior; simpl; intuition congruence.
Qed.

(** X4, a run: "senior" wins over "junior". *)
Lemma extract_experience_buckets_witness :
  In (Some 6%Z, Some "Senior")
     [ (Some 6%Z, Some "Senior"); (Some 4%Z, Some "Mid-level");
       (Some 2%Z, Some "Junior"); (Some 1%Z, Some "Junior") ]
  /\ (Some 6%Z = Some 6%Z <-> true = true).
Proof.
  pose proof (extract_experience_buckets
                "Senior mentor of junior staff"
                {| role := Some "Data Analyst";
                   experience_years := Some 6%Z;
                   skills := Some [];
                   seniority := Some "Senior";
                   raw_text_preview := Some "Senior mentor of junior staff";
                   name := None |}
                eq_refl) as H.
  exact (conj (proj1 H) (proj1 (proj2 H))).
Defined.

(* ------------------------------------------------------------------ *)
(** ** The text preview *)



Lemma replace_char_length (a b : ascii) (s : string) :
  String.length (PyStr.replace_char a b s) = String.length s.
Proof. induction s as [|c s IH]; simpl; congruence. Qed.


Module PreviewFacts.
Import PyStr PyStrFacts.







Section Replace.
Variables a b : ascii.
Hypothesis Ha : (byte a < 0x80)%N.
Hypothesis Hb : (byte b < 0x80)%N.








End Replace.












End PreviewFacts.


Lemma append_length (s1 s2 : string) :
  String.length (s1 ++ s2)%string
  = (String.length s1 + String.length s2)%nat.
Proof. induction s1 as [|c s1 IH]; simpl; congruence. Qed.



(* ================================================================== *)
(** * Letter case *)
(* ================================================================== *)

Module CaseFacts.
Import PyStr PyStrFacts.










Lemma isspace_small (cp : N) : isspace cp = true -> (cp <= 0x3000)%N.
Proof.
  unfold isspace. intros H. apply existsb_exists in H as (w & Hin & Ew).
  apply N.eqb_eq in Ew. subst w. unfold whitespace in Hin. simpl in Hin.
  repeat (destruct Hin as [<-|Hin]; [lia|]). destruct Hin.
Qed.














End CaseFacts.



(* ================================================================== *)
(** * Further properties of the nugget generator *)
(* ================================================================== *)

(** X7.  The generator returns the empty dict exactly on an absent or empty
    profile.  Otherwise the result holds the keys headline, nugget_1,
    nugget_2 and cta, in that order, followed by extra_tip exactly when the
    role is "Data Analyst" (a profile without a role counts as
    "Professional" and gets no tip). *)
Theorem nuggets_keys (profile : option profile)
    (masterclass_topic : string) :
  let nuggets := generate_personalized_nuggets profile masterclass_topic in
  (nuggets = []
   <-> profile = None
       \/ exists p, profile = Some p /\ profile_is_empty p = true)
  /\ (forall p,
        profile = Some p -> profile_is_empty p = false ->
        dict_keys nuggets
        = ["headline"; "nugget_1"; "nugget_2"; "cta"]
          ++ (if String.eqb (get_or (role p) "Professional") "Data Analyst"
              then ["extra_tip"] else [])
        /\ NoDup (dict_keys nuggets)
        /\ (str_dict_get "extra_tip" nuggets <> None
            <-> role p = Some "Data Analyst")).
Proof.
  intros nuggets. unfold nuggets, generate_personalized_nuggets. split.
  - destruct profile as [p|]; [|split; auto].
    destruct (profile_is_empty p) eqn:E.
    + split; [right; now exists p|reflexivity].
    + split.
      * destruct (String.eqb (get_or (role p) "Professional") "Data Analyst");
          discriminate.
      * intros [H|(q & Hq & Hqe)]; [discriminate|].
        inversion Hq. congruence.
  - intros p -> Hne. rewrite Hne.
    destruct (String.eqb_spec (get_or (role p) "Professional") "Data Analyst")
      as [E|E]; simpl.
    + split; [reflexivity|]. split.
      * repeat constructor; simpl; intuition discriminate.
      * split; [intros _|discriminate].
        destruct (role p); simpl in E; [congruence|discriminate].
    + split; [reflexivity|]. split.
      * repeat constructor; simpl; intuition discriminate.
      * split; [congruence|]. intros H. rewrite H in E. now simpl in E.
Qed.

(** X7, a run on a profile with the role of a data analyst. *)
Lemma nuggets_keys_witness :
  dict_keys
    (generate_personalized_nuggets
       (Some {| role := Some "Data Analyst";
                experience_years := None;
                skills := None;
                seniority := None;
                raw_text_preview := None;
                name := None |})
       "AI & Machine Learning")
  = ["headline"; "nugget_1"; "nugget_2"; "cta"; "extra_tip"].
Proof.
  exact (proj1 (proj2 (nuggets_keys
                         (Some {| role := Some "Data Analyst";
                                  experience_years := None;
                                  skills := None;
                                  seniority := None;
                                  raw_text_preview := None;
                                  name := None |})
                         "AI & Machine Learning")
                  _ eq_refl eq_refl)).
Defined.

(** X8.  The topic of the masterclass only shows in nugget_1, and only for
    a role other than "Data Analyst": the nuggets of a data analyst are the
    same for every topic, and for any role every other key reads the
    same. *)
Theorem nuggets_topic (p : profile) (topic1 topic2 : string) :
  (role p = Some "Data Analyst" ->
   generate_personalized_nuggets (Some p) topic1
   = generate_personalized_nuggets (Some p) topic2)
  /\ (forall k,
        k <> "nugget_1" ->
        str_dict_get k (generate_personalized_nuggets (Some p) topic1)
        = str_dict_get k (generate_personalized_nuggets (Some p) topic2)).
Proof.
  unfold generate_personalized_nuggets. split.
  - intros Hr. rewrite Hr. simpl get_or.
    destruct (profile_is_empty p); reflexivity.
  - intros k Hk. destruct (profile_is_empty p); [reflexivity|].
    apply String.eqb_neq in Hk.
    destruct (String.eqb (get_or (role p) "Professional") "Data Analyst");
      simpl; rewrite Hk; reflexivity.
Qed.

(** X8, a run on the profile of a data analyst. *)
Lemma nuggets_topic_witness :
  generate_personalized_nuggets
    (Some {| role := Some "Data Analyst";
             experience_years := Some 1%Z;
             skills := Some ["sql"];
             seniority := Some "Junior";
             raw_text_preview := Some "sql";
             name := None |})
    "AI & Machine Learning"
  = generate_personalized_nuggets
      (Some {| role := Some "Data Analyst";
               experience_years := Some 1%Z;
               skills := Some ["sql"];
               seniority := Some "Junior";
               raw_text_preview := Some "sql";
               name := None |})
      "Data Engineering".
Proof.
  exact (proj1 (nuggets_topic
                  {| role := Some "Data Analyst";
                     experience_years := Some 1%Z;
                     skills := Some ["sql"];
                     seniority := Some "Junior";
                     raw_text_preview := Some "sql";
                     name := None |}
                  "AI & Machine Learning" "Data Engineering")
           eq_refl).
Defined.

(* ================================================================== *)
(** * Further properties of the email generator and the discount mapper *)
(* ================================================================== *)

(** X9.  Every email opens with "Hi ", the name of the profile ("[Name]"
    when the profile has none), a comma and an empty line; and the topic of
    the masterclass only shows in the "2 Hours Post-Exit" email. *)
Theorem email_greeting (p : profile) (masterclass_topic email_type : string) :
  (exists rest,
      content (generate_personalized_email p masterclass_topic email_type)
      = ("Hi " ++ get_or (name p) "[Name]" ++ ","
         ++ String newline (String newline rest))%string)
  /\ (email_type <> "2 Hours Post-Exit" ->
      forall topic2,
        generate_personalized_email p masterclass_topic email_type
        = generate_personalized_email p topic2 email_type).
Proof.
  unfold generate_personalized_email. split.
  - destruct (String.eqb email_type "2 Hours Post-Exit");
      [|destruct (String.eqb email_type "24 Hours Later")];
      simpl; eexists; reflexivity.
  - intros Hne topic2. apply String.eqb_neq in Hne. now rewrite Hne.
Qed.

(** X9, a run on the final reminder. *)
Lemma email_greeting_witness :
  generate_personalized_email
    {| role := None; experience_years := None; skills := None;
       seniority := None; raw_text_preview := None; name := None |}
    "AI & Machine Learning" "Final Reminder (7 days)"
  = generate_personalized_email
      {| role := None; experience_years := None; skills := None;
         seniority := None; raw_text_preview := None; name := None |}
      "Statistics" "Final Reminder (7 days)".
Proof.
  apply (proj2 (email_greeting
                  {| role := None; experience_years := None; skills := None;
                     seniority := None; raw_text_preview := None;
                     name := None |}
                  "AI & Machine Learning" "Final Reminder (7 days)")).
  discriminate.
Defined.

(** X10.  A higher score never gets a smaller discount: the percentage of
    the tier grows with the score, and it is 15, 20, 30 or 40. *)
Theorem discount_monotone (score1 score2 : float) :
  (score1 <=? score2)%float = true ->
  (percent (discount_by_score score1) <= percent (discount_by_score score2))%Z
  /\ In (percent (discount_by_score score1)) [15%Z; 20%Z; 30%Z; 40%Z].
Proof.
  intros H. unfold discount_by_score.
  destruct (9.0 <=? score1)%float eqn:A9;
    destruct (8.0 <=? score1)%float eqn:A8;
    destruct (7.0 <=? score1)%float eqn:A7;
    destruct (9.0 <=? score2)%float eqn:B9;
    destruct (8.0 <=? score2)%float eqn:B8;
    destruct (7.0 <=? score2)%float eqn:B7;
    try (rewrite (FloatFacts.leb_trans 9.0 score1 score2 A9 H) in B9;
         discriminate);
    try (rewrite (FloatFacts.leb_trans 8.0 score1 score2 A8 H) in B8;
         discriminate);
    try (rewrite (FloatFacts.leb_trans 7.0 score1 score2 A7 H) in B7;
         discriminate);
    (split; [vm_compute; congruence|simpl; tauto]).
Qed.

(** X10, a run on two scores of neighbouring tiers. *)
Lemma discount_monotone_witness :
  (percent (discount_by_score 7.9%float)
   <= percent (discount_by_score 8.0%float))%Z
  /\ In (percent (discount_by_score 7.9%float)) [15%Z; 20%Z; 30%Z; 40%Z].
Proof.
  exact (discount_monotone 7.9%float 8.0%float eq_refl).
Defined.

(* ================================================================== *)
(** * The quick test of page 3 *)
(* ================================================================== *)

Module QuickTestFacts.

Import FloatOrder FloatOrderFacts.

Lemma digits2_pos_lower (m : positive) :
  (2 ^ (Z.pos (digits2_pos m) - 1) <= Z.pos m)%Z.
Proof.
  induction m as [m IH|m IH|]; simpl digits2_pos.
  - rewrite Pos2Z.inj_succ.
    replace (Z.succ (Z.pos (digits2_pos m)) - 1)%Z
      with (Z.succ (Z.pos (digits2_pos m) - 1))%Z by lia.
    rewrite Z.pow_succ_r by lia. lia.
  - rewrite Pos2Z.inj_succ.
    replace (Z.succ (Z.pos (digits2_pos m)) - 1)%Z
      with (Z.succ (Z.pos (digits2_pos m) - 1))%Z by lia.
    rewrite Z.pow_succ_r by lia. lia.
  - simpl. lia.
Qed.

(** Above the subnormal range the mantissa of a float has 53 bits. *)
Lemma mantissa_normal (x : float) (s : bool) (m : positive) (e : Z) :
  Prim2SF x = S754_finite s m e -> (-1074 < e)%Z ->
  (2 ^ 52 <= Z.pos m)%Z.
Proof.
  intros Hx He. pose proof (Prim2SF_valid x) as Hv. rewrite Hx in Hv.
  simpl in Hv. unfold bounded, canonical_mantissa, fexp in Hv.
  apply andb_true_iff in Hv as [Hc _]. apply Z.eqb_eq in Hc.
  unfold FloatOps.prec, emin, FloatOps.emax in Hc.
  assert (Hd : Z.pos (digits2_pos m) = 53%Z) by lia.
  pose proof (digits2_pos_lower m) as Hl. rewrite Hd in Hl. exact Hl.
Qed.

Lemma round_half_even_between (a b n d : Z) :
  (0 < d)%Z -> (a * d <= n <= b * d)%Z ->
  (a <= PyFloat.round_half_even n d <= b)%Z.
Proof.
  intros Hd Hn. unfold PyFloat.round_half_even.
  pose proof (Z.div_mod n d ltac:(lia)) as Hdm.
  pose proof (Z.mod_pos_bound n d Hd) as Hr.
  assert (Hq : (a <= n / d <= b)%Z).
  { split; [apply Z.div_le_lower_bound; lia|].
    apply Z.div_le_upper_bound; lia. }
  assert (Hq' : (0 < n mod d -> n / d < b)%Z) by nia.
  destruct (Z.compare_spec (2 * (n mod d)) d) as [He|He|He].
  - destruct (Z.even (n / d)); lia.
  - lia.
  - lia.
Qed.

Lemma quick_tenths_table :
  forallb (fun n => quick_tenth_ok (Z.of_nat n)) (seq 70 26) = true.
Proof. vm_compute. reflexivity. Qed.

Lemma quick_tenth_in_range (k : Z) :
  (70 <= k <= 95)%Z ->
  let y := (PyFloat.of_int k / 10.0)%float in
  PyFloat.between 7.0 9.5 y /\ PyFloat.round1 y = y.
Proof.
  intros Hk y.
  pose proof (proj1 (forallb_forall _ _) quick_tenths_table (Z.to_nat k))
    as H.
  cbv beta in H. rewrite Z2Nat.id in H by lia.
  assert (Hin : In (Z.to_nat k) (seq 70 26)) by (apply in_seq; lia).
  specialize (H Hin). unfold quick_tenth_ok in H. fold y in H.
  apply andb_true_iff in H as [H H3]. apply andb_true_iff in H as [H1 H2].
  split; [split; assumption|]. now apply FloatAxioms.Leibniz.eqb_spec.
Qed.

(** Rounding a number of [[7.0, 9.5]] gives a number of [[7.0, 9.5]] that
    rounding leaves unchanged. *)
Lemma round1_quick (c : float) :
  PyFloat.between 7.0 9.5 c ->
  PyFloat.between 7.0 9.5 (PyFloat.round1 c)
  /\ PyFloat.round1 (PyFloat.round1 c) = PyFloat.round1 c.
Proof.
  intros [H7 H95]. apply leb_le in H7, H95.
  destruct H7 as (_ & _ & H7). destruct H95 as (_ & _ & H95).
  change (Prim2SF 7.0%float)
    with (S754_finite false 7881299347898368 (-50)) in H7.
  change (Prim2SF 9.5%float)
    with (S754_finite false 5348024557502464 (-49)) in H95.
  pose proof (RoundFacts.mantissa_bound c) as Hm.
  pose proof (mantissa_normal c) as Hn.
  unfold PyFloat.round1.
  destruct (Prim2SF c) as [sc|sc| |sc m e];
    try (destruct sc); simpl in H7, H95; unfold lex_le, lex_lt in H7, H95;
    try (exfalso; destruct H7 as [H7|H7]; [lia|discriminate]);
    try (exfalso; destruct H95 as [H95|H95]; [lia|discriminate]).
  specialize (Hm false m e eq_refl). specialize (Hn false m e eq_refl).
  assert (He : (e = -50 /\ 7881299347898368 <= Z.pos m
                \/ e = -49 /\ Z.pos m <= 5348024557502464)%Z).
  { destruct H7 as [H7|H7]; destruct H95 as [H95|H95];
      try (inversion H7); try (inversion H95); lia. }
  assert (Hlt : (e <? -3)%Z = true) by (apply Z.ltb_lt; lia).
  rewrite Hlt.
  apply (quick_tenth_in_range
           (PyFloat.round_half_even (10 * Z.pos m) (2 ^ (- e)))).
  apply round_half_even_between.
  - apply Z.pow_pos_nonneg; lia.
  - destruct He as [[-> Hlo]|[-> Hhi]].
    + change (2 ^ (- -50))%Z with 1125899906842624%Z.
      change (2 ^ 53)%Z with 9007199254740992%Z in Hm. lia.
    + change (2 ^ (- -49))%Z with 562949953421312%Z.
      assert (Hlo : (2 ^ 52 <= Z.pos m)%Z) by (apply Hn; lia).
      change (2 ^ 52)%Z with 4503599627370496%Z in Hlo. lia.
Qed.

End QuickTestFacts.

(** X11.  The quick test of page 3 rounds a draw of [uniform(7.0, 9.5)]:
    for a draw within that range the score lies in [[7.0, 9.5]], is rounded
    to one decimal, and never maps to the 15% participant tier. *)
Theorem quick_test_tier (rng : Type)
    (uniform : float -> float -> rng -> float * rng) (g : rng) :
  PyFloat.between 7.0 9.5 (fst (uniform 7.0%float 9.5%float g)) ->
  let score := fst (quick_test_score rng uniform g) in
  PyFloat.between 7.0 9.5 score
  /\ is_rounded1 score
  /\ discount_by_score score <> tier_15
  /\ (20 <= percent (discount_by_score score))%Z.
Proof.
  intros Hu score. unfold score, quick_test_score.
  destruct (uniform 7.0%float 9.5%float g) as [u g']. simpl in *.
  destruct (QuickTestFacts.round1_quick u Hu) as [[H7 H95] Hr].
  split; [split; assumption|]. split; [exact Hr|].
  unfold discount_by_score. rewrite H7.
  destruct (9.0 <=? PyFloat.round1 u)%float;
    destruct (8.0 <=? PyFloat.round1 u)%float;
    (split; [intros E; apply (f_equal savings) in E; discriminate
            |vm_compute; congruence]).
Qed.

(** X11, a run with a generator whose next [random()] is 0.33. *)
Lemma quick_test_tier_witness :
  PyFloat.between 7.0 9.5
    (fst (quick_test_score (list float) list_uniform [0.33%float]))
  /\ is_rounded1
       (fst (quick_test_score (list float) list_uniform [0.33%float]))
  /\ discount_by_score
       (fst (quick_test_score (list float) list_uniform [0.33%float]))
     <> tier_15
  /\ (20 <= percent
              (discount_by_score
                 (fst (quick_test_score (list float) list_uniform
                         [0.33%float]))))%Z.
Proof.
  apply (quick_test_tier (list float) list_uniform [0.33%float]).
  split; reflexivity.
Defined.

(* ================================================================== *)
(** * The team assignment *)
(* ================================================================== *)

Section TeamFacts.

Variable rng : Type.
Variable randbelow : nat -> rng -> nat * rng.
Hypothesis randbelow_bound : randbelow_ok randbelow.

Lemma choice_in {A : Type} (default : A) (seq : list A) (g : rng) :
  seq <> [] -> In (fst (choice rng randbelow default seq g)) seq.
Proof.
  intros Hne. unfold choice.
  pose proof (randbelow_bound (List.length seq) g) as Hb.
  destruct (randbelow (List.length seq) g) as [i g']. simpl in *.
  apply nth_In. apply Hb. destruct seq; [congruence|simpl; lia].
Qed.

Lemma draw_teammates_spec (count : nat) (teammates : list string) (g : rng) :
  List.length (fst (draw_teammates rng randbelow count teammates g))
  = (List.length teammates + count)%nat
  /\ (forall m,
        In m (fst (draw_teammates rng randbelow count teammates g)) ->
        In m teammates \/ In m teammate_names).
Proof.
  revert teammates g. induction count as [|count IH]; intros teammates g.
  - simpl. split; [lia|auto].
  - simpl.
    pose proof (choice_in EmptyString teammate_names g ltac:(discriminate))
      as Hc.
    destruct (choice rng randbelow EmptyString teammate_names g) as [t g'].
    simpl in Hc. destruct (IH (teammates ++ [t]) g') as [Hlen Hin].
    split.
    + rewrite Hlen, length_app. simpl. lia.
    + intros m Hm. destruct (Hin m Hm) as [H|H]; [|now right].
      apply in_app_or in H as [H|[<-|[]]]; auto.
Qed.

Lemma assign_random_team_team_ok (user_name : string) (participants : Z)
    (g : rng) :
  team_ok (fst (assign_random_team rng randbelow user_name participants g)).
Proof.
  unfold assign_random_team.
  pose proof (choice_in EmptyString team_names g ltac:(discriminate)) as H1.
  destruct (choice rng randbelow EmptyString team_names g) as [team g1].
  pose proof (choice_in 0%Z [2%Z; 3%Z] g1 ltac:(discriminate)) as H2.
  destruct (choice rng randbelow 0%Z [2%Z; 3%Z] g1) as [count g2].
  pose proof (draw_teammates_spec (Z.to_nat count) [] g2) as [Hlen Hin].
  destruct (draw_teammates rng randbelow (Z.to_nat count) [] g2)
    as [teammates g3].
  unfold team_ok. simpl in *. repeat split.
  - exact H1.
  - destruct H2 as [<-|[<-|[]]]; rewrite Hlen; vm_compute; lia.
  - destruct H2 as [<-|[<-|[]]]; rewrite Hlen; vm_compute; lia.
  - intros m Hm. destruct (Hin m Hm) as [[]|H]. exact H.
Qed.

End TeamFacts.

Lemma list_randbelow_ok : randbelow_ok list_randbelow.
Proof.
  intros n [|r g] Hn; simpl; [exact Hn|].
  apply Nat.mod_upper_bound. lia.
Qed.

(** X12.  With a generator that keeps the contract of [_randbelow], the
    team assigned is one of the six team names with two or three teammates
    (a team of three or four with the user), each one of the eight teammate
    names; the same name may be drawn twice.  The two arguments are not
    read. *)
Theorem assign_random_team_shape (rng : Type)
    (randbelow : nat -> rng -> nat * rng)
    (user_name : string) (participants : Z) (g : rng) :
  randbelow_ok randbelow ->
  let '(team, teammates) :=
    fst (assign_random_team rng randbelow user_name participants g) in
  In team team_names
  /\ (2 <= List.length teammates <= 3)%nat
  /\ (forall m, In m teammates -> In m teammate_names)
  /\ (forall user_name' participants',
        assign_random_team rng randbelow user_name' participants' g
        = assign_random_team rng randbelow user_name participants g).
Proof.
  intros Hok.
  pose proof (assign_random_team_team_ok rng randbelow Hok user_name
                participants g) as H.
  destruct (fst (assign_random_team rng randbelow user_name participants g))
    as [team teammates].
  destruct H as (H1 & H2 & H3). simpl in *.
  split; [exact H1|]. split; [exact H2|]. split; [exact H3|].
  intros user_name' participants'. reflexivity.
Qed.

(** X12, a run: the generator draws the same teammate twice. *)
Lemma assign_random_team_shape_witness :
  fst (assign_random_team (list nat) list_randbelow "You" 50%Z
         [2; 0; 4; 4]%nat)
  = ("Data Wizards", ["Maya R."; "Maya R."])
  /\ (In "Data Wizards" team_names
      /\ (2 <= List.length ["Maya R."; "Maya R."] <= 3)%nat
      /\ (forall m, In m ["Maya R."; "Maya R."] -> In m teammate_names)
      /\ (forall user_name' participants',
            assign_random_team (list nat) list_randbelow user_name'
              participants' [2; 0; 4; 4]%nat
            = assign_random_team (list nat) list_randbelow "You" 50%Z
                [2; 0; 4; 4]%nat)).
Proof.
  split; [reflexivity|].
  exact (assign_random_team_shape (list nat) list_randbelow "You" 50%Z
           [2; 0; 4; 4]%nat list_randbelow_ok).
Defined.

(* ================================================================== *)
(** * The session state over any sequence of runs *)
(* ================================================================== *)

Section SessionFacts.

Variable rng : Type.
Variable uniform : float -> float -> rng -> float * rng.
Variable randbelow : nat -> rng -> nat * rng.

Lemma profile_ok_stored (resume_text : string) (p : profile) :
  extract_profile_from_resume (Some resume_text) = Some p ->
  profile_ok (set_name "Candidate" p).
Proof.
  intros H.
  destruct (extract_some _ _ H) as (text & r & _ & _ & _ & Hin & ->).
  repeat split. now exists r.
Qed.

Ltac inv_split :=
  unfold session_inv, has_profile;
  cbn [fst store_score set_exit_popup Session.resume_data
       Session.masterclass_joined Session.team_info Session.challenge_score
       Session.discount Session.exit_popup_shown Session.participants
       option_map];
  split; [|split; [|split; [|split]]].

Lemma page1_inv (analyze_pressed : bool) (resume_text : string)
    (s : Session.state) :
  session_inv s -> session_inv (page1 analyze_pressed resume_text s).
Proof.
  intros Hs. pose proof Hs as (Hj & Hd & Hp & He & Hn). unfold page1.
  destruct (negb (PyStr.is_empty resume_text) && analyze_pressed);
    [|exact Hs].
  destruct (extract_profile_from_resume (Some resume_text)) as [p|] eqn:E;
    [|exact Hs].
  pose proof (profile_ok_stored _ _ E) as Hok.
  inv_split; try assumption.
  - intros rd Hrd. inversion Hrd. subst. exact Hok.
  - intros _. destruct Hok as (_ & _ & Hne). now rewrite Hne.
Qed.

Lemma page2_join_inv (join_pressed : bool) (s : Session.state) (g : rng) :
  session_inv s ->
  session_inv (fst (page2_join rng randbelow join_pressed s g)).
Proof.
  intros Hs. pose proof Hs as (Hj & Hd & Hp & He & Hn). unfold page2_join.
  destruct (negb (Session.masterclass_joined s) && join_pressed);
    [|exact Hs].
  destruct (assign_random_team rng randbelow "You" 50 g)
    as [[team teammates] g'].
  inv_split; try assumption.
  split; [discriminate|reflexivity].
Qed.

Lemma page2_counter_inv (s : Session.state) (g : rng) :
  session_inv s ->
  session_inv (fst (page2_counter rng randbelow s g)).
Proof.
  intros Hs. pose proof Hs as (Hj & Hd & Hp & He & Hn).
  unfold page2_counter, randint.
  destruct (randbelow (Z.to_nat (5 - 0 + 1)) g) as [i g'].
  inv_split; try assumption.
  intros n Hsome. inversion Hsome. subst. clear Hsome. unfold get_or.
  destruct (Session.participants s) as [n0|];
    try (specialize (Hn n0 eq_refl)); lia.
Qed.

Lemma store_score_inv (score : float) (s : Session.state) :
  session_inv s -> session_inv (store_score score s).
Proof.
  intros (Hj & Hd & Hp & He & Hn). inv_split; try assumption. reflexivity.
Qed.

Lemma page4_inv (button : option page4_button) (s : Session.state) :
  session_inv s -> session_inv (page4 button s).
Proof.
  intros Hs. pose proof Hs as (Hj & Hd & Hp & He & Hn). unfold page4.
  destruct (has_profile s) eqn:Hh; [|exact Hs].
  destruct button as [[ | | ]|]; simpl;
    destruct (Session.exit_popup_shown s) eqn:Ex; simpl;
    try exact Hs;
    (inv_split; try assumption; first [discriminate|intros _; exact Hh]).
Qed.

Lemma step_inv (r : run) (s : Session.state) (g : rng) :
  session_inv s -> session_inv (fst (step rng uniform randbelow r s g)).
Proof.
  intros Hs. destruct r; simpl.
  - now apply page1_inv.
  - pose proof (page2_join_inv join_pressed s g Hs) as H.
    destruct (page2_join rng randbelow join_pressed s g) as [s1 g1].
    now apply page2_counter_inv.
  - unfold page3_submit.
    destruct (simulate_scoring rng uniform solution g) as [score g'].
    now apply store_score_inv.
  - unfold page3_quick_test.
    destruct (quick_test_score rng uniform g) as [score g'].
    now apply store_score_inv.
  - exact Hs.
  - now apply page4_inv.
  - exact Hs.
Qed.

Lemma session_from (P : Session.state -> Prop) :
  (forall r s g, P s -> P (fst (step rng uniform randbelow r s g))) ->
  forall runs s g,
    P s -> P (fst (session rng uniform randbelow runs s g)).
Proof.
  intros Hstep. induction runs as [|r runs IH]; intros s g Hs.
  - exact Hs.
  - simpl. pose proof (Hstep r s g Hs) as H.
    destruct (step rng uniform randbelow r s g) as [s' g'].
    now apply IH.
Qed.

Lemma initial_inv : session_inv Session.initial.
Proof.
  unfold session_inv, has_profile. simpl.
  repeat split; try discriminate; congruence.
Qed.

Lemma session_reach_inv (runs : list run) (g : rng) :
  session_inv
    (fst (session rng uniform randbelow runs Session.initial g)).
Proof. apply (session_from session_inv step_inv), initial_inv. Qed.

(** The team, once assigned, is never drawn again. *)
Lemma step_team_kept (r : run) (s : Session.state) (g : rng) :
  Session.masterclass_joined s = true ->
  Session.team_info (fst (step rng uniform randbelow r s g))
  = Session.team_info s
  /\ Session.masterclass_joined (fst (step rng uniform randbelow r s g))
     = true.
Proof.
  intros Hj. destruct r; simpl.
  - unfold page1.
    destruct (negb (PyStr.is_empty resume_text) && analyze_pressed);
      [|auto].
    destruct (extract_profile_from_resume (Some resume_text)); auto.
  - unfold page2_join. rewrite Hj. simpl.
    unfold page2_counter.
    destruct (randint rng randbelow 0 5 g) as [inc g']. auto.
  - unfold page3_submit.
    destruct (simulate_scoring rng uniform solution g). auto.
  - unfold page3_quick_test.
    destruct (quick_test_score rng uniform g). auto.
  - auto.
  - unfold page4. destruct (has_profile s); [|auto].
    destruct button as [[ | | ]|]; simpl;
      destruct (Session.exit_popup_shown s); auto.
  - auto.
Qed.

Hypothesis randbelow_bound : randbelow_ok randbelow.

Lemma step_team_inv (r : run) (s : Session.state) (g : rng) :
  team_inv s -> team_inv (fst (step rng uniform randbelow r s g)).
Proof.
  intros Ht. destruct r; simpl; try exact Ht.
  - unfold page1.
    destruct (negb (PyStr.is_empty resume_text) && analyze_pressed);
      [|exact Ht].
    destruct (extract_profile_from_resume (Some resume_text)); exact Ht.
  - unfold page2_join.
    destruct (negb (Session.masterclass_joined s) && join_pressed).
    + pose proof (assign_random_team_team_ok rng randbelow randbelow_bound
                    "You" 50%Z g) as Hok.
      destruct (assign_random_team rng randbelow "You" 50 g)
        as [[team teammates] g'].
      unfold page2_counter.
      destruct (randint rng randbelow 0 5 g') as [inc g''].
      intros t Hs. simpl in Hs. inversion Hs. subst. exact Hok.
    + unfold page2_counter.
      destruct (randint rng randbelow 0 5 g) as [inc g']. exact Ht.
  - unfold page3_submit.
    destruct (simulate_scoring rng uniform solution g). exact Ht.
  - unfold page3_quick_test.
    destruct (quick_test_score rng uniform g). exact Ht.
  - unfold page4. destruct (has_profile s); [|exact Ht].
    destruct button as [[ | | ]|]; simpl;
      destruct (Session.exit_popup_shown s); exact Ht.
Qed.

Lemma session_reach_team (runs : list run) (g : rng) :
  team_inv (fst (session rng uniform randbelow runs Session.initial g)).
Proof.
  apply (session_from team_inv step_team_inv). intros t H. discriminate.
Qed.

End SessionFacts.

Lemma pair_randbelow_ok : randbelow_ok pair_randbelow.
Proof.
  intros n [fs ns] Hn. unfold pair_randbelow. simpl.
  pose proof (list_randbelow_ok n ns Hn) as H.
  now destruct (list_randbelow n ns).
Qed.

Section SessionClaims.

Variable rng : Type.
Variable uniform : float -> float -> rng -> float * rng.
Variable randbelow : nat -> rng -> nat * rng.

(** X13.  Over any sequence of runs from the initial state, the
    participation counter, once page 2 has created it, stays between 12 and
    50; a run of page 2 creates it, and no run lowers it. *)
Theorem participants_bounds (runs : list run) (g : rng) :
  let s := fst (session rng uniform randbelow runs Session.initial g) in
  (forall n, Session.participants s = Some n -> (12 <= n <= 50)%Z)
  /\ (forall join_pressed g',
        Session.participants
          (fst (step rng uniform randbelow (Page2 join_pressed) s g'))
        <> None)
  /\ (forall r g' n,
        Session.participants s = Some n ->
        exists n',
          Session.participants (fst (step rng uniform randbelow r s g'))
          = Some n'
          /\ (n <= n' <= 50)%Z).
Proof.
  intros s.
  pose proof (session_reach_inv rng uniform randbelow runs g) as Hs.
  fold s in Hs. destruct Hs as (_ & _ & _ & _ & Hn).
  split; [exact Hn|]. split.
  - intros join_pressed g'. simpl.
    destruct (page2_join rng randbelow join_pressed s g') as [s1 g1].
    unfold page2_counter.
    destruct (randint rng randbelow 0 5 g1) as [inc g2]. discriminate.
  - intros r g' n Hsome. specialize (Hn n Hsome).
    destruct r; simpl;
      try (exists n; split; [exact Hsome|lia]).
    + unfold page1.
      destruct (negb (PyStr.is_empty resume_text) && analyze_pressed);
        [|exists n; split; [exact Hsome|lia]].
      destruct (extract_profile_from_resume (Some resume_text));
        exists n; (split; [exact Hsome|lia]).
    + assert (H1 : Session.participants
                     (fst (page2_join rng randbelow join_pressed s g'))
                   = Some n).
      { unfold page2_join.
        destruct (negb (Session.masterclass_joined s) && join_pressed);
          [|exact Hsome].
        now destruct (assign_random_team rng randbelow "You" 50 g')
          as [[team teammates] g1]. }
      destruct (page2_join rng randbelow join_pressed s g') as [s1 g1].
      simpl in H1. unfold page2_counter, randint.
      destruct (randbelow (Z.to_nat (5 - 0 + 1)) g1) as [i g2].
      cbn [fst Session.participants]. rewrite H1. unfold get_or.
      eexists. split; [reflexivity|]. lia.
    + unfold page3_submit.
      destruct (simulate_scoring rng uniform solution g').
      exists n. split; [exact Hsome|lia].
    + unfold page3_quick_test.
      destruct (quick_test_score rng uniform g').
      exists n. split; [exact Hsome|lia].
    + unfold page4. destruct (has_profile s);
        [|exists n; split; [exact Hsome|lia]].
      destruct button as [[ | | ]|]; simpl;
        destruct (Session.exit_popup_shown s);
        exists n; (split; [exact Hsome|lia]).
Qed.

(** X14.  Over any sequence of runs from the initial state, a score is
    stored exactly when a discount is, and the discount stored is the tier
    of the score stored, after the submit button and after the quick test
    alike: the results panel never reads a missing discount. *)
Theorem score_discount_consistent (runs : list run) (g : rng) :
  let s := fst (session rng uniform randbelow runs Session.initial g) in
  Session.discount s
  = option_map discount_by_score (Session.challenge_score s)
  /\ (Session.challenge_score s = None <-> Session.discount s = None)
  /\ (forall solution g',
        let s' :=
          fst (step rng uniform randbelow (Page3Submit solution) s g') in
        Session.challenge_score s'
        = Some (fst (simulate_scoring rng uniform solution g'))
        /\ Session.discount s'
           = Some (discount_by_score
                     (fst (simulate_scoring rng uniform solution g')))).
Proof.
  intros s.
  pose proof (session_reach_inv rng uniform randbelow runs g) as Hs.
  fold s in Hs. destruct Hs as (_ & Hd & _).
  split; [exact Hd|]. split.
  - rewrite Hd. destruct (Session.challenge_score s); simpl;
      split; congruence.
  - intros solution g'. simpl. unfold page3_submit.
    destruct (simulate_scoring rng uniform solution g') as [score g1].
    split; reflexivity.
Qed.

(** X15.  Over any sequence of runs from the initial state, a stored
    profile carries the name "Candidate", a declared role, and is not the
    empty dict, so pages 4 and 5 accept it; its nuggets hold the keys
    headline, nugget_1 and cta that the pages read, and every email for it
    opens with "Hi Candidate,".  The exit popup is only ever shown with a
    stored profile. *)
Theorem stored_profile_usable (runs : list run) (g : rng) (rd : profile) :
  let s := fst (session rng uniform randbelow runs Session.initial g) in
  Session.resume_data s = Some rd ->
  name rd = Some "Candidate"
  /\ (exists r, role rd = Some r /\ In r declared_roles)
  /\ has_profile s = true
  /\ (forall k,
        In k ["headline"; "nugget_1"; "cta"] ->
        str_dict_get k
          (generate_personalized_nuggets (Some rd) "AI & Machine Learning")
        <> None)
  /\ (forall email_type,
        exists e rest,
          page5_email email_type s = Some e
          /\ content e
             = ("Hi Candidate," ++ String newline (String newline rest))
               %string).
Proof.
  intros s Hrd.
  pose proof (session_reach_inv rng uniform randbelow runs g) as Hs.
  fold s in Hs. destruct Hs as (_ & _ & Hp & _ & _).
  destruct (Hp rd Hrd) as (Hname & Hrole & Hne).
  split; [exact Hname|]. split; [exact Hrole|].
  assert (Hh : has_profile s = true)
    by (unfold has_profile; now rewrite Hrd, Hne).
  split; [exact Hh|]. split.
  - intros k Hk. unfold generate_personalized_nuggets. rewrite Hne.
    destruct (String.eqb (get_or (role rd) "Professional") "Data Analyst");
      simpl in Hk; destruct Hk as [<-|[<-|[<-|[]]]]; discriminate.
  - intros email_type. unfold page5_email. rewrite Hh, Hrd.
    unfold generate_personalized_email. rewrite Hname. simpl get_or.
    destruct (String.eqb email_type "2 Hours Post-Exit");
      [|destruct (String.eqb email_type "24 Hours Later")];
      simpl; eexists; eexists; split; reflexivity.
Qed.

(** X16.  With a generator that keeps the contract of [_randbelow], over
    any sequence of runs from the initial state: the user has joined
    exactly when a team is recorded; the team recorded is one of the six
    team names with two or three teammates out of the eight names; and
    once the user has joined no run changes the team. *)
Theorem team_assigned_once (runs : list run) (g : rng) :
  randbelow_ok randbelow ->
  let s := fst (session rng uniform randbelow runs Session.initial g) in
  (Session.masterclass_joined s = true <-> Session.team_info s <> None)
  /\ (forall team teammates,
        Session.team_info s = Some (team, teammates) ->
        In team team_names
        /\ (2 <= List.length teammates <= 3)%nat
        /\ (forall m, In m teammates -> In m teammate_names))
  /\ (forall r g',
        Session.masterclass_joined s = true ->
        Session.team_info (fst (step rng uniform randbelow r s g'))
        = Session.team_info s).
Proof.
  intros Hok s.
  pose proof (session_reach_inv rng uniform randbelow runs g) as Hs.
  pose proof (session_reach_team rng uniform randbelow Hok runs g) as Ht.
  fold s in Hs, Ht. destruct Hs as (Hj & _).
  split; [exact Hj|]. split.
  - intros team teammates Hsome. exact (Ht _ Hsome).
  - intros r g' Hjoined.
    exact (proj1 (step_team_kept rng uniform randbelow r s g' Hjoined)).
Qed.

End SessionClaims.

(** X15, a run: a resume is analysed on page 1, then the user leaves on
    page 4. *)
Lemma stored_profile_usable_witness :
  let s :=
    fst (session (list float * list nat) pair_uniform pair_randbelow
           [Page1 true "Python developer"; Page4 (Some ImLeaving)]
           Session.initial ([], [])) in
  Session.exit_popup_shown s = true
  /\ has_profile s = true
  /\ forall email_type,
       exists e rest,
         page5_email email_type s = Some e
         /\ content e
            = ("Hi Candidate," ++ String newline (String newline rest))
              %string.
Proof.
  intros s. split; [reflexivity|].
  pose proof (stored_profile_usable (list float * list nat) pair_uniform
                pair_randbelow
                [Page1 true "Python developer"; Page4 (Some ImLeaving)]
                ([], [])
                {| role := Some "Software Engineer";
                   experience_years := Some 1%Z;
                   skills := Some ["python"];
                   seniority := Some "Junior";
                   raw_text_preview := Some "Python developer";
                   name := Some "Candidate" |}
                eq_refl) as H.
  exact (conj (proj1 (proj2 (proj2 H))) (proj2 (proj2 (proj2 (proj2 H))))).
Defined.

(** X16, a run: the user joins on page 2, and a second press of the button
    on a later run draws no new team. *)
Lemma team_assigned_once_witness :
  let s :=
    fst (session (list float * list nat) pair_uniform pair_randbelow
           [Page2 true; Page3QuickTest; Page2 true]
           Session.initial ([0.5%float], [1; 1; 3; 6; 2; 5; 5; 5]%nat)) in
  Session.team_info s = Some ("Code Crushers", ["John D."; "Lisa C."; "Priya S."])
  /\ (Session.masterclass_joined s = true <-> Session.team_info s <> None).
Proof.
  intros s. split; [reflexivity|].
  exact (proj1 (team_assigned_once (list float * list nat) pair_uniform
                  pair_randbelow
                  [Page2 true; Page3QuickTest; Page2 true]
                  ([0.5%float], [1; 1; 3; 6; 2; 5; 5; 5]%nat)
                  pair_randbelow_ok)).
Defined.
